(** * VolPipelineApp: the filter, surface and time-series stages

    A shallow embedding of [modules/curve_filter.py],
    [modules/vol_extractor.py], [modules/volatility_surface.py] and
    [modules/time_series_plotter.py], and the properties of the pipeline
    stated over it.

    Conventions of the embedding.
    - A pandas [DataFrame] is its ordered column labels and its rows; a row
      maps a column label to a cell, an absent label reading as a missing
      value.  Two header labels that become equal after cleaning are outside
      the model.
    - Floating-point values are exact rationals ([Qc]); a timestamp is a
      calendar date.
    - The text parsers of pandas ([to_datetime], [to_numeric]) and the text
      form of a number are an interface ([PandasText]): every statement holds
      for every implementation of it.
    - A stage runs in a small monad over a world made of the printed
      diagnostics, the [read_csv] calls issued and the output folder.  A file
      of the output folder holds the table written to it; reading it back
      gives that table. *)

From Stdlib Require Import QArith Qcanon Ascii String.
From stdpp Require Import base strings list gmap pretty sorting.

Close Scope Qc_scope.
Close Scope Q_scope.
Open Scope string_scope.
Open Scope list_scope.

(** ** Python strings *)

Module Py.

(** [s.endswith(suffix)] *)
Definition endswith (s suffix : string) : bool :=
  let n := String.length s in
  let k := String.length suffix in
  if decide (k ≤ n)%nat then String.eqb (String.substring (n - k) k s) suffix
  else false.

(** [s.startswith(p)] *)
Definition startswith (s p : string) : bool := String.prefix p s.

(** [sub in s] *)
Fixpoint contains (sub s : string) : bool :=
  String.prefix sub s ||
  match s with
  | EmptyString => false
  | String _ s' => contains sub s'
  end.

Definition is_space (c : ascii) : bool :=
  let n := nat_of_ascii c in
  bool_decide (n = 32)%nat || (bool_decide (9 ≤ n)%nat && bool_decide (n ≤ 13)%nat).

Fixpoint lstrip (s : string) : string :=
  match s with
  | String c s' => if is_space c then lstrip s' else s
  | EmptyString => EmptyString
  end.

Fixpoint rstrip (s : string) : string :=
  match s with
  | EmptyString => EmptyString
  | String c s' =>
      match rstrip s' with
      | EmptyString => if is_space c then EmptyString else String c EmptyString
      | t => String c t
      end
  end.

(** [s.strip()], on the ASCII white space *)
Definition strip (s : string) : string := rstrip (lstrip s).

Definition upper_char (c : ascii) : ascii :=
  let n := nat_of_ascii c in
  if bool_decide (97 ≤ n)%nat && bool_decide (n ≤ 122)%nat then ascii_of_nat (n - 32)
  else c.

(** [s.upper()], on the ASCII letters *)
Fixpoint upper (s : string) : string :=
  match s with
  | EmptyString => EmptyString
  | String c s' => String (upper_char c) (upper s')
  end.

Definition lower_char (c : ascii) : ascii :=
  let n := nat_of_ascii c in
  if bool_decide (65 ≤ n)%nat && bool_decide (n ≤ 90)%nat then ascii_of_nat (n + 32)
  else c.

(** [s.lower()], on the ASCII letters *)
Fixpoint lower (s : string) : string :=
  match s with
  | EmptyString => EmptyString
  | String c s' => String (lower_char c) (lower s')
  end.

(** The zero-width space U+200B, as its three UTF-8 bytes. *)
Definition zwsp : string :=
  String (ascii_of_nat 226) (String (ascii_of_nat 128)
    (String (ascii_of_nat 139) EmptyString)).

(** [s.replace(ZWSP, '')], all occurrences; the fuel is the length of [s]. *)
Fixpoint remove_zwsp_go (fuel : nat) (s : string) : string :=
  match fuel with
  | O => s
  | S fuel' =>
      if String.prefix zwsp s then remove_zwsp_go fuel' (String.substring 3 (String.length s - 3) s)
      else match s with
           | EmptyString => EmptyString
           | String c s' => String c (remove_zwsp_go fuel' s')
           end
  end.

Definition remove_zwsp (s : string) : string :=
  remove_zwsp_go (String.length s) s.

(** [s.split(sep)] for a one-character separator *)
Fixpoint split (sep : ascii) (s : string) : list string :=
  match s with
  | EmptyString => [EmptyString]
  | String c s' =>
      if Ascii.eqb c sep then EmptyString :: split sep s'
      else match split sep s' with
           | [] => [String c EmptyString]
           | w :: ws => String c w :: ws
           end
  end.

(** [s.replace(a, b)] for one-character [a] and [b] *)
Fixpoint replace_char (a b : ascii) (s : string) : string :=
  match s with
  | EmptyString => EmptyString
  | String c s' => String (if Ascii.eqb c a then b else c) (replace_char a b s')
  end.

(** [str(n)] for a non-negative integer *)
Definition str_nat (n : nat) : string := pretty n.

(** [f"{n:02d}"] *)
Definition fmt_02d (n : nat) : string :=
  if decide (n < 10)%nat then "0" +:+ pretty n else pretty n.

Definition is_digit (c : ascii) : bool :=
  let n := nat_of_ascii c in bool_decide (48 ≤ n)%nat && bool_decide (n ≤ 57)%nat.

(** The truth value of an optional string argument ([if month:]). *)
Definition truthy (o : option string) : bool :=
  match o with
  | Some s => negb (String.eqb s "")
  | None => false
  end.

(** [os.path.join(root, file)] for a relative [file] *)
Definition path_join (root file : string) : string :=
  if String.eqb root "" then file
  else if endswith root "/" then root +:+ file
  else root +:+ "/" +:+ file.

(** Insertion sort by a boolean order; stable. *)
Fixpoint insert_by {A} (le : A → A → bool) (x : A) (l : list A) : list A :=
  match l with
  | [] => [x]
  | y :: l' => if le x y then x :: l else y :: insert_by le x l'
  end.

Fixpoint sort_by {A} (le : A → A → bool) (l : list A) : list A :=
  match l with
  | [] => []
  | x :: l' => insert_by le x (sort_by le l')
  end.

(** [sorted(names)] *)
Definition sorted (l : list string) : list string := sort_by String.leb l.

End Py.

(** ** pandas tables *)

Module Pd.

(** The dates a [Timestamp] can hold: pandas keeps nanoseconds in 64 bits,
    which spans the years 1677 to 2262. *)
Definition valid_date (y m d : nat) : bool :=
  bool_decide (1677 ≤ y ≤ 2262)%nat && bool_decide (1 ≤ m ≤ 12)%nat
  && bool_decide (1 ≤ d ≤ 31)%nat.

(** A [Timestamp], to the day. *)
Record Timestamp := {
  ts_year : nat;
  ts_month : nat;
  ts_day : nat;
  ts_valid : Is_true (valid_date ts_year ts_month ts_day)
}.

Lemma Timestamp_eq (a b : Timestamp) :
  ts_year a = ts_year b → ts_month a = ts_month b → ts_day a = ts_day b → a = b.
Proof.
  destruct a as [y m d v], b as [y' m' d' v']; simpl.
  intros -> -> ->. f_equal. apply proof_irrel.
Qed.

#[global] Instance Timestamp_eq_dec : EqDecision Timestamp.
Proof.
  refine (λ a b,
    cast_if (decide (ts_year a = ts_year b ∧ ts_month a = ts_month b
                     ∧ ts_day a = ts_day b))).
  - destruct a0 as (?&?&?). by apply Timestamp_eq.
  - intros ->. tauto.
Defined.

(** The timestamp of a valid date. *)
Definition mk_date (y m d : nat) : option Timestamp :=
  match decide (Is_true (valid_date y m d)) with
  | left v => Some {| ts_year := y; ts_month := m; ts_day := d; ts_valid := v |}
  | right _ => None
  end.

(** [a <= b] on timestamps *)
Definition ts_leb (a b : Timestamp) : bool :=
  if decide (ts_year a = ts_year b) then
    if decide (ts_month a = ts_month b) then bool_decide (ts_day a ≤ ts_day b)%nat
    else bool_decide (ts_month a < ts_month b)%nat
  else bool_decide (ts_year a < ts_year b)%nat.

(** A cell of a table; [NaN] is the missing value ([NaN], [NaT], [None]). *)
Inductive cell :=
| Str (s : string)
| Num (q : Qc)
| Date (t : Timestamp)
| NaN.

#[global] Instance cell_eq_dec : EqDecision cell.
Proof. solve_decision. Defined.

Record DataFrame := {
  columns : list string;
  rows : list (gmap string cell)
}.

#[global] Instance DataFrame_eq_dec : EqDecision DataFrame.
Proof. solve_decision. Defined.

(** The text side of pandas: [to_datetime] and [to_numeric] on a string,
    and [str] of a number and of a timestamp. *)
Class PandasText := {
  parse_datetime : string → option Timestamp;
  parse_numeric : string → option Qc;
  str_of_num : Qc → string;
  str_of_date : Timestamp → string
}.

(** [row[c]] *)
Definition at_ (r : gmap string cell) (c : string) : cell :=
  default NaN (r !! c).

Definition notnull (c : cell) : bool :=
  match c with NaN => false | _ => true end.

(** [c in df.columns] *)
Definition has_column (df : DataFrame) (c : string) : bool :=
  bool_decide (c ∈ columns df).

(** [df.empty] *)
Definition empty (df : DataFrame) : bool :=
  match rows df with [] => true | _ => match columns df with [] => true | _ => false end end.

(** [df[c] = f(row)], row by row; a new label goes last. *)
Definition assign (df : DataFrame) (c : string) (f : gmap string cell → cell) : DataFrame :=
  {| columns := if decide (c ∈ columns df) then columns df else columns df ++ [c];
     rows := (λ r, <[c := f r]> r) <$> rows df |}.

(** [df[mask]] for a mask computed row by row *)
Definition select (df : DataFrame) (p : gmap string cell → bool) : DataFrame :=
  {| columns := columns df; rows := filter (λ r, p r = true) (rows df) |}.

(** [df.columns = f(df.columns)] *)
Definition rename_columns (f : string → string) (df : DataFrame) : DataFrame :=
  {| columns := f <$> columns df;
     rows := (λ r : gmap string cell, kmap (M2:=gmap string) f r) <$> rows df |}.

Definition union_columns (acc new : list string) : list string :=
  acc ++ filter (λ c, c ∉ acc) new.

(** [pd.concat(frames, ignore_index=True)] *)
Definition concat (frames : list DataFrame) : DataFrame :=
  {| columns := foldl (λ acc d, union_columns acc (columns d)) [] frames;
     rows := mjoin (rows <$> frames) |}.

(** A matrix indexed by date: the dates, the column labels and, for each
    label, the values down the dates ([None] is [NaN]). *)
Record Matrix := {
  index : list Timestamp;
  labels : list cell;
  data : list (list (option Qc))
}.

Definition sum (vs : list Qc) : Qc := foldr Qcplus (Q2Qc 0) vs.

Definition of_nat (n : nat) : Qc := Q2Qc (inject_Z (Z.of_nat n)).

(** The mean of the defined values; [NaN] when there is none. *)
Definition mean (vs : list Qc) : option Qc :=
  match vs with
  | [] => None
  | _ :: _ => Some (sum vs / of_nat (length vs))%Qc
  end.

(** An order on labels: texts, numbers and dates among themselves. *)
Definition cell_leb (a b : cell) : bool :=
  match a, b with
  | Str x, Str y => String.leb x y
  | Num x, Num y => Qle_bool x y
  | Date x, Date y => ts_leb x y
  | Str _, _ => true
  | Num _, Str _ => false
  | Num _, _ => true
  | Date _, NaN => true
  | Date _, _ => false
  | NaN, NaN => true
  | NaN, _ => false
  end.

(** The observations a pivot counts: the rows whose index is a date, whose
    label is present and whose value is a number. *)
Definition observations (idx col val : string) (df : DataFrame)
  : list (Timestamp * cell * Qc) :=
  omap (λ r, match at_ r idx, at_ r val with
             | Date t, Num v =>
                 if notnull (at_ r col) then Some (t, at_ r col, v) else None
             | _, _ => None
             end) (rows df).

Definition cell_mean (obs : list (Timestamp * cell * Qc)) (t : Timestamp) (c : cell)
  : option Qc :=
  mean ((λ o, o.2) <$> filter (λ o, o.1.1 = t ∧ o.1.2 = c) obs).

(** [df.pivot_table(index=idx, columns=col, values=val, aggfunc='mean')]:
    rows with a missing key or value count for nothing, the dates and the
    labels come out sorted, a cell is the mean of its observations. *)
Definition pivot_table (idx col val : string) (df : DataFrame) : Matrix :=
  let obs := observations idx col val df in
  let dates := Py.sort_by ts_leb (remove_dups ((λ o, o.1.1) <$> obs)) in
  let labs := Py.sort_by cell_leb (remove_dups ((λ o, o.1.2) <$> obs)) in
  {| index := dates;
     labels := labs;
     data := (λ c, (λ t, cell_mean obs t c) <$> dates) <$> labs |}.

(** [pivot.empty] *)
Definition matrix_empty (m : Matrix) : bool :=
  match index m, labels m with
  | _ :: _, _ :: _ => false
  | _, _ => true
  end.

(** [pivot.dropna(axis=1, how='all')] *)
Definition dropna_columns (m : Matrix) : Matrix :=
  let kept := filter (λ lc, Exists is_Some lc.2) (zip (labels m) (data m)) in
  {| index := index m; labels := kept.*1; data := kept.*2 |}.

(** The mean of a window: [NaN] unless it holds [min_periods] numbers. *)
Definition window_mean (min_periods : nat) (win : list (option Qc)) : option Qc :=
  let obs := omap id win in
  if decide (min_periods ≤ length obs)%nat then mean obs else None.

(** The last [n] elements of a list. *)
Definition last_rows {A} (n : nat) (l : list A) : list A :=
  drop (length l - n) l.

(** The window after one more row: the last [window] rows seen. *)
Definition push (window : nat) (win : list (option Qc)) (x : option Qc)
  : list (option Qc) :=
  last_rows window (win ++ [x]).

Fixpoint roll (window min_periods : nat) (win col : list (option Qc))
  : list (option Qc) :=
  match col with
  | [] => []
  | x :: xs =>
      let win' := push window win x in
      window_mean min_periods win' :: roll window min_periods win' xs
  end.

(** [m.rolling(window=window, min_periods=min_periods).mean()], column by
    column down the rows; pandas refuses [min_periods > window]. *)
Definition rolling_mean (window min_periods : nat) (m : Matrix) : option Matrix :=
  if decide (min_periods ≤ window)%nat then
    Some {| index := index m; labels := labels m;
            data := roll window min_periods [] <$> data m |}
  else None.

Fixpoint diff_from (prev : option Qc) (col : list (option Qc)) : list (option Qc) :=
  match col with
  | [] => []
  | x :: xs =>
      match x, prev with
      | Some a, Some b => Some (a - b)%Qc
      | _, _ => None
      end :: diff_from x xs
  end.

(** [m.diff()]: each row minus the one before it. *)
Definition diff (m : Matrix) : Matrix :=
  {| index := index m; labels := labels m; data := diff_from None <$> data m |}.

(** [len(m)] *)
Definition nrows (m : Matrix) : nat := length (index m).

Section text.
Context `{PandasText}.

(** [str(x)] of a cell, as [astype(str)] gives it *)
Definition cell_str (c : cell) : string :=
  match c with
  | Str s => s
  | Num q => str_of_num q
  | Date t => str_of_date t
  | NaN => "nan"
  end.

(** [pd.to_datetime(x, errors='coerce')] on one cell *)
Definition to_datetime_coerce (c : cell) : cell :=
  match c with
  | Str s => from_option Date NaN (parse_datetime s)
  | Date t => Date t
  | _ => NaN
  end.

(** [pd.to_numeric(x, errors='coerce')] on one cell *)
Definition to_numeric_coerce (c : cell) : cell :=
  match c with
  | Str s => from_option Num NaN (parse_numeric s)
  | Num q => Num q
  | _ => NaN
  end.
End text.

(** [series.dt.year.astype(str)] on one cell *)
Definition dt_year_str (c : cell) : cell :=
  match c with Date t => Str (Py.str_nat (ts_year t)) | _ => NaN end.

(** [series.dt.month.apply(lambda x: f"{x:02d}")] on one cell *)
Definition dt_month_02d (c : cell) : cell :=
  match c with Date t => Str (Py.fmt_02d (ts_month t)) | _ => NaN end.

(** The key of a row under [groupby(['year', 'month'])]; a row with a
    missing key belongs to no group. *)
Definition ym_key (r : gmap string cell) : option (string * string) :=
  match at_ r "year", at_ r "month" with
  | Str y, Str m => Some (y, m)
  | _, _ => None
  end.

Definition ym_leb (a b : string * string) : bool :=
  if String.eqb a.1 b.1 then String.leb a.2 b.2 else String.leb a.1 b.1.

(** [df.groupby(['year', 'month'])]: the groups in key order, each with
    its rows in the order of [df]. *)
Definition groupby_ym (df : DataFrame) : list ((string * string) * DataFrame) :=
  let keys := Py.sort_by ym_leb (remove_dups (omap ym_key (rows df))) in
  (λ k, (k, {| columns := columns df;
               rows := filter (λ r, ym_key r = Some k) (rows df) |})) <$> keys.

End Pd.

Import Pd.

(** ** Exceptions, files and the world of a stage *)

Inductive Exn :=
| KeyError (key : string)
| AttributeError (what : string)
| IndexError
| ValueError (what : string)
| OSError
| UnicodeDecodeError
| ParserError
| EmptyDataError.

Inductive result (A : Type) :=
| Ok (a : A)
| Raise (e : Exn).
Arguments Ok {A} a.
Arguments Raise {A} e.

Inductive Encoding := utf_8 | utf_8_sig | utf_16.

(** [on_bad_lines] of [pd.read_csv]: its default raises, ['skip'] drops the
    malformed lines. *)
Inductive BadLines := bad_error | bad_skip.

#[global] Instance Encoding_eq_dec : EqDecision Encoding.
Proof. solve_decision. Defined.

(** An input file: its name, what [os.path.getsize] answers and what
    [pd.read_csv] answers under each encoding and bad-line policy. *)
Record File := {
  fname : string;
  fsize : result nat;
  fparse : Encoding → BadLines → result DataFrame
}.

(** What a stage prints. *)
Inductive Diag :=
| FailedToRead (path : string) (e1 e2 : Exn)
| SkipReadError (path : string)
| FileTooSmall (path : string)
| EmptyFrame (path : string)
| ReadError (path : string) (e : Exn)
| MissingColumns (missing : list string) (path : string)
| NoDateColumn (file : string) (available : list string)
| ProcessingError (file : string) (e : Exn)
| Notice (msg : string).

Inductive Event :=
| ReadCsv (path : string) (enc : Encoding) (policy : BadLines)
| Printed (d : Diag).

#[global] Instance Exn_eq_dec : EqDecision Exn.
Proof. solve_decision. Defined.

#[global] Instance BadLines_eq_dec : EqDecision BadLines.
Proof. solve_decision. Defined.

#[global] Instance Diag_eq_dec : EqDecision Diag.
Proof. solve_decision. Defined.

#[global] Instance Event_eq_dec : EqDecision Event.
Proof. solve_decision. Defined.

(** What a stage saves besides its CSV tables: a workbook with its named
    sheets, a matrix written as CSV, a figure. *)
Inductive Artifact :=
| Workbook (sheets : list (string * Matrix))
| MatrixCsv (m : Matrix)
| Figure.

(** The world of a stage: what was printed and read so far, the tables of
    the output folder by file name, and the other artifacts in the order
    they were saved. *)
Record World := {
  trace : list Event;
  outdir : gmap string DataFrame;
  saved : list (string * Artifact)
}.

Definition IO (A : Type) : Type := World → result A * World.

Module IOMonad.

Definition ret {A} (a : A) : IO A := λ w, (Ok a, w).

Definition bind {A B} (m : IO A) (k : A → IO B) : IO B :=
  λ w, match m w with
       | (Ok a, w') => k a w'
       | (Raise e, w') => (Raise e, w')
       end.

Definition raise {A} (e : Exn) : IO A := λ w, (Raise e, w).

(** [try: body except Exception as e: handler(e)] *)
Definition try_except {A} (body : IO A) (handler : Exn → IO A) : IO A :=
  λ w, match body w with
       | (Ok a, w') => (Ok a, w')
       | (Raise e, w') => handler e w'
       end.

Definition emit (ev : Event) : IO unit :=
  λ w, (Ok tt, {| trace := trace w ++ [ev]; outdir := outdir w; saved := saved w |}).

Definition print (d : Diag) : IO unit := emit (Printed d).

(** Several [print] calls in a row. *)
Definition notices (msgs : list string) : IO unit :=
  λ w, (Ok tt, {| trace := trace w ++ ((λ m, Printed (Notice m)) <$> msgs);
                  outdir := outdir w; saved := saved w |}).

Definition lift {A} (r : result A) : IO A := λ w, (r, w).

(** [os.path.getsize(path)] *)
Definition getsize (f : File) : IO nat := lift (fsize f).

(** [pd.read_csv(path, encoding=enc, on_bad_lines=policy)] on an input file *)
Definition read_csv (path : string) (f : File) (enc : Encoding) (policy : BadLines)
  : IO DataFrame :=
  bind (emit (ReadCsv path enc policy)) (λ _, lift (fparse f enc policy)).

(** [df.to_csv(os.path.join(output_folder, name), index=False)] *)
Definition to_csv (name : string) (df : DataFrame) : IO unit :=
  λ w, (Ok tt, {| trace := trace w; outdir := <[name := df]> (outdir w);
                  saved := saved w |}).

(** [writer.save()], [plt.savefig(path)], [pivot.to_csv(path)] *)
Definition save (name : string) (a : Artifact) : IO unit :=
  λ w, (Ok tt, {| trace := trace w; outdir := outdir w;
                  saved := saved w ++ [(name, a)] |}).

(** [sorted(os.listdir(output_folder))] *)
Definition sorted_listdir : IO (list string) :=
  λ w, (Ok (Py.sorted (map_to_list (outdir w)).*1), w).

(** [pd.read_csv(os.path.join(output_folder, name))] *)
Definition read_back (name : string) : IO DataFrame :=
  λ w, match outdir w !! name with
       | Some df => (Ok df, w)
       | None => (Raise OSError, w)
       end.

(** [for x in l: s = body(x, s)] *)
Fixpoint for_each {A S} (l : list A) (body : A → S → IO S) (s : S) : IO S :=
  match l with
  | [] => ret s
  | x :: l' => bind (body x s) (for_each l' body)
  end.

(** [[f(x) for x in l]] *)
Fixpoint map_io {A B} (f : A → IO B) (l : list A) : IO (list B) :=
  match l with
  | [] => ret []
  | x :: l' => bind (f x) (λ y, bind (map_io f l') (λ ys, ret (y :: ys)))
  end.

End IOMonad.

Import IOMonad.

Notation "x <- m ;; k" := (bind m (λ x, k))
  (at level 100, m at next level, right associativity).
Notation "m ;;; k" := (bind m (λ _, k))
  (at level 100, right associativity).

(** A Python [dict] whose values are lists, in insertion order:
    [if key not in d: d[key] = []] then [d[key].append(x)]. *)
Fixpoint dict_append {V} (key : string) (x : V) (d : list (string * list V))
  : list (string * list V) :=
  match d with
  | [] => [(key, [x])]
  | (k, xs) :: d' =>
      if decide (k = key) then (k, xs ++ [x]) :: d'
      else (k, xs) :: dict_append key x d'
  end.

(** [re.match(r'\d{4}-\d{2}\.csv', f)]: the pattern is matched at the start
    of [f] and puts no condition on what follows. *)
Definition monthly_pattern (f : string) : bool :=
  match f with
  | String a (String b (String c (String d (String dash (String e (String g rest)))))) =>
      Py.is_digit a && Py.is_digit b && Py.is_digit c && Py.is_digit d
      && Ascii.eqb dash "-" && Py.is_digit e && Py.is_digit g
      && String.prefix ".csv" rest
  | _ => false
  end.

(** [df.columns.str.strip().str.replace(ZWSP, '')] on one label *)
Definition clean_label (s : string) : string := Py.remove_zwsp (Py.strip s).

(** ** [modules/curve_filter.py] *)

Module CurveFilter.
Section stage.
Context `{PandasText}.
Variables (year : string) (target_curves target_strikes : list string).
Variable month : option string.

(** The local variables of the loop over the input files. *)
Record Acc := {
  file_dict : list (string * list DataFrame);
  csv_files_found : nat;
  csv_files_processed : nat
}.

Definition required_columns : list string := ["Basis"; "Type"; "Curve_Date"].

(** The [try] block that reads one file; [None] stands for its [continue]. *)
Definition read_input (full_path : string) (f : File) : IO (option DataFrame) :=
  try_except
    (sz <- getsize f;;
     if decide (sz < 10)%nat then
       print (FileTooSmall full_path);;; ret None
     else
       df <- read_csv full_path f utf_8 bad_skip;;
       if Pd.empty df then print (EmptyFrame full_path);;; ret None
       else ret (Some df))
    (λ e, print (ReadError full_path e);;; ret None).

(** From [df['Basis'] = ...] to [df['date'] = df['Curve_Date']]. *)
Definition normalise (df : DataFrame) : DataFrame :=
  let df := assign df "Basis" (λ r, Str (Py.strip (cell_str (at_ r "Basis")))) in
  let df := assign df "Type" (λ r, Str (Py.upper (Py.strip (cell_str (at_ r "Type"))))) in
  let df := assign df "Curve_Date" (λ r, to_datetime_coerce (at_ r "Curve_Date")) in
  let df := select df (λ r, notnull (at_ r "Curve_Date")) in
  let df := assign df "year" (λ r, dt_year_str (at_ r "Curve_Date")) in
  let df := assign df "month" (λ r, dt_month_02d (at_ r "Curve_Date")) in
  assign df "date" (λ r, at_ r "Curve_Date").

Definition isin_upper (c : cell) (targets : list string) : bool :=
  match c with
  | Str s => bool_decide (Py.upper s ∈ Py.upper <$> targets)
  | _ => false
  end.

Definition isin (c : cell) (targets : list string) : bool :=
  match c with
  | Str s => bool_decide (s ∈ targets)
  | _ => false
  end.

(** The mask on curve, strike and year. *)
Definition mask (r : gmap string cell) : bool :=
  isin_upper (at_ r "Basis") target_curves
  && isin (at_ r "Type") (Py.upper <$> target_strikes)
  && bool_decide (at_ r "year" = Str year).

Definition month_is (m : string) (r : gmap string cell) : bool :=
  bool_decide (at_ r "month" = Str m).

(** [df_filtered], the rows of one file that the stage retains. *)
Definition df_filtered (df : DataFrame) : DataFrame :=
  let d := select (normalise df) mask in
  match month with
  | Some m => if Py.truthy month then select d (month_is m) else d
  | None => d
  end.

Definition month_key (ym : string * string) : string := ym.1 +:+ "-" +:+ ym.2.

(** The body of [for ym, group in df_filtered.groupby(['year', 'month'])]. *)
Definition add_group (fd : list (string * list DataFrame))
    (g : (string * string) * DataFrame) : list (string * list DataFrame) :=
  if Py.truthy month && negb (bool_decide (Some g.1.2 = month)) then fd
  else dict_append (month_key g.1) g.2 fd.

Definition add_groups (fd : list (string * list DataFrame)) (d : DataFrame)
  : list (string * list DataFrame) :=
  foldl add_group fd (groupby_ym d).

(** The body of [for file in files]. *)
Definition process_file (root : string) (f : File) (acc : Acc) : IO Acc :=
  if negb (Py.endswith (fname f) ".csv") then ret acc
  else
    let acc := {| file_dict := file_dict acc;
                  csv_files_found := S (csv_files_found acc);
                  csv_files_processed := csv_files_processed acc |} in
    let full_path := Py.path_join root (fname f) in
    o <- read_input full_path f;;
    match o with
    | None => ret acc
    | Some df =>
        let df := rename_columns Py.strip df in
        let missing_columns := filter (λ c, c ∉ columns df) required_columns in
        match missing_columns with
        | _ :: _ => print (MissingColumns missing_columns full_path);;; ret acc
        | [] =>
            ret {| file_dict := add_groups (file_dict acc) (df_filtered df);
                   csv_files_found := csv_files_found acc;
                   csv_files_processed := S (csv_files_processed acc) |}
        end
    end.

(** [for month_key, groups in file_dict.items()] *)
Definition write_months (fd : list (string * list DataFrame)) : IO unit :=
  for_each fd (λ kv _,
    print (Notice ("Processing " +:+ kv.1));;;
    to_csv (kv.1 +:+ ".csv") (concat kv.2)) tt.

Definition is_monthly_name (f : string) : bool :=
  Py.endswith f ".csv" && monthly_pattern f.

(** The yearly combination. *)
Definition combine_year : IO unit :=
  names <- sorted_listdir;;
  all_months <- map_io read_back (filter (λ f, is_monthly_name f = true) names);;
  match all_months with
  | [] => ret tt
  | _ :: _ =>
      to_csv (year +:+ "_combined.csv") (concat all_months);;;
      print (Notice (year +:+ "_combined.csv has been created"))
  end.

Definition init : Acc :=
  {| file_dict := []; csv_files_found := 0; csv_files_processed := 0 |}.

(** [for root, _, files in os.walk(input_folder): for file in files] *)
Definition scan (walk : list (string * list File)) : IO Acc :=
  for_each walk (λ dir acc, for_each dir.2 (process_file dir.1) acc) init.

(** The stage up to and including the monthly artifacts. *)
Definition write_stage (walk : list (string * list File)) : IO unit :=
  notices [ "Starting curve data extraction...";
            "Input folder";
            "Output folder";
            "Target curves: " +:+ String.concat ", " target_curves;
            "Target strikes: " +:+ String.concat ", " target_strikes;
            "Year: " +:+ year;
            "Month: " +:+ default "None" month ];;;
  acc <- scan walk;;
  print (Notice ("Found " +:+ Py.str_nat (csv_files_found acc) +:+ " CSV files, processed "
               +:+ Py.str_nat (csv_files_processed acc) +:+ " files"));;;
  write_months (file_dict acc).

Definition extract_curve_data (walk : list (string * list File)) : IO unit :=
  write_stage walk;;;
  combine_year.

End stage.
End CurveFilter.

(** ** [modules/vol_extractor.py] *)

Module VolExtractor.
Section stage.
Context `{PandasText}.

(** [robust_read_csv]: UTF-8 with BOM first, UTF-16 second. *)
Definition robust_read_csv (filepath : string) (f : File) : IO (option DataFrame) :=
  try_except
    (df <- read_csv filepath f utf_8_sig bad_error;; ret (Some df))
    (λ e1, try_except
             (df <- read_csv filepath f utf_16 bad_error;; ret (Some df))
             (λ e2, print (FailedToRead filepath e1 e2);;; ret None)).

(** The same reader on a file of the output folder. *)
Definition robust_read_back (name : string) : IO (option DataFrame) :=
  try_except
    (df <- read_back name;; ret (Some df))
    (λ e1, try_except
             (df <- read_back name;; ret (Some df))
             (λ e2, print (FailedToRead name e1 e2);;; ret None)).

Variables (year : string) (basis_filter : list string).
Variables (type_filter callput_filter month start_date end_date : option string).

(** [df[c]] on a label that may be absent *)
Definition getitem (df : DataFrame) (c : string) : result unit :=
  if has_column df c then Ok tt else Raise (KeyError c).

(** [df.get('Call/Put', '').astype(str)]: the default is a [str], which
    has no [astype]. *)
Definition get_callput (df : DataFrame) : result unit :=
  if has_column df "Call/Put" then Ok tt
  else Raise (AttributeError "'str' object has no attribute 'astype'").

(** From [df['Curve_Date'] = pd.to_datetime(...)] to [df['date'] = ...]. *)
Definition add_dates (df : DataFrame) : DataFrame :=
  let df := assign df "Curve_Date" (λ r, to_datetime_coerce (at_ r "Curve_Date")) in
  let df := select df (λ r, notnull (at_ r "Curve_Date")) in
  let df := assign df "year" (λ r, dt_year_str (at_ r "Curve_Date")) in
  let df := assign df "month" (λ r, dt_month_02d (at_ r "Curve_Date")) in
  assign df "date" (λ r, at_ r "Curve_Date").

Definition strip_text (df : DataFrame) : DataFrame :=
  let df := assign df "Basis" (λ r, Str (Py.strip (cell_str (at_ r "Basis")))) in
  let df := assign df "Type" (λ r, Str (Py.upper (Py.strip (cell_str (at_ r "Type"))))) in
  assign df "Call/Put" (λ r, Str (Py.upper (Py.strip (cell_str (at_ r "Call/Put"))))).

(** [pd.to_datetime(s)]: raises on a text that is no date. *)
Definition to_datetime (s : string) : result Timestamp :=
  match parse_datetime s with
  | Some t => Ok t
  | None => Raise (ValueError s)
  end.

Definition in_range (lo hi : Timestamp) (r : gmap string cell) : bool :=
  match at_ r "Curve_Date" with
  | Date t => ts_leb lo t && ts_leb t hi
  | _ => false
  end.

Definition text_is (c : string) (v : string) (r : gmap string cell) : bool :=
  bool_decide (at_ r c = Str v).

Definition when (o : option string) (p : string → gmap string cell → bool)
    (r : gmap string cell) : bool :=
  match o with
  | Some v => if Py.truthy o then p v r else true
  | None => true
  end.

(** The date part of the mask: the explicit range when both ends are
    given, the year otherwise. *)
Definition date_mask : result (gmap string cell → bool) :=
  match start_date, end_date with
  | Some s, Some e =>
      if Py.truthy start_date && Py.truthy end_date then
        match to_datetime s with
        | Raise x => Raise x
        | Ok lo => match to_datetime e with
                   | Raise x => Raise x
                   | Ok hi => Ok (in_range lo hi)
                   end
        end
      else Ok (text_is "year" year)
  | _, _ => Ok (text_is "year" year)
  end.

Definition mask (dm : gmap string cell → bool) (r : gmap string cell) : bool :=
  CurveFilter.isin_upper (at_ r "Basis") basis_filter
  && when type_filter (λ v, text_is "Type" (Py.upper v)) r
  && when callput_filter (λ v, text_is "Call/Put" (Py.upper v)) r
  && dm r
  && when month (text_is "month") r.

(** The body of [for file in files]. *)
Definition process_file (root : string) (f : File)
    (file_dict : list (string * list DataFrame)) : IO (list (string * list DataFrame)) :=
  if negb (Py.endswith (fname f) ".csv") then ret file_dict
  else
    let full_path := Py.path_join root (fname f) in
    o <- robust_read_csv full_path f;;
    match o with
    | None => print (SkipReadError full_path);;; ret file_dict
    | Some df =>
        let df := rename_columns clean_label df in
        lift (getitem df "Basis");;;
        lift (getitem df "Type");;;
        lift (get_callput df);;;
        let df := strip_text df in
        if negb (has_column df "Curve_Date") then ret file_dict
        else
          let df := add_dates df in
          dm <- lift date_mask;;
          let filtered := select df (mask dm) in
          ret (CurveFilter.add_groups month file_dict filtered)
    end.

Definition curve_name : string :=
  match basis_filter with
  | c :: _ => c
  | [] => "UNKNOWN"
  end.

(** [month_key.split('-')[1]] *)
Definition month_num (month_key : string) : result string :=
  match Py.split "-" month_key with
  | _ :: m :: _ => Ok m
  | _ => Raise IndexError
  end.

Definition out_name (m : string) : string :=
  curve_name +:+ "_" +:+ m +:+ "_ewma_hist.csv".

(** [for month_key, groups in file_dict.items()] *)
Definition write_months (fd : list (string * list DataFrame)) : IO unit :=
  for_each fd (λ kv _,
    print (Notice ("Processing " +:+ kv.1 +:+ " for EWMA/HIST"));;;
    m <- lift (month_num kv.1);;
    to_csv (out_name m) (concat kv.2)) tt.

Definition combined_name : string :=
  curve_name +:+ "_" +:+ year +:+ "_ewma_hist_combined.csv".

(** The yearly combination. *)
Definition combine_year : IO unit :=
  names <- sorted_listdir;;
  read <- map_io robust_read_back
            (filter (λ f, Py.endswith f "_ewma_hist.csv" = true) names);;
  match omap id read with
  | [] => ret tt
  | (_ :: _) as all_months =>
      to_csv combined_name (concat all_months);;;
      print (Notice (combined_name +:+ " has been created"))
  end.

Definition scan (walk : list (string * list File)) : IO (list (string * list DataFrame)) :=
  for_each walk (λ dir fd, for_each dir.2 (process_file dir.1) fd) [].

Definition filter_vol_data (walk : list (string * list File)) : IO unit :=
  fd <- scan walk;;
  write_months fd;;;
  combine_year.

End stage.
End VolExtractor.

(** ** Helpers shared by the two builders *)

(** The [date] column: from [date] when the table has it, from
    [Curve_Date] otherwise; [None] when it has neither. *)
Definition with_date `{PandasText} (df : DataFrame) : option DataFrame :=
  if has_column df "date" then
    Some (assign df "date" (λ r, to_datetime_coerce (at_ r "date")))
  else if has_column df "Curve_Date" then
    Some (assign df "date" (λ r, to_datetime_coerce (at_ r "Curve_Date")))
  else None.

(** [(df['date'] >= start) & (df['date'] <= end)] *)
Definition date_between (lo hi : Timestamp) (r : gmap string cell) : bool :=
  match at_ r "date" with
  | Date t => ts_leb lo t && ts_leb t hi
  | _ => false
  end.

(** ** [modules/volatility_surface.py] *)

Module VolatilitySurface.
Section stage.
Context `{PandasText}.

(** [robust_read_csv]: UTF-8 only, malformed lines skipped, small and
    empty files refused. *)
Definition robust_read_csv (filepath : string) (f : File) : IO (option DataFrame) :=
  try_except
    (sz <- getsize f;;
     if decide (sz < 10)%nat then
       print (FileTooSmall filepath);;; ret None
     else
       df <- read_csv filepath f utf_8 bad_skip;;
       if Pd.empty df then print (EmptyFrame filepath);;; ret None
       else ret (Some df))
    (λ e, print (ReadError filepath e);;; ret None).

Definition type_to_moneyness : gmap string Qc :=
  list_to_map
    [ ("ATM - $1.00", Q2Qc (-1)); ("ATM - $0.75", Q2Qc (-3 # 4));
      ("ATM - $0.50", Q2Qc (-1 # 2)); ("ATM - $0.25", Q2Qc (-1 # 4));
      ("ATM", Q2Qc 0);
      ("ATM + $0.25", Q2Qc (1 # 4)); ("ATM + $0.50", Q2Qc (1 # 2));
      ("ATM + $0.75", Q2Qc (3 # 4)); ("ATM + $1.00", Q2Qc 1);
      ("ATM + $1.25", Q2Qc (5 # 4)); ("ATM + $1.50", Q2Qc (3 # 2));
      ("ATM + $1.75", Q2Qc (7 # 4)); ("ATM + $2.00", Q2Qc 2) ].

(** [series.map(type_to_moneyness)] on one cell *)
Definition moneyness (c : cell) : cell :=
  match c with
  | Str s => from_option Num NaN (type_to_moneyness !! s)
  | _ => NaN
  end.

Variables (target_curve : string) (target_month : option string).
Variables (date_range : option (list string)) (start_date end_date : option string).

(** [file.endswith('.csv') and (not target_month or target_month in file)] *)
Definition included (file : string) : bool :=
  Py.endswith file ".csv"
  && (negb (Py.truthy target_month)
      || match target_month with
         | Some m => Py.contains m file
         | None => true
         end).

(** [series.dt.to_period('M').astype(str)] on one cell *)
Definition period_month (c : cell) : cell :=
  match c with
  | Date t => Str (Py.str_nat (ts_year t) +:+ "-" +:+ Py.fmt_02d (ts_month t))
  | _ => Str "NaT"
  end.

(** From the cleaning of the header to [df['month'] = ...]; [Ok None] is
    the [continue] of a table without a date column. *)
Definition prepare (df : DataFrame) : result (option DataFrame) :=
  let df := rename_columns clean_label df in
  match VolExtractor.getitem df "Type" with
  | Raise e => Raise e
  | Ok _ =>
      let df := assign df "Moneyness" (λ r, moneyness (at_ r "Type")) in
      match VolExtractor.getitem df "Mid" with
      | Raise e => Raise e
      | Ok _ =>
          let df := assign df "Mid" (λ r, to_numeric_coerce (at_ r "Mid")) in
          match with_date df with
          | None => Ok None
          | Some df => Ok (Some (assign df "month" (λ r, period_month (at_ r "date"))))
          end
      end
  end.

(** The body of [for file in os.listdir(data_folder)]. *)
Definition load_file (data_folder : string) (f : File) (all_data : list DataFrame)
  : IO (list DataFrame) :=
  if included (fname f) then
    o <- robust_read_csv (Py.path_join data_folder (fname f)) f;;
    match o with
    | None => print (SkipReadError (fname f));;; ret all_data
    | Some df =>
        p <- lift (prepare df);;
        match p with
        | None =>
            print (NoDateColumn (fname f) (clean_label <$> columns df));;; ret all_data
        | Some df => ret (all_data ++ [df])
        end
    end
  else ret all_data.

(** [series.dt.year.astype(str)]: the years are floats as soon as one
    date of the column is missing. *)
Definition year_label (any_missing : bool) (c : cell) : cell :=
  match c with
  | Date t => Str (Py.str_nat (ts_year t) +:+ (if any_missing then ".0" else ""))
  | _ => Str "nan"
  end.

Definition add_year (df : DataFrame) : DataFrame :=
  let any_missing := bool_decide (Exists (λ r, notnull (at_ r "date") = false) (rows df)) in
  assign df "year" (λ r, year_label any_missing (at_ r "date")).

(** The bounds of the date filter, when one applies. *)
Definition bounds : result (option (Timestamp * Timestamp)) :=
  let parse (s e : string) :=
    match VolExtractor.to_datetime s with
    | Raise x => Raise x
    | Ok lo => match VolExtractor.to_datetime e with
               | Raise x => Raise x
               | Ok hi => Ok (Some (lo, hi))
               end
    end in
  match date_range with
  | Some [s; e] => parse s e
  | _ =>
      match start_date, end_date with
      | Some s, Some e =>
          if Py.truthy start_date && Py.truthy end_date then parse s e else Ok None
      | _, _ => Ok None
      end
  end.

Definition filter_dates (b : option (Timestamp * Timestamp)) (df : DataFrame) : DataFrame :=
  match b with
  | Some (lo, hi) => select df (date_between lo hi)
  | None => df
  end.

(** [series.unique()] of a text column, in order of first appearance *)
Definition unique (c : string) (df : DataFrame) : list cell :=
  reverse (remove_dups (reverse ((λ r, at_ r c) <$> rows df))).

(** The Surface Matrix of the rows of one period. *)
Definition surface (df : DataFrame) : Matrix :=
  dropna_columns (pivot_table "date" "Moneyness" "Mid" df).

Definition safe_curve : string := Py.replace_char " " "_" target_curve.

(** One pass of a period loop: [period] is the column that names the
    period, [tag] what the file name adds to the label. *)
(** [df_all[(df_all['Basis'] == target_curve) & (df_all[period] == label)]] *)
Definition period_rows (period : string) (df_all : DataFrame) (label : cell)
  : DataFrame :=
  select df_all (λ r, bool_decide (at_ r "Basis" = Str target_curve)
                      && bool_decide (at_ r period = label)).

Definition emit_period (period tag : string) (df_all : DataFrame) (label : cell)
  : IO unit :=
  let df_p := period_rows period df_all label in
  if Pd.empty df_p then ret tt
  else
    let pivot := surface df_p in
    if matrix_empty pivot then ret tt
    else
      let fname := safe_curve +:+ "_" +:+ cell_str label +:+ tag in
      save (fname +:+ ".png") Figure;;;
      save (fname +:+ "_data.csv") (MatrixCsv pivot).

Definition emit_periods (period tag : string) (df_all : DataFrame) : IO unit :=
  lift (VolExtractor.getitem df_all "Basis");;;
  for_each (unique period df_all) (λ label _, emit_period period tag df_all label) tt.

Definition load (data_folder : string) (listing : list File) : IO (list DataFrame) :=
  for_each listing (load_file data_folder) [].

Definition generate_vol_surfaces (data_folder : string) (listing : list File) : IO unit :=
  all_data <- load data_folder listing;;
  match all_data with
  | [] => print (Notice "No data loaded for surface generation.")
  | _ :: _ =>
      let df_all := add_year (concat all_data) in
      b <- lift bounds;;
      let df_all := filter_dates b df_all in
      match unique "month" df_all with
      | [] => ret tt
      | _ :: _ => emit_periods "month" "_surface" df_all
      end;;;
      match unique "year" df_all with
      | [] => ret tt
      | _ :: _ => emit_periods "year" "_YEARLY_surface" df_all
      end;;;
      print (Notice "Volatility surface plots saved.")
  end.

End stage.
End VolatilitySurface.

(** ** [modules/time_series_plotter.py] *)

Module TimeSeriesPlotter.
Section stage.
Context `{PandasText}.
Variables (curve_name : string) (month : option string) (rolling_window : nat).
Variables (start_date end_date : option string).

(** [month and month not in file] *)
Definition month_mismatch (file : string) : bool :=
  Py.truthy month
  && match month with
     | Some m => negb (Py.contains m file)
     | None => false
     end.

(** The [try] block of one file, from the date column on; [Ok None] is a
    [continue] or a table left without rows. *)
Definition prepare (df : DataFrame) : result (option DataFrame) :=
  let df := rename_columns clean_label df in
  match with_date df with
  | None => Ok None
  | Some df =>
      match VolatilitySurface.bounds None start_date end_date with
      | Raise e => Raise e
      | Ok b =>
          let df := VolatilitySurface.filter_dates b df in
          match VolExtractor.getitem df "Mid" with
          | Raise e => Raise e
          | Ok _ =>
              let df := assign df "Mid" (λ r, to_numeric_coerce (at_ r "Mid")) in
              let df := select df (λ r, notnull (at_ r "Mid")) in
              if Pd.empty df then Ok None else Ok (Some df)
          end
      end
  end.

(** The body of [for file in files]. *)
Definition load_file (root : string) (f : File) (all_data : list DataFrame)
  : IO (list DataFrame) :=
  if negb (Py.endswith (fname f) ".csv") then ret all_data
  else if month_mismatch (fname f) then ret all_data
  else
    try_except
      (df <- read_csv (Py.path_join root (fname f)) f utf_8 bad_skip;;
       if Pd.empty df then ret all_data
       else
         p <- lift (prepare df);;
         match p with
         | None => ret all_data
         | Some df => ret (all_data ++ [df])
         end)
      (λ e, print (ProcessingError (fname f) e);;; ret all_data).

Definition load (walk : list (string * list File)) : IO (list DataFrame) :=
  for_each walk (λ dir all_data, for_each dir.2 (load_file dir.1) all_data) [].

Definition date_leb (a b : gmap string cell) : bool :=
  match at_ a "date", at_ b "date" with
  | Date x, Date y => ts_leb x y
  | Date _, _ => true
  | _, Date _ => false
  | _, _ => true
  end.

(** [df.sort_values('date')]: missing dates last; rows of one date keep
    their order here, which pandas does not promise. *)
Definition sort_values_date (df : DataFrame) : DataFrame :=
  {| columns := columns df; rows := Py.sort_by date_leb (rows df) |}.

(** [combined_df['Basis'].iloc[0] if 'Basis' in combined_df.columns else
    curve_name], as the f-strings print it. *)
Definition curve_of (combined : DataFrame) : result string :=
  if has_column combined "Basis" then
    match rows combined with
    | r :: _ => Ok (cell_str (at_ r "Basis"))
    | [] => Raise IndexError
    end
  else Ok curve_name.

(** [combined_df.groupby('date')['Mid'].mean().to_frame().sort_index()]
    under the single label [EWMA_Volatility]. *)
Definition ewma_matrix (df : DataFrame) : Matrix :=
  let dated := omap (λ r, match at_ r "date" with
                          | Date t => Some (t, at_ r "Mid")
                          | _ => None
                          end) (rows df) in
  let dates := Py.sort_by ts_leb (remove_dups (dated.*1)) in
  {| index := dates;
     labels := [Str "EWMA_Volatility"];
     data := [ (λ t, mean (omap (λ o, match o.2 with
                                      | Num v => if decide (o.1 = t) then Some v else None
                                      | _ => None
                                      end) dated)) <$> dates ] |}.

(** The Original matrix. *)
Definition original (combined : DataFrame) : Matrix :=
  if has_column combined "Contract_Month" then
    pivot_table "date" "Contract_Month" "Mid" combined
  else ewma_matrix combined.

(** [min(rolling_window, len(pivot), 10)] *)
Definition min_periods (pivot : Matrix) : nat :=
  Nat.min rolling_window (Nat.min (nrows pivot) 10).

(** The Rolling matrix. *)
Definition rolling (pivot : Matrix) : option Matrix :=
  rolling_mean rolling_window (min_periods pivot) pivot.

Definition period_label : string :=
  match month with
  | Some m => if Py.truthy month then m else curve_name +:+ "_combined"
  | None => curve_name +:+ "_combined"
  end.

Definition workbook_name (curve : string) : string :=
  curve +:+ "_" +:+ period_label +:+ "_time_series.xlsx".

(** [contract_month.strftime('%Y-%m')] for a date, [str(contract_month)]
    otherwise *)
Definition month_str (label : cell) : string :=
  match label with
  | Date t => Py.str_nat (ts_year t) +:+ "-" +:+ Py.fmt_02d (ts_month t)
  | c => cell_str c
  end.

(** The names of the images, in the order they are saved. *)
Definition image_names (curve : string) (combined : DataFrame) (pivot : Matrix)
  : list string :=
  if has_column combined "Contract_Month" then
    labels pivot ≫= λ c,
      [ curve +:+ "_" +:+ period_label +:+ "_" +:+ month_str c +:+ "_timeseries_rolling.png";
        curve +:+ "_" +:+ period_label +:+ "_" +:+ month_str c +:+ "_dailychange.png" ]
  else
    [ curve +:+ "_" +:+ period_label +:+ "_timeseries_rolling.png";
      curve +:+ "_" +:+ period_label +:+ "_dailychange.png" ].

Definition build_vol_time_series (walk : list (string * list File)) : IO bool :=
  all_data <- load walk;;
  match all_data with
  | [] => print (Notice "No valid data found to process");;; ret true
  | _ :: _ =>
      let combined := sort_values_date (concat all_data) in
      curve <- lift (curve_of combined);;
      let pivot := original combined in
      match rolling pivot with
      | None => raise (ValueError "min_periods must be <= window")
      | Some roll =>
          let daily_change := diff roll in
          (* [rolling.min().iloc[0]] needs a first column *)
          match labels pivot with
          | [] => raise IndexError
          | _ :: _ =>
              notices [ "Applied " +:+ Py.str_nat rolling_window
                          +:+ "-day rolling window to " +:+ Py.str_nat (nrows pivot)
                          +:+ " data points";
                        "Rolling average range";
                        "Original data range" ];;;
              save (workbook_name curve)
                (Workbook [ ("Original_TS", pivot);
                            ("Rolling_" +:+ Py.str_nat rolling_window +:+ "D", roll);
                            ("Daily_Change", daily_change) ]);;;
              for_each (image_names curve combined pivot)
                (λ name _, save name Figure) tt;;;
              print (Notice ("Time series processing complete for " +:+ curve_name));;;
              ret true
          end
      end
  end.

End stage.
End TimeSeriesPlotter.

(** ** [app.py] *)

Module App.

(** [find_all_csvs(folder)], over the walk of the folder *)
Definition find_all_csvs (walk : list (string * list File)) : list string :=
  walk ≫= λ dir,
    Py.path_join dir.1
      <$> filter (λ file, Py.endswith (Py.lower file) ".csv"
                          && negb (Py.startswith file ".") = true)
            (fname <$> dir.2).

(** A colour of an RGB image. *)
Definition Colour : Type := nat * nat * nat.

Definition white : Colour := (255, 255, 255)%nat.

(** An opened image: its size and its pixels. *)
Record Image := {
  width : nat;
  height : nat;
  pixel : nat → nat → Colour
}.

(** [Image.new('RGB', (w, h), colour)] *)
Definition new (w h : nat) (colour : Colour) : Image :=
  {| width := w; height := h; pixel := λ _ _, colour |}.

(** [canvas.paste(im, pos)]: the pixels of [im] over those of the canvas,
    from [pos] on. *)
Definition paste (canvas im : Image) (pos : nat * nat) : Image :=
  {| width := width canvas;
     height := height canvas;
     pixel := λ x y,
       if bool_decide (pos.1 ≤ x < pos.1 + width im ∧ pos.2 ≤ y < pos.2 + height im)%nat
       then pixel im (x - pos.1) (y - pos.2)
       else pixel canvas x y |}.

(** [combine_images], on the opened images; the result is the image that
    is saved. *)
Definition combine_images (images : list Image) : result Image :=
  let n := length images in
  if decide (n = 2)%nat then
    let total_width := sum_list (width <$> images) in
    let max_height := max_list (height <$> images) in
    let combined := new total_width max_height white in
    Ok (foldl (λ (st : Image * nat) im,
                 (paste st.1 im (st.2, 0%nat), (st.2 + width im)%nat))
          (combined, 0%nat) images).1
  else if decide (n = 3)%nat then
    let max_width := max_list (width <$> images) in
    let max_height := max_list (height <$> images) in
    let combined := new (2 * max_width) (2 * max_height) white in
    let positions := [ (0, 0); (max_width, 0); (0, max_height) ]%nat in
    Ok (foldl (λ combined (ip : Image * (nat * nat)), paste combined ip.1 ip.2)
          combined (zip images positions))
  else
    match images with
    | im :: _ => Ok im
    | [] => Raise IndexError
    end.

(** The strikes the button "Filter & Download Data" asks for. *)
Definition surface_strikes : list string :=
  [ "ATM - $1.00"; "ATM - $0.75"; "ATM - $0.50"; "ATM - $0.25"; "ATM";
    "ATM + $0.25"; "ATM + $0.50"; "ATM + $0.75" ].

(** The call of [extract_curve_data] behind that button:
    [month=month if month else None]. *)
Definition filter_data `{PandasText} (curve year month : string)
    (walk : list (string * list File)) : IO unit :=
  CurveFilter.extract_curve_data year [curve] surface_strikes
    (if String.eqb month "" then None else Some month) walk.

End App.

(** ** The buckets of the filter stages

    What the statements about the year-month buckets speak of: the bucket a
    timestamp names, the placements a dictionary of groups holds (one per
    row and bucket), and the rows a stage retains from one input file. *)

(** The bucket ["YYYY-MM"] of a year and a month. *)
Definition bucket_key (y m : nat) : string :=
  Py.str_nat y +:+ "-" +:+ Py.fmt_02d m.

(** The bucket named by the row's own [Curve_Date]. *)
Definition bucket_of (r : gmap string cell) : string :=
  match at_ r "Curve_Date" with
  | Date t => bucket_key (ts_year t) (ts_month t)
  | _ => ""
  end.

(** A row as the filter stages date it: a parsed [Curve_Date], and the
    [year] and [month] columns derived from it. *)
Definition dated (r : gmap string cell) : Prop :=
  ∃ t, at_ r "Curve_Date" = Date t
       ∧ at_ r "year" = Str (Py.str_nat (ts_year t))
       ∧ at_ r "month" = Str (Py.fmt_02d (ts_month t)).

(** Every (bucket, row) pair of [file_dict], a row counted as often as it is
    stored. *)
Definition placements (fd : list (string * list DataFrame))
  : list (string * gmap string cell) :=
  fd ≫= (λ kv, (λ r, (kv.1, r)) <$> (kv.2 ≫= rows)).

(** ** The rolling mean and the daily change, as the specification words them

    The trailing mean over [window] rows of a column, with a minimum-periods
    threshold: at row [i], the mean of the defined values among the rows
    [i - window + 1] to [i], undefined when fewer than [min_periods] of them
    are defined. *)
Definition trailing_mean (window min_periods : nat) (col : list (option Qc)) (i : nat)
  : option Qc :=
  let seen := omap id (drop (S i - window) (take (S i) col)) in
  if decide (min_periods ≤ length seen)%nat then mean seen else None.

(** Row [i] is the first row of the column with a defined value. *)
Definition first_defined (col : list (option Qc)) (i : nat) : Prop :=
  (∃ v, col !! i = Some (Some v)) ∧ ∀ j, (j < i)%nat → col !! j = Some None.

(** The three sheets of the workbook of [build_vol_time_series]. *)
Definition time_series_sheets (rolling_window : nat) (o r d : Matrix)
  : list (string * Matrix) :=
  [ ("Original_TS", o);
    ("Rolling_" +:+ Py.str_nat rolling_window +:+ "D", r);
    ("Daily_Change", d) ].

(** A matrix is rectangular: one column per label, one value per date. *)
Definition rectangular (m : Matrix) : Prop :=
  length (data m) = length (labels m)
  ∧ Forall (λ col, length col = length (index m)) (data m).

(** The [Type] label is a key of the moneyness table. *)
Definition in_table (c : cell) : bool :=
  match c with
  | Str s => bool_decide (is_Some (VolatilitySurface.type_to_moneyness !! s))
  | _ => false
  end.

(** The [Moneyness] of every row is the image of its [Type]. *)
Definition moneyness_of_type (df : DataFrame) : Prop :=
  ∀ r, r ∈ rows df → at_ r "Moneyness" = VolatilitySurface.moneyness (at_ r "Type").

(** The value [v] is one of the values averaged in the cell of the matrix at
    date [t] and label [c]. *)
Definition contributes (m : Matrix) (t : Timestamp) (c : cell) (v : Qc) : Prop :=
  ∃ i k col vs,
    index m !! i = Some t ∧ labels m !! k = Some c ∧ data m !! k = Some col
    ∧ col !! i = Some (mean vs) ∧ v ∈ vs.

(** The table with every [Basis] value replaced by its image under [φ]. *)
Definition relabel_basis (φ : cell → cell) (df : DataFrame) : DataFrame :=
  assign df "Basis" (λ r, φ (at_ r "Basis")).

(** A row of [build_vol_time_series] is kept when its [Mid] is a number and,
    a date range being given, its date is inside it; its month plays no
    part. *)
Definition series_row_kept `{PandasText} (b : option (Timestamp * Timestamp))
    (r : gmap string cell) : Prop :=
  notnull (to_numeric_coerce (at_ r "Mid")) = true
  ∧ match b with
    | Some (lo, hi) => date_between lo hi r = true
    | None => True
    end.

#[global] Instance series_row_kept_dec `{PandasText} b r : Decision (series_row_kept b r).
Proof. unfold series_row_kept. destruct b as [[lo hi]|]; apply _. Defined.

(** [sub] occurs in [s]. *)
Definition substring_of (sub s : string) : Prop :=
  ∃ before after, s = before +:+ sub +:+ after.

(** The encodings of the [read_csv] calls of a trace, in order. *)
Definition encodings_tried (evs : list Event) : list Encoding :=
  omap (λ ev, match ev with ReadCsv _ enc _ => Some enc | Printed _ => None end) evs.

(** Every key of the dictionary holds a row. *)
Definition keys_covered (fd : list (string * list DataFrame)) : Prop :=
  ∀ k, k ∈ fd.*1 → ∃ r, (k, r) ∈ placements fd.

(** The files of the output folder that the yearly combination of
    [extract_curve_data] reads: every name that passes its test. *)
Definition monthly_artifacts (o : gmap string DataFrame) : list (string * DataFrame) :=
  filter (λ nd, CurveFilter.is_monthly_name nd.1 = true) (map_to_list o).

(** Those among them that are named after the year of the run. *)
Definition monthly_artifacts_of (year : string) (o : gmap string DataFrame)
  : list (string * DataFrame) :=
  filter (λ nd, Py.startswith nd.1 (year +:+ "-") = true) (monthly_artifacts o).

(** The rows of a list of named tables. *)
Definition all_rows (l : list (string * DataFrame)) : list (gmap string cell) :=
  l ≫= λ nd, rows nd.2.

(** All the files of a walk, in the order of the walk. *)
Definition files_of (walk : list (string * list File)) : list File :=
  walk ≫= snd.

Module Retained.
Section retained.
Context `{PandasText}.

(** [extract_curve_data]: the table read from a file, when the [try] block
    lets it through. *)
Definition curve_loaded (f : File) : option DataFrame :=
  match fsize f with
  | Ok sz =>
      if decide (sz < 10)%nat then None
      else match fparse f utf_8 bad_skip with
           | Ok df => if Pd.empty df then None else Some df
           | Raise _ => None
           end
  | Raise _ => None
  end.

(** [extract_curve_data]: [df_filtered] of a file, when the file gets
    that far. *)
Definition curve_frame (year : string) (target_curves target_strikes : list string)
    (month : option string) (f : File) : option DataFrame :=
  if Py.endswith (fname f) ".csv" then
    df ← curve_loaded f;
    let df := rename_columns Py.strip df in
    if forallb (has_column df) CurveFilter.required_columns then
      Some (CurveFilter.df_filtered year target_curves target_strikes month df)
    else None
  else None.

(** [filter_vol_data]: the table [robust_read_csv] returns. *)
Definition vol_loaded (f : File) : option DataFrame :=
  match fparse f utf_8_sig bad_error with
  | Ok df => Some df
  | Raise _ =>
      match fparse f utf_16 bad_error with
      | Ok df => Some df
      | Raise _ => None
      end
  end.

(** [filter_vol_data]: [filtered] of a file, when the file gets that far. *)
Definition vol_frame (year : string) (basis_filter : list string)
    (type_filter callput_filter month start_date end_date : option string)
    (f : File) : option DataFrame :=
  if Py.endswith (fname f) ".csv" then
    df ← vol_loaded f;
    let df := VolExtractor.strip_text (rename_columns clean_label df) in
    if has_column df "Curve_Date" then
      match VolExtractor.date_mask year start_date end_date with
      | Ok dm =>
          Some (select (VolExtractor.add_dates df)
                  (VolExtractor.mask basis_filter type_filter callput_filter month dm))
      | Raise _ => None
      end
    else None
  else None.

Definition rows_of (o : option DataFrame) : list (gmap string cell) :=
  from_option rows [] o.

(** [build_vol_time_series]: the table a file adds to [all_data], when it
    adds one. *)
Definition series_frame (month start_date end_date : option string) (f : File)
  : option DataFrame :=
  if Py.endswith (fname f) ".csv" && negb (TimeSeriesPlotter.month_mismatch month (fname f))
  then
    match fparse f utf_8 bad_skip with
    | Ok df =>
        if Pd.empty df then None
        else match TimeSeriesPlotter.prepare start_date end_date df with
             | Ok o => o
             | Raise _ => None
             end
    | Raise _ => None
    end
  else None.

(** [generate_vol_surfaces]: the table a file adds to [all_data], when it
    adds one and raises nothing. *)
Definition surface_frame (target_month : option string) (f : File) : option DataFrame :=
  if VolatilitySurface.included target_month (fname f) then
    df ← curve_loaded f;
    match VolatilitySurface.prepare df with
    | Ok o => o
    | Raise _ => None
    end
  else None.

End retained.
End Retained.

(** [file_dict] groups the retained rows by their own date: its keys are
    distinct, it holds each retained row once, under the bucket its
    [Curve_Date] names, and every row it holds has the year and month of its
    bucket. *)
Definition grouped_by_date (fd : list (string * list DataFrame))
    (retained : list (gmap string cell)) : Prop :=
  NoDup fd.*1
  ∧ placements fd ≡ₚ (λ r, (bucket_of r, r)) <$> retained
  ∧ ∀ k r, (k, r) ∈ placements fd →
      ∃ t, at_ r "Curve_Date" = Date t ∧ k = bucket_key (ts_year t) (ts_month t).

(** ** What the stages read, print and save

    The notions the statements about whole runs speak of. *)

(** An image appears whole in a picture at a position: it fits, and each
    of its pixels is there. *)
Definition shown_at (out im : App.Image) (pos : nat * nat) : Prop :=
  (pos.1 + App.width im ≤ App.width out)%nat
  ∧ (pos.2 + App.height im ≤ App.height out)%nat
  ∧ ∀ x y, (x < App.width im)%nat → (y < App.height im)%nat →
           App.pixel out (pos.1 + x) (pos.2 + y) = App.pixel im x y.

(** The pairs (folder, file) of a walk, in the order of the walk. *)
Definition paths_of (walk : list (string * list File)) : list (string * File) :=
  walk ≫= λ dir, (λ f, (dir.1, f)) <$> dir.2.

(** The required columns that a table lacks, as [extract_curve_data] lists
    them. *)
Definition missing_columns (df : DataFrame) : list string :=
  filter (λ c, c ∉ columns (rename_columns Py.strip df)) CurveFilter.required_columns.

(** What the loop body of [extract_curve_data] reads and prints for one
    file. *)
Definition curve_events (root : string) (f : File) : list Event :=
  if Py.endswith (fname f) ".csv" then
    let path := Py.path_join root (fname f) in
    match fsize f with
    | Raise e => [Printed (ReadError path e)]
    | Ok sz =>
        if decide (sz < 10)%nat then [Printed (FileTooSmall path)]
        else ReadCsv path utf_8 bad_skip ::
             match fparse f utf_8 bad_skip with
             | Raise e => [Printed (ReadError path e)]
             | Ok df =>
                 if Pd.empty df then [Printed (EmptyFrame path)]
                 else match missing_columns df with
                      | [] => []
                      | _ :: _ => [Printed (MissingColumns (missing_columns df) path)]
                      end
             end
    end
  else [].

(** The missing-column warnings of a trace, in order. *)
Definition missing_reports (evs : list Event) : list (list string * string) :=
  omap (λ ev, match ev with
              | Printed (MissingColumns ms p) => Some (ms, p)
              | _ => None
              end) evs.

(** The [read_csv] calls of a trace, in order. *)
Definition read_calls (evs : list Event) : list (string * Encoding * BadLines) :=
  omap (λ ev, match ev with
              | ReadCsv p enc policy => Some (p, enc, policy)
              | Printed _ => None
              end) evs.

(** Every event is a plain notice. *)
Definition only_notices (evs : list Event) : Prop :=
  Forall (λ ev, ∃ m, ev = Printed (Notice m)) evs.

(** The dictionary [extract_curve_data] builds from a walk. *)
Definition curve_dict `{PandasText} (year : string) (target_curves target_strikes : list string)
    (month : option string) (walk : list (string * list File))
  : list (string * list DataFrame) :=
  foldl (λ fd f, match Retained.curve_frame year target_curves target_strikes month f with
                 | Some d => CurveFilter.add_groups month fd d
                 | None => fd
                 end) [] (files_of walk).

(** The names the yearly combination of [extract_curve_data] reads, in the
    order it reads them. *)
Definition monthly_names (o : gmap string DataFrame) : list string :=
  filter (λ f, CurveFilter.is_monthly_name f = true) (Py.sorted (map_to_list o).*1).

(** The output folder after the monthly files of a dictionary are written. *)
Definition with_months (o : gmap string DataFrame) (fd : list (string * list DataFrame))
  : gmap string DataFrame :=
  foldl (λ o kv, <[kv.1 +:+ ".csv" := concat kv.2]> o) o fd.

(** The output folder after the yearly combination of [extract_curve_data]. *)
Definition with_combined (year : string) (o : gmap string DataFrame)
  : gmap string DataFrame :=
  match omap (λ n, o !! n) (monthly_names o) with
  | [] => o
  | (_ :: _) as all_months => <[year +:+ "_combined.csv" := concat all_months]> o
  end.

(** What one pass of a period loop of [generate_vol_surfaces] saves: nothing
    for a period without rows of the curve or without a cell, otherwise the
    figure and then the matrix. *)
Definition period_artifacts `{PandasText} (target_curve period tag : string)
    (df_all : DataFrame) (label : cell) : list (string * Artifact) :=
  let df_p := VolatilitySurface.period_rows target_curve period df_all label in
  if Pd.empty df_p then []
  else
    let pivot := VolatilitySurface.surface df_p in
    if matrix_empty pivot then []
    else
      let fname := VolatilitySurface.safe_curve target_curve +:+ "_"
                   +:+ cell_str label +:+ tag in
      [ (fname +:+ ".png", Figure); (fname +:+ "_data.csv", MatrixCsv pivot) ].

(** The table the period loops of [generate_vol_surfaces] run over. *)
Definition surface_rows `{PandasText} (b : option (Timestamp * Timestamp))
    (all_data : list DataFrame) : DataFrame :=
  VolatilitySurface.filter_dates b (VolatilitySurface.add_year (concat all_data)).

(** What the two period loops save, the months first. *)
Definition surfaces_saved `{PandasText} (target_curve : string)
    (b : option (Timestamp * Timestamp)) (all_data : list DataFrame)
  : list (string * Artifact) :=
  let df_all := surface_rows b all_data in
  (VolatilitySurface.unique "month" df_all
     ≫= period_artifacts target_curve "month" "_surface" df_all)
  ++ (VolatilitySurface.unique "year" df_all
        ≫= period_artifacts target_curve "year" "_YEARLY_surface" df_all).

(** The two files of one surface: the figure and the matrix behind it. *)
Definition surface_pair (p : string * Matrix) : list (string * Artifact) :=
  [ (p.1 +:+ ".png", Figure); (p.1 +:+ "_data.csv", MatrixCsv p.2) ].

(** The exception that keeps [build_vol_time_series] from using a file it
    has opened: the one [read_csv] raises, or the one raised while the table
    is prepared. *)
Definition series_failure `{PandasText} (month start_date end_date : option string)
    (f : File) : option Exn :=
  if Py.endswith (fname f) ".csv" && negb (TimeSeriesPlotter.month_mismatch month (fname f))
  then
    match fparse f utf_8 bad_skip with
    | Raise e => Some e
    | Ok df =>
        if Pd.empty df then None
        else match TimeSeriesPlotter.prepare start_date end_date df with
             | Raise e => Some e
             | Ok _ => None
             end
    end
  else None.

(** What the loop body of [build_vol_time_series] reads and prints for one
    file. *)
Definition series_events `{PandasText} (month start_date end_date : option string)
    (root : string) (f : File) : list Event :=
  if Py.endswith (fname f) ".csv" && negb (TimeSeriesPlotter.month_mismatch month (fname f))
  then
    ReadCsv (Py.path_join root (fname f)) utf_8 bad_skip
    :: match series_failure month start_date end_date f with
       | Some e => [Printed (ProcessingError (fname f) e)]
       | None => []
       end
  else [].

(** The per-file failures a trace reports, in order. *)
Definition processing_errors (evs : list Event) : list (string * Exn) :=
  omap (λ ev, match ev with
              | Printed (ProcessingError f e) => Some (f, e)
              | _ => None
              end) evs.

(** The dates of an index go strictly up: one row per date, earlier dates
    first. *)
Definition strictly_increasing (l : list Timestamp) : Prop :=
  ∀ i j a b, (i < j)%nat → l !! i = Some a → l !! j = Some b →
             ts_leb a b = true ∧ a ≠ b.

(** ** A concrete text interface and sample inputs

    ISO dates ([YYYY-MM-DD], within the years a [Timestamp] can hold) and
    plain decimal numbers; used by the examples. *)

Module Sample.

Fixpoint digits_val (s : string) (acc : nat) : option nat :=
  match s with
  | EmptyString => Some acc
  | String c s' =>
      if Py.is_digit c then digits_val s' (10 * acc + (nat_of_ascii c - 48))
      else None
  end.

Definition number (s : string) : option nat :=
  match s with
  | EmptyString => None
  | _ => digits_val s 0
  end.

Definition iso_date (s : string) : option Timestamp :=
  match Py.split "-" s with
  | [y; m; d] =>
      if bool_decide (String.length y = 4 ∧ String.length m = 2 ∧ String.length d = 2) then
        y ← number y; m ← number m; d ← number d; mk_date y m d
      else None
  | _ => None
  end.

Definition unsigned_decimal (s : string) : option Q :=
  match Py.split "." s with
  | [i] => i ← number i; Some (inject_Z (Z.of_nat i))
  | [i; f] =>
      i ← number i; f' ← number f;
      Some (inject_Z (Z.of_nat i)
            + Qmake (Z.of_nat f') (Pos.of_nat (10 ^ String.length f)))%Q
  | _ => None
  end.

Definition decimal (s : string) : option Qc :=
  match s with
  | String "-" s' => q ← unsigned_decimal s'; Some (Q2Qc (- q))
  | _ => q ← unsigned_decimal s; Some (Q2Qc q)
  end.

#[export] Instance iso_text : PandasText := {|
  parse_datetime := iso_date;
  parse_numeric := decimal;
  str_of_num := λ _, "<float>";
  str_of_date := λ t, Py.str_nat (ts_year t) +:+ "-" +:+ Py.fmt_02d (ts_month t)
                      +:+ "-" +:+ Py.fmt_02d (ts_day t)
|}.

(** A table from a header and lines of text cells; an empty cell is missing. *)
Definition row_of (header line : list string) : gmap string cell :=
  list_to_map (zip header ((λ s, if String.eqb s "" then NaN else Str s) <$> line)).

Definition table (header : list string) (lines : list (list string)) : DataFrame :=
  {| columns := header; rows := row_of header <$> lines |}.

(** A readable UTF-8 file. *)
Definition csv (name : string) (size : nat) (df : DataFrame) : File :=
  {| fname := name; fsize := Ok size; fparse := λ _ _, Ok df |}.

Definition fresh : World := {| trace := []; outdir := ∅; saved := [] |}.

Definition header : list string := ["Basis"; "Type"; "Call/Put"; "Curve_Date"; "Mid"].

Definition january : File :=
  csv "a.csv" 120 (table header
    [ ["NYMEX"; "ATM"; "C"; "2024-01-05"; "0.30"];
      ["NYMEX"; "ATM + $0.25"; "C"; "2024-01-08"; "0.31"];
      ["HSC"; "ATM"; "C"; "2024-01-05"; "0.40"];
      ["NYMEX"; "ATM"; "C"; "not a date"; "0.29"] ]).

Definition mixed : File :=
  csv "b.csv" 120 (table header
    [ ["nymex"; "atm"; "C"; "2024-02-01"; "0.33"];
      ["NYMEX"; "ATM"; "C"; "2024-01-31"; "0.32"];
      ["NYMEX"; "ATM"; "C"; "2023-02-01"; "0.20"] ]).

(** A file with no [Basis] column. *)
Definition no_basis : File :=
  csv "c.csv" 60 (table ["Type"; "Call/Put"; "Curve_Date"; "Mid"]
    [ ["ATM"; "C"; "2024-01-05"; "0.30"] ]).

(** Two Februaries, a year apart. *)
Definition februaries : File :=
  csv "d.csv" 90 (table header
    [ ["NYMEX"; "ATM"; "C"; "2023-02-10"; "0.20"];
      ["NYMEX"; "ATM"; "C"; "2024-02-12"; "0.35"] ]).

(** An output folder that still holds a monthly file of 2023. *)
Definition stale : World :=
  {| trace := [];
     outdir := {[ "2023-05.csv" :=
                  table header [ ["NYMEX"; "ATM"; "C"; "2023-05-02"; "0.21"] ] ]};
     saved := [] |}.

(** Five bytes: a header and no row. *)
Definition header_only : File :=
  csv "h.csv" 5 (table ["a"; "b"] []).

(** A UTF-16 file: only that encoding reads it. *)
Definition utf16_file : File :=
  {| fname := "u.csv"; fsize := Ok 200;
     fparse := λ enc _, match enc with
                        | utf_16 => Ok (table header [ ["NYMEX"; "ATM"; "C"; "2024-01-05"; "0.30"] ])
                        | _ => Raise UnicodeDecodeError
                        end |}.

(** Surface rows: a duplicated cell, a second strike and a label that is
    no key of the moneyness table. *)
Definition surface_table : DataFrame :=
  table ["Basis"; "Type"; "Curve_Date"; "Mid"]
    [ ["NYMEX"; "ATM"; "2024-01-05"; "0.20"];
      ["NYMEX"; "ATM"; "2024-01-05"; "0.24"];
      ["NYMEX"; "ATM + $0.25"; "2024-01-05"; "0.30"];
      ["NYMEX"; "HIST"; "2024-01-05"; "0.90"] ].

Definition surface_file : File := csv "NYMEX_2024-01.csv" 150 surface_table.

(** A file named after January that holds a February row and a row whose
    [Mid] is no number. *)
Definition january_named : File :=
  csv "NYMEX_01_ewma_hist.csv" 150 (table header
    [ ["NYMEX"; "HIST"; "EWMA"; "2024-01-05"; "0.30"];
      ["NYMEX"; "HIST"; "EWMA"; "2024-02-06"; "0.31"];
      ["NYMEX"; "HIST"; "EWMA"; "2024-01-09"; "n/a"] ]).

Definition strikes : list string := ["ATM"; "ATM + $0.25"].

(** A file whose extension is in upper case. *)
Definition shouting : File := csv "DATA.CSV" 120 (table header []).

(** A surface file with no [Type] column. *)
Definition no_type : File :=
  csv "t.csv" 60 (table ["Basis"; "Curve_Date"; "Mid"]
    [ ["NYMEX"; "2024-01-05"; "0.20"] ]).

End Sample.

(** * Properties *)

(** ** Sanity checks of the string and text helpers *)

Example endswith_csv : Py.endswith "2024-01.csv" ".csv" = true.
Proof. reflexivity. Qed.

Example strip_upper : Py.upper (Py.strip "  atm + $0.25 ") = "ATM + $0.25".
Proof. reflexivity. Qed.

Example split_key : Py.split "-" "2024-02" = ["2024"; "02"].
Proof. reflexivity. Qed.

Example fmt_month : Py.fmt_02d 2 = "02" ∧ Py.fmt_02d 11 = "11".
Proof. split; vm_compute; reflexivity. Qed.

Example contains_month : Py.contains "01" "NYMEX_2024-01.csv" = true.
Proof. reflexivity. Qed.

Example iso_date_ok :
  Sample.iso_date "2024-02-01" = mk_date 2024 2 1
  ∧ ts_month <$> Sample.iso_date "2024-02-01" = Some 2%nat
  ∧ Sample.iso_date "2024-13-01" = None.
Proof. split_and!; vm_compute; reflexivity. Qed.

Example decimal_ok : Sample.decimal "-0.50" = Some (Q2Qc (-1 # 2)).
Proof. apply (f_equal Some), Qc_is_canon. vm_compute. reflexivity. Qed.

(** ** Lists, sorting and the groups of a table *)

Section list_facts.
Context {A : Type}.

Lemma insert_by_Permutation (le : A → A → bool) x l :
  Py.insert_by le x l ≡ₚ x :: l.
Proof.
  induction l as [|y l IH]; simpl; [done|].
  destruct (le x y); [done|]. rewrite IH. apply Permutation_swap.
Qed.

Lemma sort_by_Permutation (le : A → A → bool) l : Py.sort_by le l ≡ₚ l.
Proof.
  induction l as [|x l IH]; simpl; [done|].
  by rewrite insert_by_Permutation, IH.
Qed.

(** Filtering a list by each key of a duplicate-free list of keys splits
    the rows that carry one of these keys. *)
Lemma filter_by_keys_Permutation {K} `{EqDecision K} (key : A → option K)
    (ks : list K) (l : list A) :
  NoDup ks →
  (∀ r, r ∈ l → ∃ k, k ∈ ks ∧ key r = Some k) →
  mjoin ((λ k, filter (λ r, key r = Some k) l) <$> ks) ≡ₚ l.
Proof.
  intros Hnd. revert l. induction Hnd as [|k ks Hk Hnd IH]; intros l Hall.
  - destruct l as [|r l]; [done|].
    destruct (Hall r) as (k & Hk & _); [left|]. by apply elem_of_nil in Hk.
  - csimpl.
    assert (Heq : (λ k', filter (λ r, key r = Some k') l) <$> ks
                  = (λ k', filter (λ r, key r = Some k')
                             (filter (λ r, ¬ key r = Some k) l)) <$> ks).
    { apply list_fmap_ext. intros i k' Hi.
      apply list_elem_of_lookup_2 in Hi.
      rewrite list_filter_filter. apply list_filter_iff. intros r.
      split; [|tauto]. intros Hr. split; [done|]. intros Hr'.
      rewrite Hr in Hr'. by simplify_eq. }
    rewrite Heq, IH.
    + apply filter_app_complement.
    + intros r [Hr Hin]%list_elem_of_filter.
      destruct (Hall r Hin) as (k' & Hk' & Hkey).
      exists k'. split; [|done].
      apply elem_of_cons in Hk' as [->|]; [done|done].
Qed.

End list_facts.

(** [dict_append] adds the rows of the group under its key and keeps the
    keys of the dictionary distinct. *)
Lemma dict_append_placements key g fd :
  placements (dict_append key g fd) ≡ₚ placements fd ++ ((λ r, (key, r)) <$> rows g).
Proof.
  unfold placements. induction fd as [|[k xs] fd IH]; simpl.
  - by rewrite !app_nil_r.
  - destruct (decide (k = key)) as [->|Hne]; simpl.
    + rewrite bind_app, fmap_app. simpl. rewrite app_nil_r.
      rewrite <- !(assoc_L (++)). f_equiv. apply (comm (++)).
    + rewrite IH. by rewrite (assoc_L (++)).
Qed.

Lemma dict_append_keys {V} key (g : V) fd :
  (dict_append key g fd).*1 = if decide (key ∈ fd.*1) then fd.*1 else fd.*1 ++ [key].
Proof.
  induction fd as [|[k xs] fd IH]; csimpl; [done|].
  destruct (decide (k = key)) as [->|Hne]; csimpl.
  - rewrite decide_True; [done|left].
  - rewrite IH. destruct (decide (key ∈ fd.*1)).
    + rewrite decide_True; [done|by right].
    + rewrite decide_False; [done|]. rewrite elem_of_cons. intros [?|?]; congruence.
Qed.

Lemma dict_append_NoDup {V} key (g : V) fd :
  NoDup fd.*1 → NoDup (dict_append key g fd).*1.
Proof.
  intros Hnd. rewrite dict_append_keys. case_decide; [done|].
  apply NoDup_app. split_and!; [done| |apply NoDup_singleton].
  intros x Hx ->%list_elem_of_singleton. done.
Qed.

Lemma dict_append_covered key g fd :
  rows g ≠ [] → keys_covered fd → keys_covered (dict_append key g fd).
Proof.
  intros Hg Hc k Hk. setoid_rewrite dict_append_placements.
  rewrite dict_append_keys in Hk.
  assert (Hcase : k ∈ fd.*1 ∨ k = key).
  { case_decide; [by left|]. apply elem_of_app in Hk as [?|Hk]; [by left|].
    right. by apply list_elem_of_singleton in Hk. }
  destruct Hcase as [Hin| ->].
  - destruct (Hc k Hin) as [r Hr]. exists r. apply elem_of_app. by left.
  - destruct (rows g) as [|r rs] eqn:Hrows; [done|].
    exists r. apply elem_of_app. right. left.
Qed.

(** ** Dated rows and their groups *)

Section frames.
Context `{PandasText}.

Lemma to_datetime_coerce_notnull c :
  notnull (to_datetime_coerce c) = true → ∃ t, to_datetime_coerce c = Date t.
Proof.
  destruct c as [s|q|t|]; simpl; try done; [|by eauto].
  destruct (parse_datetime s); simpl; [by eauto|done].
Qed.

Lemma add_dates_dated df r : r ∈ rows (VolExtractor.add_dates df) → dated r.
Proof.
  unfold VolExtractor.add_dates, assign, select; simpl.
  intros (r2 & -> & (r1 & -> & (r0 & -> & Hr0)%list_elem_of_fmap)%list_elem_of_fmap)%list_elem_of_fmap.
  apply list_elem_of_filter in Hr0 as [Hnn (r & -> & Hr)%list_elem_of_fmap].
  unfold at_ in Hnn. rewrite lookup_insert_eq in Hnn. simpl in Hnn.
  apply to_datetime_coerce_notnull in Hnn as [t Ht].
  exists t. unfold at_. simplify_map_eq. by rewrite !Ht.
Qed.

Lemma normalise_add_dates df :
  CurveFilter.normalise df
  = VolExtractor.add_dates
      (assign (assign df "Basis" (λ r, Str (Py.strip (cell_str (at_ r "Basis")))))
         "Type" (λ r, Str (Py.upper (Py.strip (cell_str (at_ r "Type")))))).
Proof. reflexivity. Qed.

Lemma dated_key r :
  dated r →
  ∃ k, ym_key r = Some k ∧ CurveFilter.month_key k = bucket_of r
       ∧ at_ r "month" = Str k.2.
Proof.
  intros (t & Hd & Hy & Hm). unfold ym_key, bucket_of. rewrite Hd, Hy, Hm.
  eexists. split; [done|]. done.
Qed.

Lemma elem_of_select d p r : r ∈ rows (select d p) ↔ p r = true ∧ r ∈ rows d.
Proof.
  unfold select; simpl.
  apply (list_elem_of_filter (λ r, p r = true) (rows d) r).
Qed.

Lemma join_fmap_fmap {A B} (f : A → B) (ls : list (list A)) :
  mjoin ((fmap f) <$> ls) = f <$> mjoin ls.
Proof.
  induction ls as [|l ls IH]; csimpl; [done|]. by rewrite IH, fmap_app.
Qed.

Lemma groupby_ym_keys d :
  NoDup (groupby_ym d).*1
  ∧ ∀ k, k ∈ (groupby_ym d).*1 ↔ ∃ r, r ∈ rows d ∧ ym_key r = Some k.
Proof.
  unfold groupby_ym. rewrite <- list_fmap_compose.
  rewrite (list_fmap_ext _ id _ (λ _ _ _, eq_refl)), list_fmap_id.
  split.
  - rewrite sort_by_Permutation. apply NoDup_remove_dups.
  - intros k. rewrite sort_by_Permutation, elem_of_remove_dups.
    apply list_elem_of_omap.
Qed.

(** The groups of a table of dated rows carry every row once, each under
    the bucket its date names. *)
Lemma groupby_ym_placements d :
  (∀ r, r ∈ rows d → dated r) →
  (groupby_ym d ≫= λ g, (λ r, (CurveFilter.month_key g.1, r)) <$> rows g.2)
  ≡ₚ (λ r, (bucket_of r, r)) <$> rows d.
Proof.
  intros Hd. destruct (groupby_ym_keys d) as [Hnd Hin].
  unfold groupby_ym in *. revert Hnd Hin.
  rewrite <- list_fmap_compose.
  rewrite (list_fmap_ext _ id _ (λ _ _ _, eq_refl)), list_fmap_id.
  generalize (Py.sort_by ym_leb (remove_dups (omap ym_key (rows d)))).
  intros ks Hnd Hin.
  rewrite list_fmap_bind.
  transitivity (mjoin ((fmap (λ r, (bucket_of r, r)))
                       <$> ((λ k, filter (λ r, ym_key r = Some k) (rows d)) <$> ks))).
  - rewrite <- list_fmap_compose.
    assert (Hb : ∀ {A B} (f : A → list B) l, l ≫= f = mjoin (f <$> l)).
    { intros A B f l. induction l as [|x l IH]; csimpl; [done|]. by rewrite IH. }
    rewrite Hb. apply reflexive_eq. f_equal.
    apply list_fmap_ext. intros i k Hk. simpl.
    apply list_fmap_ext. intros j r Hr.
    apply list_elem_of_lookup_2, list_elem_of_filter in Hr as [Hkey Hr].
    destruct (dated_key r (Hd r Hr)) as (k' & Hk' & Hb' & _).
    rewrite Hkey in Hk'. simplify_eq. by rewrite Hb'.
  - rewrite join_fmap_fmap. f_equiv.
    apply filter_by_keys_Permutation; [done|].
    intros r Hr. destruct (dated_key r (Hd r Hr)) as (k & Hk & _).
    exists k. split; [|done]. apply Hin. eauto.
Qed.

End frames.

Section groups.
Context `{PandasText}.
Variable month : option string.

(** A table is fit for the stage's month argument when, a month being
    given, every row carries it. *)
Let fits (d : DataFrame) : Prop :=
  ∀ m r, month = Some m → Py.truthy month = true → r ∈ rows d →
         at_ r "month" = Str m.

Lemma add_group_fold gs fd :
  (∀ g, g ∈ gs → Py.truthy month = true → Some g.1.2 = month) →
  placements (foldl (CurveFilter.add_group month) fd gs)
  ≡ₚ placements fd ++ (gs ≫= λ g, (λ r, (CurveFilter.month_key g.1, r)) <$> rows g.2).
Proof.
  revert fd. induction gs as [|g gs IH]; intros fd Hgs; csimpl.
  - by rewrite app_nil_r.
  - rewrite IH by (intros; apply Hgs; [by right|done]).
    unfold CurveFilter.add_group.
    destruct (Py.truthy month) eqn:Ht; simpl.
    + rewrite bool_decide_true by (apply Hgs; [left|done]). simpl.
      rewrite dict_append_placements. by rewrite (assoc_L (++)).
    + rewrite dict_append_placements. by rewrite (assoc_L (++)).
Qed.

Lemma add_group_fold_NoDup gs fd :
  NoDup fd.*1 → NoDup (foldl (CurveFilter.add_group month) fd gs).*1.
Proof.
  revert fd. induction gs as [|g gs IH]; intros fd Hnd; simpl; [done|].
  apply IH. unfold CurveFilter.add_group.
  destruct (_ && _); [done|]. by apply dict_append_NoDup.
Qed.

Lemma add_groups_placements fd d :
  (∀ r, r ∈ rows d → dated r) → fits d →
  placements (CurveFilter.add_groups month fd d)
  ≡ₚ placements fd ++ ((λ r, (bucket_of r, r)) <$> rows d).
Proof.
  intros Hd Hfit. unfold CurveFilter.add_groups.
  rewrite add_group_fold, groupby_ym_placements; [done|done|].
  intros [k g] Hg Ht. simpl.
  assert (Hk : k ∈ (groupby_ym d).*1).
  { apply list_elem_of_fmap. by exists (k, g). }
  apply groupby_ym_keys in Hk as (r & Hr & Hkey).
  destruct (dated_key r (Hd r Hr)) as (k' & Hk' & _ & Hm).
  rewrite Hkey in Hk'. simplify_eq.
  destruct month as [m|] eqn:Hmo; [|done].
  rewrite (Hfit m r eq_refl Ht Hr) in Hm. by simplify_eq.
Qed.

Lemma add_groups_NoDup fd d :
  NoDup fd.*1 → NoDup (CurveFilter.add_groups month fd d).*1.
Proof. apply add_group_fold_NoDup. Qed.

Lemma add_group_fold_covered gs fd :
  (∀ g, g ∈ gs → rows g.2 ≠ []) →
  keys_covered fd → keys_covered (foldl (CurveFilter.add_group month) fd gs).
Proof.
  revert fd. induction gs as [|g gs IH]; intros fd Hgs Hc; simpl; [done|].
  apply IH; [intros; apply Hgs; by right|].
  unfold CurveFilter.add_group. destruct (_ && _); [done|].
  apply dict_append_covered; [|done]. apply Hgs. left.
Qed.

Lemma add_groups_covered fd d :
  keys_covered fd → keys_covered (CurveFilter.add_groups month fd d).
Proof.
  apply add_group_fold_covered. intros [k g] Hg.
  assert (Hk : k ∈ (groupby_ym d).*1).
  { apply list_elem_of_fmap. by exists (k, g). }
  apply groupby_ym_keys in Hk as (r & Hr & Hkey).
  unfold groupby_ym in Hg. apply list_elem_of_fmap in Hg as (k' & [= -> ->] & _).
  simpl. intros Hnil.
  assert (Hin : r ∈ filter (λ r, ym_key r = Some k') (rows d))
    by (by apply list_elem_of_filter).
  rewrite Hnil in Hin. by apply elem_of_nil in Hin.
Qed.

End groups.

(** ** The scan of [extract_curve_data] *)

Section curve_scan.
Context `{PandasText}.
Variables (year : string) (target_curves target_strikes : list string).
Variable month : option string.

Lemma read_input_spec path f w :
  ∃ w', CurveFilter.read_input path f w = (Ok (Retained.curve_loaded f), w')
        ∧ outdir w' = outdir w.
Proof.
  unfold CurveFilter.read_input, Retained.curve_loaded, try_except, bind,
    getsize, read_csv, lift, print, emit, ret, bind.
  destruct (fsize f) as [sz|e]; simpl; [|by eauto].
  destruct (decide (sz < 10)%nat); simpl; [by eauto|].
  destruct (fparse f utf_8 bad_skip) as [df|e]; simpl; [|by eauto].
  destruct (Pd.empty df); simpl; by eauto.
Qed.

Lemma missing_columns_nil (cols req : list string) :
  filter (λ c, c ∉ cols) req = [] ↔ forallb (λ c, bool_decide (c ∈ cols)) req = true.
Proof.
  induction req as [|c req IH]; simpl; [done|].
  rewrite filter_cons. destruct (decide (c ∈ cols)) as [Hc|Hc].
  - rewrite decide_False by tauto. by rewrite bool_decide_true.
  - rewrite decide_True by done. by rewrite bool_decide_false.
Qed.

Lemma process_file_spec root f acc w :
  ∃ acc' w',
    CurveFilter.process_file year target_curves target_strikes month root f acc w
    = (Ok acc', w')
    ∧ outdir w' = outdir w
    ∧ CurveFilter.file_dict acc'
      = match Retained.curve_frame year target_curves target_strikes month f with
        | Some d => CurveFilter.add_groups month (CurveFilter.file_dict acc) d
        | None => CurveFilter.file_dict acc
        end.
Proof.
  unfold CurveFilter.process_file, Retained.curve_frame.
  destruct (Py.endswith (fname f) ".csv"); simpl; [|by eauto].
  destruct (read_input_spec (Py.path_join root (fname f)) f w) as (w1 & Hr & Ho).
  unfold bind at 1. rewrite Hr.
  destruct (Retained.curve_loaded f) as [df|]; simpl; [|by eauto].
  pose proof (missing_columns_nil (columns (rename_columns Py.strip df))
                CurveFilter.required_columns) as Hm.
  fold (has_column (rename_columns Py.strip df)) in Hm.
  destruct (filter _ CurveFilter.required_columns) as [|c cs] eqn:Hf;
    simpl in Hm.
  - rewrite (proj1 Hm eq_refl). unfold ret. by eauto.
  - destruct (_ && _); [by destruct Hm as [_ Hm]; discriminate Hm|].
    unfold bind, print, emit, ret; simpl. by eauto.
Qed.

Lemma curve_frame_dated f d :
  Retained.curve_frame year target_curves target_strikes month f = Some d →
  (∀ r, r ∈ rows d → dated r)
  ∧ (∀ m r, month = Some m → Py.truthy month = true → r ∈ rows d →
            at_ r "month" = Str m).
Proof.
  unfold Retained.curve_frame. destruct (Py.endswith _ _); [|done].
  destruct (Retained.curve_loaded f) as [df|]; [simpl|done].
  destruct (_ && _); [|done]. intros [= <-].
  unfold CurveFilter.df_filtered. rewrite normalise_add_dates.
  split.
  - intros r Hr. eapply add_dates_dated.
    destruct month as [m|]; [destruct (Py.truthy _)|];
      repeat (apply elem_of_select in Hr as [_ Hr]); exact Hr.
  - intros m r -> Ht. rewrite Ht.
    intros [Hm _]%elem_of_select. unfold CurveFilter.month_is in Hm.
    by apply bool_decide_eq_true in Hm.
Qed.

(** The scan never raises, leaves the output folder alone, and its
    dictionary holds every retained row once, under the bucket of its
    date. *)
Lemma curve_files_spec root files acc w :
  ∃ acc' w',
    for_each files (CurveFilter.process_file year target_curves target_strikes month root)
      acc w = (Ok acc', w')
    ∧ outdir w' = outdir w
    ∧ (NoDup (CurveFilter.file_dict acc).*1 → NoDup (CurveFilter.file_dict acc').*1)
    ∧ (keys_covered (CurveFilter.file_dict acc) → keys_covered (CurveFilter.file_dict acc'))
    ∧ placements (CurveFilter.file_dict acc')
      ≡ₚ placements (CurveFilter.file_dict acc)
         ++ (files ≫= λ f, (λ r, (bucket_of r, r)) <$>
               Retained.rows_of (Retained.curve_frame year target_curves target_strikes month f)).
Proof.
  revert acc w. induction files as [|f files IH]; intros acc w; csimpl.
  - exists acc, w. unfold ret. rewrite app_nil_r. done.
  - destruct (process_file_spec root f acc w) as (acc1 & w1 & Hp & Ho1 & Hfd).
    unfold bind. rewrite Hp.
    destruct (IH acc1 w1) as (acc2 & w2 & Hs & Ho2 & Hnd & Hcov & Hperm).
    exists acc2, w2. split_and!; [done|congruence| | |].
    + intros Hn. apply Hnd. rewrite Hfd.
      destruct (Retained.curve_frame _ _ _ _ f); [by apply add_groups_NoDup|done].
    + intros Hc. apply Hcov. rewrite Hfd.
      destruct (Retained.curve_frame _ _ _ _ f); [by apply add_groups_covered|done].
    + rewrite Hperm, Hfd.
      destruct (Retained.curve_frame _ _ _ _ f) as [d|] eqn:Hd; simpl.
      * destruct (curve_frame_dated f d Hd) as [Hdat Hfit].
        rewrite add_groups_placements by done. by rewrite (assoc_L (++)).
      * done.
Qed.

Lemma curve_scan_spec walk w :
  ∃ acc w',
    CurveFilter.scan year target_curves target_strikes month walk w = (Ok acc, w')
    ∧ outdir w' = outdir w
    ∧ NoDup (CurveFilter.file_dict acc).*1
    ∧ keys_covered (CurveFilter.file_dict acc)
    ∧ placements (CurveFilter.file_dict acc)
      ≡ₚ (files_of walk ≫= λ f, (λ r, (bucket_of r, r)) <$>
            Retained.rows_of (Retained.curve_frame year target_curves target_strikes month f)).
Proof.
  unfold CurveFilter.scan, files_of.
  assert (Hgen : ∀ acc w,
    ∃ acc' w',
      for_each walk (λ dir acc,
        for_each dir.2 (CurveFilter.process_file year target_curves target_strikes month dir.1) acc)
        acc w = (Ok acc', w')
      ∧ outdir w' = outdir w
      ∧ (NoDup (CurveFilter.file_dict acc).*1 → NoDup (CurveFilter.file_dict acc').*1)
      ∧ (keys_covered (CurveFilter.file_dict acc) → keys_covered (CurveFilter.file_dict acc'))
      ∧ placements (CurveFilter.file_dict acc')
        ≡ₚ placements (CurveFilter.file_dict acc)
           ++ ((walk ≫= snd) ≫= λ f, (λ r, (bucket_of r, r)) <$>
                 Retained.rows_of (Retained.curve_frame year target_curves target_strikes month f))).
  { induction walk as [|[root files] walk IH]; intros acc w0; csimpl.
    - exists acc, w0. unfold ret. by rewrite app_nil_r.
    - destruct (curve_files_spec root files acc w0)
        as (acc1 & w1 & Hp & Ho1 & Hn1 & Hc1 & Hq1).
      unfold bind. rewrite Hp.
      destruct (IH acc1 w1) as (acc2 & w2 & Hs & Ho2 & Hn2 & Hc2 & Hq2).
      exists acc2, w2. split_and!; [done|congruence|by auto|by auto|].
      rewrite Hq2, Hq1, bind_app. by rewrite (assoc_L (++)). }
  destruct (Hgen CurveFilter.init w) as (acc & w' & Hs & Ho & Hn & Hc & Hq).
  exists acc, w'. split_and!; [done|done|apply Hn; constructor| |by rewrite Hq].
  apply Hc. intros k Hk. by apply elem_of_nil in Hk.
Qed.

End curve_scan.

(** ** The scan of [filter_vol_data] *)

Section vol_scan.
Context `{PandasText}.
Variables (year : string) (basis_filter : list string).
Variables (type_filter callput_filter month start_date end_date : option string).

Lemma robust_read_csv_spec path f w :
  ∃ w', VolExtractor.robust_read_csv path f w = (Ok (Retained.vol_loaded f), w')
        ∧ outdir w' = outdir w.
Proof.
  unfold VolExtractor.robust_read_csv, Retained.vol_loaded, try_except, bind,
    read_csv, lift, print, emit, ret, bind.
  simpl. destruct (fparse f utf_8_sig bad_error) as [df|e1]; simpl; [by eauto|].
  destruct (fparse f utf_16 bad_error) as [df|e2]; simpl; by eauto.
Qed.

Let frame := Retained.vol_frame year basis_filter type_filter callput_filter
               month start_date end_date.
Let step := VolExtractor.process_file year basis_filter type_filter callput_filter
               month start_date end_date.

Lemma vol_process_file_spec root f fd w fd' w' :
  step root f fd w = (Ok fd', w') →
  outdir w' = outdir w
  ∧ fd' = match frame f with
          | Some d => CurveFilter.add_groups month fd d
          | None => fd
          end.
Proof.
  unfold step, frame, VolExtractor.process_file, Retained.vol_frame.
  destruct (Py.endswith (fname f) ".csv"); simpl.
  2:{ unfold ret. by intros [= <- <-]. }
  destruct (robust_read_csv_spec (Py.path_join root (fname f)) f w) as (w1 & Hr & Ho).
  unfold bind at 1. rewrite Hr.
  destruct (Retained.vol_loaded f) as [df|]; simpl.
  2:{ unfold bind, print, emit, ret; simpl. by intros [= <- <-]. }
  unfold bind, lift, ret.
  destruct (VolExtractor.getitem _ "Basis"); [|done].
  destruct (VolExtractor.getitem _ "Type"); [|done].
  destruct (VolExtractor.get_callput _); [|done].
  destruct (has_column _ "Curve_Date"); simpl.
  2:{ by intros [= <- <-]. }
  destruct (VolExtractor.date_mask _ _ _); [|done].
  by intros [= <- <-].
Qed.

Lemma vol_frame_dated f d :
  frame f = Some d →
  (∀ r, r ∈ rows d → dated r)
  ∧ (∀ m r, month = Some m → Py.truthy month = true → r ∈ rows d →
            at_ r "month" = Str m).
Proof.
  unfold frame, Retained.vol_frame. destruct (Py.endswith _ _); [|done].
  destruct (Retained.vol_loaded f) as [df|]; [simpl|done].
  destruct (has_column _ _); [|done].
  destruct (VolExtractor.date_mask _ _ _) as [dm|]; [|done]. intros [= <-].
  split.
  - intros r [_ Hr]%elem_of_select. by eapply add_dates_dated.
  - intros m r -> Ht [Hm _]%elem_of_select.
    unfold VolExtractor.mask, VolExtractor.when in Hm. rewrite Ht in Hm.
    apply andb_prop in Hm as [_ Hm]. by apply bool_decide_eq_true in Hm.
Qed.

Lemma vol_files_spec root files fd w fd' w' :
  for_each files (step root) fd w = (Ok fd', w') →
  outdir w' = outdir w
  ∧ (NoDup fd.*1 → NoDup fd'.*1)
  ∧ placements fd'
    ≡ₚ placements fd
       ++ (files ≫= λ f, (λ r, (bucket_of r, r)) <$> Retained.rows_of (frame f)).
Proof.
  revert fd w. induction files as [|f files IH]; intros fd w; csimpl.
  - unfold ret. intros [= <- <-]. by rewrite app_nil_r.
  - unfold bind. destruct (step root f fd w) as [[fd1|e] w1] eqn:Hp; [|done].
    intros Hs. apply vol_process_file_spec in Hp as [Ho1 ->].
    apply IH in Hs as (Ho2 & Hnd & Hperm).
    split_and!; [congruence| |].
    + intros Hn. apply Hnd.
      destruct (frame f); [by apply add_groups_NoDup|done].
    + rewrite Hperm. destruct (frame f) as [d|] eqn:Hd; simpl; [|done].
      destruct (vol_frame_dated f d Hd) as [Hdat Hfit].
      rewrite add_groups_placements by done. by rewrite (assoc_L (++)).
Qed.

(** When the scan returns, the output folder is as it was and the
    dictionary holds every retained row once, under the bucket of its
    date. *)
Lemma vol_scan_spec walk w fd w' :
  VolExtractor.scan year basis_filter type_filter callput_filter month
    start_date end_date walk w = (Ok fd, w') →
  outdir w' = outdir w
  ∧ NoDup fd.*1
  ∧ placements fd
    ≡ₚ (files_of walk ≫= λ f, (λ r, (bucket_of r, r)) <$> Retained.rows_of (frame f)).
Proof.
  unfold VolExtractor.scan, files_of. fold step.
  assert (Hgen : ∀ fd0 w0,
    for_each walk (λ dir fd, for_each dir.2 (step dir.1) fd) fd0 w0 = (Ok fd, w') →
    outdir w' = outdir w0
    ∧ (NoDup fd0.*1 → NoDup fd.*1)
    ∧ placements fd
      ≡ₚ placements fd0
         ++ ((walk ≫= snd) ≫= λ f, (λ r, (bucket_of r, r)) <$> Retained.rows_of (frame f))).
  { induction walk as [|[root files] walk IH]; intros fd0 w0; csimpl.
    - unfold ret. intros [= <- <-]. by rewrite app_nil_r.
    - unfold bind.
      destruct (for_each files (step root) fd0 w0) as [[fd1|e] w1] eqn:Hp; [|done].
      intros Hs. apply vol_files_spec in Hp as (Ho1 & Hn1 & Hq1).
      apply IH in Hs as (Ho2 & Hn2 & Hq2).
      split_and!; [congruence|by auto|].
      rewrite Hq2, Hq1, bind_app. by rewrite (assoc_L (++)). }
  intros Hs. apply Hgen in Hs as (Ho & Hn & Hq).
  split_and!; [done|apply Hn; constructor|by rewrite Hq].
Qed.

End vol_scan.

(** ** Year-month buckets (C1) *)

Lemma bind_fmap_rows {A B C} (h : A → list B) (g : B → C) (l : list A) :
  (l ≫= λ x, g <$> h x) = g <$> (l ≫= h).
Proof.
  induction l as [|x l IH]; csimpl; [done|]. by rewrite IH, fmap_app.
Qed.

Lemma grouped_by_date_intro fd retained :
  NoDup fd.*1 →
  placements fd ≡ₚ (λ r, (bucket_of r, r)) <$> retained →
  (∀ r, r ∈ retained → dated r) →
  grouped_by_date fd retained.
Proof.
  intros Hnd Hp Hd. split_and!; [done|done|].
  intros k r Hkr. rewrite Hp in Hkr.
  apply list_elem_of_fmap in Hkr as (r' & [= -> ->] & Hr').
  destruct (Hd _ Hr') as (t & Ht & _). exists t. split; [done|].
  unfold bucket_of. by rewrite Ht.
Qed.

(** Strings that end in tails of one length. *)
Lemma string_length_app (a b : string) :
  String.length (a +:+ b) = (String.length a + String.length b)%nat.
Proof. induction a as [|c a IH]; simpl; [done|]. by rewrite IH. Qed.

Lemma string_app_inj_tail (a a' b b' : string) :
  String.length b = String.length b' → a +:+ b = a' +:+ b' → a = a' ∧ b = b'.
Proof.
  intros Hb Heq.
  assert (Hlen : String.length a = String.length a').
  { apply (f_equal String.length) in Heq. rewrite !string_length_app in Heq. lia. }
  clear Hb. revert a' Heq Hlen.
  induction a as [|c a IH]; intros [|c' a'] Heq Hlen; simpl in *; try done.
  injection Heq as -> Heq. destruct (IH a' Heq) as [-> ->]; [lia|done].
Qed.

Lemma fmt_02d_length m : (m < 100)%nat → String.length (Py.fmt_02d m) = 2%nat.
Proof.
  intros Hm.
  assert (Hall : forallb (λ m, Nat.eqb (String.length (Py.fmt_02d m)) 2) (seq 0 100) = true)
    by (vm_compute; reflexivity).
  rewrite forallb_forall in Hall.
  apply Nat.eqb_eq, Hall, in_seq. lia.
Qed.

Lemma fmt_02d_inj m m' :
  (m < 100)%nat → (m' < 100)%nat → Py.fmt_02d m = Py.fmt_02d m' → m = m'.
Proof.
  intros Hm Hm' Heq.
  assert (Hall : forallb (λ a, forallb (λ b,
            implb (String.eqb (Py.fmt_02d a) (Py.fmt_02d b)) (Nat.eqb a b))
            (seq 0 100)) (seq 0 100) = true) by (vm_compute; reflexivity).
  rewrite forallb_forall in Hall.
  specialize (Hall m). rewrite forallb_forall in Hall.
  specialize (Hall ltac:(apply in_seq; lia) m' ltac:(apply in_seq; lia)).
  rewrite Heq, String.eqb_refl in Hall. by apply Nat.eqb_eq.
Qed.

(** A bucket names one year and one month. *)
Lemma bucket_key_inj y m y' m' :
  (m < 100)%nat → (m' < 100)%nat →
  bucket_key y m = bucket_key y' m' → y = y' ∧ m = m'.
Proof.
  intros Hm Hm'. unfold bucket_key, Py.str_nat. intros Heq.
  apply string_app_inj_tail in Heq as [Hy Hrest].
  - split; [by apply (inj pretty)|].
    injection Hrest as Hrest. by apply fmt_02d_inj.
  - rewrite !string_length_app, !fmt_02d_length by done. done.
Qed.

(** C1. In both filter stages the dictionary of year-month buckets groups
    the retained rows by their own [Curve_Date]: a row stored under a bucket
    has the year and the month of that bucket, and each retained row is
    stored once, under the bucket of its date, whatever file or folder it
    was read from.  [extract_curve_data] always completes its scan;
    [filter_vol_data] can raise, and the statement is about a scan that
    returns. *)
Theorem filter_stage_buckets `{PandasText} :
  (∀ year target_curves target_strikes month walk w,
     ∃ acc w',
       CurveFilter.scan year target_curves target_strikes month walk w = (Ok acc, w')
       ∧ grouped_by_date (CurveFilter.file_dict acc)
           (files_of walk ≫= λ f, Retained.rows_of
              (Retained.curve_frame year target_curves target_strikes month f)))
  ∧ (∀ year basis_filter type_filter callput_filter month start_date end_date walk w fd w',
       VolExtractor.scan year basis_filter type_filter callput_filter month
         start_date end_date walk w = (Ok fd, w') →
       grouped_by_date fd
         (files_of walk ≫= λ f, Retained.rows_of
            (Retained.vol_frame year basis_filter type_filter callput_filter
               month start_date end_date f))).
Proof.
  split.
  - intros year tc ts month walk w.
    destruct (curve_scan_spec year tc ts month walk w) as (acc & w' & Hs & _ & Hn & _ & Hp).
    exists acc, w'. split; [done|].
    apply grouped_by_date_intro; [done|by rewrite <- bind_fmap_rows|].
    intros r (f & Hr & _)%list_elem_of_bind.
    destruct (Retained.curve_frame year tc ts month f) as [d|] eqn:Hd; simpl in Hr.
    + by apply (curve_frame_dated year tc ts month f d Hd).
    + by apply elem_of_nil in Hr.
  - intros year bf tf cf month sd ed walk w fd w' Hs.
    apply vol_scan_spec in Hs as (_ & Hn & Hp).
    apply grouped_by_date_intro; [done|by rewrite <- bind_fmap_rows|].
    intros r (f & Hr & _)%list_elem_of_bind.
    destruct (Retained.vol_frame year bf tf cf month sd ed f) as [d|] eqn:Hd; simpl in Hr.
    + by apply (vol_frame_dated year bf tf cf month sd ed f d Hd).
    + by apply elem_of_nil in Hr.
Qed.

Section buckets_sample.
#[local] Existing Instance Sample.iso_text.

Lemma filter_stage_buckets_witness :
  ∃ fd w',
    VolExtractor.scan "2024" ["NYMEX"] (Some "ATM") None None None None
      [("in", [Sample.january; Sample.mixed])] Sample.fresh = (Ok fd, w')
    ∧ grouped_by_date fd
        (files_of [("in", [Sample.january; Sample.mixed])] ≫= λ f, Retained.rows_of
           (Retained.vol_frame "2024" ["NYMEX"] (Some "ATM") None None None None f)).
Proof.
  eexists _, _. split; [vm_compute; reflexivity|].
  eapply (proj2 filter_stage_buckets "2024" ["NYMEX"] (Some "ATM") None None None None
            [("in", [Sample.january; Sample.mixed])] Sample.fresh).
  vm_compute; reflexivity.
Defined.

End buckets_sample.

(** ** A file without a required column (C2) *)

Section missing_column.
Context `{PandasText}.

(** [extract_curve_data] skips such a file: it prints the missing labels,
    counts the file as found and leaves the dictionary as it is. *)
Lemma curve_missing_columns_skipped year target_curves target_strikes month
    root f df acc w :
  Py.endswith (fname f) ".csv" = true →
  Retained.curve_loaded f = Some df →
  forallb (has_column (rename_columns Py.strip df)) CurveFilter.required_columns = false →
  ∃ missing tr w',
    missing ≠ []
    ∧ CurveFilter.process_file year target_curves target_strikes month root f acc w
      = (Ok {| CurveFilter.file_dict := CurveFilter.file_dict acc;
               CurveFilter.csv_files_found := S (CurveFilter.csv_files_found acc);
               CurveFilter.csv_files_processed := CurveFilter.csv_files_processed acc |},
         w')
    ∧ trace w' = tr ++ [Printed (MissingColumns missing (Py.path_join root (fname f)))]
    ∧ outdir w' = outdir w.
Proof.
  intros Hcsv Hload Hmiss. unfold CurveFilter.process_file. rewrite Hcsv. simpl.
  destruct (read_input_spec (Py.path_join root (fname f)) f w) as (w1 & Hr & Ho).
  unfold bind at 1. rewrite Hr, Hload.
  pose proof (missing_columns_nil (columns (rename_columns Py.strip df))
                CurveFilter.required_columns) as Hm.
  fold (has_column (rename_columns Py.strip df)) in Hm.
  destruct (filter _ CurveFilter.required_columns) as [|c cs] eqn:Hf.
  - rewrite (proj1 Hm eq_refl) in Hmiss. done.
  - exists (c :: cs), (trace w1). eexists. split; [done|].
    split; [reflexivity|]. simpl. done.
Qed.

(** [filter_vol_data] reads [df['Basis']] before any check: a file without
    that column raises [KeyError] out of the loop body. *)
Lemma vol_missing_basis_raises year basis_filter type_filter callput_filter month
    start_date end_date root f df fd w :
  Py.endswith (fname f) ".csv" = true →
  Retained.vol_loaded f = Some df →
  has_column (rename_columns clean_label df) "Basis" = false →
  ∃ w', VolExtractor.process_file year basis_filter type_filter callput_filter month
          start_date end_date root f fd w = (Raise (KeyError "Basis"), w').
Proof.
  intros Hcsv Hload Hmiss. unfold VolExtractor.process_file. rewrite Hcsv. simpl.
  destruct (robust_read_csv_spec (Py.path_join root (fname f)) f w) as (w1 & Hr & Ho).
  unfold bind at 1. rewrite Hr, Hload.
  unfold bind, lift, VolExtractor.getitem. rewrite Hmiss. by eauto.
Qed.

End missing_column.

Section missing_column_sample.
#[local] Existing Instance Sample.iso_text.

(** C2. On an input folder whose first file has no [Basis] column,
    [filter_vol_data] ends with an unhandled [KeyError]: nothing is printed
    about the file, the next file is not read and nothing is written.
    [extract_curve_data] on the same folder prints the missing column and
    goes on to write the rows of the next file. *)
Theorem filter_vol_data_missing_basis_escapes :
  VolExtractor.filter_vol_data "2024" ["NYMEX"] None None None None None
    [("in", [Sample.no_basis; Sample.january])] Sample.fresh
  = (Raise (KeyError "Basis"),
     {| trace := [ReadCsv "in/c.csv" utf_8_sig bad_error]; outdir := ∅; saved := [] |})
  ∧ ∃ w, CurveFilter.extract_curve_data "2024" ["NYMEX"] Sample.strikes None
           [("in", [Sample.no_basis; Sample.january])] Sample.fresh = (Ok tt, w)
         ∧ Printed (MissingColumns ["Basis"] "in/c.csv") ∈ trace w
         ∧ (length ∘ rows) <$> outdir w !! "2024-01.csv" = Some 2%nat.
Proof.
  split; [vm_compute; reflexivity|].
  eexists. split; [vm_compute; reflexivity|].
  split; [|vm_compute; reflexivity].
  apply (bool_decide_unpack _). vm_compute. exact I.
Qed.

End missing_column_sample.

(** ** The output folder *)

Section out_folder.
Context {A : Type} (name : A → string) (table : A → DataFrame).

Let put (o : gmap string DataFrame) (x : A) : gmap string DataFrame :=
  <[name x := table x]> o.

Lemma foldl_insert_notin l o n :
  n ∉ name <$> l → foldl put o l !! n = o !! n.
Proof.
  revert o. induction l as [|x l IH]; intros o Hn; simpl; [done|].
  rewrite fmap_cons, not_elem_of_cons in Hn. destruct Hn as [Hx Hl].
  rewrite IH by done. unfold put. by rewrite lookup_insert_ne.
Qed.

Lemma foldl_insert_in l o x :
  NoDup (name <$> l) → x ∈ l → foldl put o l !! name x = Some (table x).
Proof.
  revert o. induction l as [|y l IH]; intros o Hnd Hx; simpl.
  - by apply elem_of_nil in Hx.
  - rewrite fmap_cons in Hnd. apply NoDup_cons in Hnd as [Hy Hnd].
    apply elem_of_cons in Hx as [->|Hx]; [|by apply IH].
    rewrite foldl_insert_notin by done. unfold put. by rewrite lookup_insert_eq.
Qed.

Lemma foldl_insert_lookup l o n d :
  foldl put o l !! n = Some d →
  o !! n = Some d ∨ ∃ x, x ∈ l ∧ n = name x ∧ d = table x.
Proof.
  revert o. induction l as [|y l IH]; intros o; simpl; [by left|].
  intros [Ho|(x & Hx & -> & ->)]%IH.
  - unfold put in Ho. apply lookup_insert_Some in Ho as [[<- <-]|[_ Ho]].
    + right. exists y. split; [left|done].
    + by left.
  - right. exists x. split; [by right|done].
Qed.

End out_folder.

Lemma csv_name_inj (k k' : string) : k +:+ ".csv" = k' +:+ ".csv" → k = k'.
Proof. intros Heq. by apply string_app_inj_tail in Heq as [-> _]. Qed.

(** [write_months] of [extract_curve_data] stores the concatenated groups of
    every key under the key's own name. *)
Lemma curve_write_months_spec fd w :
  ∃ w', CurveFilter.write_months fd w = (Ok tt, w')
        ∧ outdir w'
          = foldl (λ o kv, <[kv.1 +:+ ".csv" := concat kv.2]> o) (outdir w) fd.
Proof.
  unfold CurveFilter.write_months. revert w.
  induction fd as [|kv fd IH]; intros w; simpl.
  - exists w. done.
  - unfold bind at 1. unfold bind at 1. unfold print, emit, to_csv. simpl.
    edestruct IH as (w' & Hw & Ho). exists w'. split; [exact Hw|]. by rewrite Ho.
Qed.

Lemma map_io_read_back names w :
  (∀ n, n ∈ names → is_Some (outdir w !! n)) →
  map_io read_back names w = (Ok (omap (λ n, outdir w !! n) names), w).
Proof.
  induction names as [|n names IH]; intros Hin; simpl; [done|].
  unfold bind at 1. unfold read_back at 1.
  destruct (Hin n) as [d Hd]; [left|]. rewrite Hd.
  unfold bind. rewrite IH by (intros; apply Hin; by right). done.
Qed.

Lemma omap_lookup_filter (o : gmap string DataFrame) (P : string → Prop)
    `{∀ n, Decision (P n)} (l : list (string * DataFrame)) :
  (∀ nd, nd ∈ l → o !! nd.1 = Some nd.2) →
  omap (λ n, o !! n) (filter P l.*1) = (filter (λ nd, P nd.1) l).*2.
Proof.
  induction l as [|[n d] l IH]; intros Hl; [done|].
  specialize (IH (λ nd Hnd, Hl nd (list_elem_of_further _ _ _ Hnd))).
  pose proof (Hl (n, d) (list_elem_of_here _ _)) as Hn. simpl in Hn.
  rewrite fmap_cons, !filter_cons. simpl.
  destruct (decide (P n)); csimpl; [|done].
  by rewrite Hn, IH.
Qed.

Lemma all_rows_snd (l : list (string * DataFrame)) : all_rows l = mjoin (rows <$> l.*2).
Proof.
  unfold all_rows. induction l as [|nd l IH]; csimpl; [done|]. by rewrite IH.
Qed.

(** The yearly combination of [extract_curve_data] never raises; it writes
    the rows of every file of the folder whose name passes the monthly test,
    and writes nothing when there is none. *)
Lemma combine_year_spec `{PandasText} year w :
  ∃ w', CurveFilter.combine_year year w = (Ok tt, w')
        ∧ match monthly_artifacts (outdir w) with
          | [] => outdir w' = outdir w
          | _ :: _ =>
              ∃ df, outdir w' = <[year +:+ "_combined.csv" := df]> (outdir w)
                    ∧ rows df ≡ₚ all_rows (monthly_artifacts (outdir w))
          end.
Proof.
  unfold CurveFilter.combine_year. unfold bind at 1. unfold sorted_listdir at 1.
  set (names := filter (λ f, CurveFilter.is_monthly_name f = true)
                  (Py.sorted (map_to_list (outdir w)).*1)).
  assert (Hin : ∀ n, n ∈ names → is_Some (outdir w !! n)).
  { intros n [_ Hn]%list_elem_of_filter. unfold Py.sorted in Hn.
    rewrite sort_by_Permutation in Hn.
    apply list_elem_of_fmap in Hn as ([n' d] & -> & Hnd).
    apply elem_of_map_to_list in Hnd. by eexists. }
  unfold bind at 1. rewrite (map_io_read_back names w Hin).
  assert (Hperm : omap (λ n, outdir w !! n) names ≡ₚ (monthly_artifacts (outdir w)).*2).
  { unfold names, Py.sorted. rewrite sort_by_Permutation.
    unfold monthly_artifacts.
    rewrite (omap_lookup_filter (outdir w) (λ n, CurveFilter.is_monthly_name n = true)); [done|].
    intros [n d] Hnd. by apply elem_of_map_to_list in Hnd. }
  destruct (omap _ names) as [|d ds] eqn:Hall.
  - exists w. split; [done|].
    apply Permutation_nil_l in Hperm. symmetry in Hperm.
    apply fmap_nil_inv in Hperm. by rewrite Hperm.
  - unfold bind, to_csv, print, emit. simpl. eexists. split; [done|]. simpl.
    destruct (monthly_artifacts (outdir w)) as [|nd l] eqn:Hm.
    + by apply Permutation_nil_r in Hperm.
    + eexists. split; [done|]. rewrite all_rows_snd.
      change (rows (concat (d :: ds))) with (mjoin (rows <$> (d :: ds))).
      by rewrite Hperm.
Qed.

(** ** The monthly and yearly artifacts of [extract_curve_data] (C3, C4) *)

Lemma string_app_assoc (a b c : string) : (a +:+ b) +:+ c = a +:+ (b +:+ c).
Proof.
  induction a as [|x a IH]; [done|].
  change (String x ((a +:+ b) +:+ c) = String x (a +:+ (b +:+ c))). by rewrite IH.
Qed.

Lemma prefix_app (a b : string) : String.prefix a (a +:+ b) = true.
Proof.
  induction a as [|x a IH]; [by destruct b|].
  change (String.prefix (String x a) (String x (a +:+ b)) = true). simpl.
  destruct (ascii_dec x x); [done|done].
Qed.

Lemma timestamp_ranges (t : Timestamp) :
  (1677 ≤ ts_year t ≤ 2262)%nat ∧ (1 ≤ ts_month t ≤ 12)%nat ∧ (1 ≤ ts_day t ≤ 31)%nat.
Proof.
  pose proof (ts_valid t) as Hv. unfold valid_date in Hv.
  apply andb_prop_elim in Hv as [Hv Hd]. apply andb_prop_elim in Hv as [Hy Hm].
  apply bool_decide_unpack in Hy, Hm, Hd. done.
Qed.

(** The name of a bucket passes the test of the yearly combination. *)
Lemma bucket_name_monthly (t : Timestamp) :
  CurveFilter.is_monthly_name (bucket_key (ts_year t) (ts_month t) +:+ ".csv") = true.
Proof.
  assert (Hall : forallb (λ y, forallb (λ m,
            CurveFilter.is_monthly_name (bucket_key y m +:+ ".csv"))
            (seq 1 12)) (seq 1677 586) = true) by (vm_compute; reflexivity).
  destruct (timestamp_ranges t) as (Hy & Hm & _).
  rewrite forallb_forall in Hall.
  specialize (Hall (ts_year t)). rewrite forallb_forall in Hall.
  apply Hall; apply in_seq; lia.
Qed.

Lemma bucket_of_date_inj (t t' : Timestamp) :
  bucket_key (ts_year t) (ts_month t) = bucket_key (ts_year t') (ts_month t') →
  ts_year t = ts_year t' ∧ ts_month t = ts_month t'.
Proof.
  destruct (timestamp_ranges t) as (_ & Hm & _).
  destruct (timestamp_ranges t') as (_ & Hm' & _).
  apply bucket_key_inj; lia.
Qed.

Section curve_artifacts.
Context `{PandasText}.
Variables (year : string) (target_curves target_strikes : list string).
Variable month : option string.

Let retained (walk : list (string * list File)) : list (gmap string cell) :=
  files_of walk ≫= λ f, Retained.rows_of
    (Retained.curve_frame year target_curves target_strikes month f).

(** The stage up to the monthly artifacts: it never raises, and the
    folder is the one it found plus one file per key of the dictionary. *)
Lemma write_stage_spec walk w0 :
  ∃ fd w2,
    CurveFilter.write_stage year target_curves target_strikes month walk w0 = (Ok tt, w2)
    ∧ outdir w2 = foldl (λ o kv, <[kv.1 +:+ ".csv" := concat kv.2]> o) (outdir w0) fd
    ∧ NoDup fd.*1 ∧ keys_covered fd
    ∧ placements fd ≡ₚ (λ r, (bucket_of r, r)) <$> retained walk.
Proof.
  unfold CurveFilter.write_stage.
  unfold bind at 1. unfold notices at 1.
  set (w0' := {| trace := _; outdir := outdir w0 |}).
  destruct (curve_scan_spec year target_curves target_strikes month walk w0')
    as (acc & w1 & Hs & Ho & Hn & Hc & Hp).
  unfold bind at 1. rewrite Hs.
  unfold bind at 1. unfold print at 1, emit at 1.
  set (w1' := {| trace := _; outdir := outdir w1 |}).
  destruct (curve_write_months_spec (CurveFilter.file_dict acc) w1') as (w2 & Hw & Ho2).
  exists (CurveFilter.file_dict acc), w2.
  split_and!; [done| |done|done|].
  - rewrite Ho2. simpl. by rewrite Ho.
  - unfold retained. by rewrite <- bind_fmap_rows.
Qed.

Lemma retained_year walk r :
  r ∈ retained walk → dated r ∧ at_ r "year" = Str year.
Proof.
  intros (f & Hr & _)%list_elem_of_bind.
  destruct (Retained.curve_frame year target_curves target_strikes month f)
    as [d|] eqn:Hd; simpl in Hr; [|by apply elem_of_nil in Hr].
  split; [by apply (curve_frame_dated year target_curves target_strikes month f d Hd)|].
  revert Hd. unfold Retained.curve_frame. destruct (Py.endswith _ _); [|done].
  destruct (Retained.curve_loaded f) as [df|]; [simpl|done].
  destruct (_ && _); [|done]. intros [= <-].
  unfold CurveFilter.df_filtered in Hr.
  assert (Hmask : CurveFilter.mask year target_curves target_strikes r = true).
  { destruct month as [m|]; [destruct (Py.truthy _)|].
    - by apply elem_of_select in Hr as [_ [? _]%elem_of_select].
    - by apply elem_of_select in Hr as [? _].
    - by apply elem_of_select in Hr as [? _]. }
  unfold CurveFilter.mask in Hmask. apply andb_prop in Hmask as [_ Hy].
  by apply bool_decide_eq_true in Hy.
Qed.

(** Every key of the dictionary is the bucket of a date of the year of the
    run. *)
Lemma key_of_year walk fd k :
  keys_covered fd →
  placements fd ≡ₚ (λ r, (bucket_of r, r)) <$> retained walk →
  k ∈ fd.*1 →
  ∃ t, k = bucket_key (ts_year t) (ts_month t) ∧ Py.str_nat (ts_year t) = year.
Proof.
  intros Hc Hp Hk. destruct (Hc k Hk) as [r Hr]. rewrite Hp in Hr.
  apply list_elem_of_fmap in Hr as (r' & [= -> ->] & Hr').
  destruct (retained_year walk r' Hr') as [(t & Hd & Hy & _) Hyear].
  exists t. unfold bucket_of. rewrite Hd. split; [done|].
  rewrite Hy in Hyear. by injection Hyear.
Qed.

Lemma written_name_of_year walk fd k :
  keys_covered fd →
  placements fd ≡ₚ (λ r, (bucket_of r, r)) <$> retained walk →
  k ∈ fd.*1 →
  CurveFilter.is_monthly_name (k +:+ ".csv") = true
  ∧ Py.startswith (k +:+ ".csv") (year +:+ "-") = true.
Proof.
  intros Hc Hp Hk. destruct (key_of_year walk fd k Hc Hp Hk) as (t & -> & Hy).
  split; [apply bucket_name_monthly|].
  unfold Py.startswith, bucket_key. rewrite Hy.
  replace ((year +:+ "-" +:+ Py.fmt_02d (ts_month t)) +:+ ".csv")
    with ((year +:+ "-") +:+ (Py.fmt_02d (ts_month t) +:+ ".csv"))
    by (by rewrite !string_app_assoc).
  apply prefix_app.
Qed.

End curve_artifacts.

Lemma filter_all {A} (P : A → Prop) `{∀ x, Decision (P x)} (l : list A) :
  (∀ x, x ∈ l → P x) → filter P l = l.
Proof.
  induction l as [|x l IH]; intros Hl; [done|].
  rewrite filter_cons, decide_True by (apply Hl; left).
  by rewrite IH by (intros; apply Hl; by right).
Qed.

#[local] Instance csv_name_Inj : Inj (=) (=) (λ k : string, k +:+ ".csv").
Proof. intros k k'. apply csv_name_inj. Qed.

Lemma csv_names_NoDup {V} (fd : list (string * V)) :
  NoDup fd.*1 → NoDup ((λ kv : string * V, kv.1 +:+ ".csv") <$> fd).
Proof.
  intros Hn.
  replace ((λ kv : string * V, kv.1 +:+ ".csv") <$> fd)
    with ((λ k : string, k +:+ ".csv") <$> fd.*1)
    by (by rewrite <- list_fmap_compose).
  by apply (NoDup_fmap_2 _).
Qed.

Section curve_folder.
Context `{PandasText}.
Variables (year : string) (target_curves target_strikes : list string).
Variable month : option string.

(** C3 for [extract_curve_data]: every key of the dictionary is persisted
    to the file named after it, which holds the rows stored under the key
    and nothing else, and two keys never share a file. *)
Lemma curve_monthly_artifacts walk w0 :
  ∃ fd w2,
    CurveFilter.write_stage year target_curves target_strikes month walk w0 = (Ok tt, w2)
    ∧ grouped_by_date fd
        (files_of walk ≫= λ f, Retained.rows_of
           (Retained.curve_frame year target_curves target_strikes month f))
    ∧ (∀ k gs, (k, gs) ∈ fd →
         ∃ df, outdir w2 !! (k +:+ ".csv") = Some df ∧ rows df = gs ≫= rows)
    ∧ (∀ k k', k +:+ ".csv" = k' +:+ ".csv" → k = k')
    ∧ (∀ n, (∀ k, k ∈ fd.*1 → n ≠ k +:+ ".csv") → outdir w2 !! n = outdir w0 !! n).
Proof.
  destruct (write_stage_spec year target_curves target_strikes month walk w0)
    as (fd & w2 & Hw & Ho & Hn & Hc & Hp).
  exists fd, w2. split_and!; [done| | |apply csv_name_inj|].
  - apply grouped_by_date_intro; [done|done|].
    intros r Hr. by apply (retained_year year target_curves target_strikes month walk r).
  - intros k gs Hk. exists (concat gs). split.
    + rewrite Ho.
      apply (foldl_insert_in (λ kv, kv.1 +:+ ".csv") (λ kv, concat kv.2) fd _ (k, gs));
        [|done].
      by apply csv_names_NoDup.
    + unfold concat; simpl. clear. induction gs as [|g gs IH]; csimpl; [done|].
      by rewrite IH.
  - intros n Hn'. rewrite Ho. apply foldl_insert_notin.
    intros (kv & -> & Hkv)%list_elem_of_fmap.
    apply (Hn' kv.1); [|done]. apply list_elem_of_fmap. by exists kv.
Qed.

End curve_folder.

(** C4, amended. After the monthly artifacts of a run of
    [extract_curve_data] are written, the yearly combined artifact holds, as
    a multiset, exactly the rows of the monthly artifacts of that year,
    provided that every file the output folder already held under a monthly
    name is of that year.  The monthly artifacts of the year include every
    file the run wrote; when there is none, no combined artifact is
    written. *)
Theorem yearly_combined_rows `{PandasText} year target_curves target_strikes month
    walk w0 :
  (∀ n, is_Some (outdir w0 !! n) → CurveFilter.is_monthly_name n = true →
        Py.startswith n (year +:+ "-") = true) →
  ∃ fd w2 w3,
    CurveFilter.write_stage year target_curves target_strikes month walk w0 = (Ok tt, w2)
    ∧ CurveFilter.extract_curve_data year target_curves target_strikes month walk w0
      = (Ok tt, w3)
    ∧ grouped_by_date fd
        (files_of walk ≫= λ f, Retained.rows_of
           (Retained.curve_frame year target_curves target_strikes month f))
    ∧ (∀ k gs, (k, gs) ∈ fd →
         (k +:+ ".csv", concat gs) ∈ monthly_artifacts_of year (outdir w2))
    ∧ match monthly_artifacts_of year (outdir w2) with
      | [] => outdir w3 = outdir w2
      | _ :: _ =>
          ∃ df, outdir w3 = <[year +:+ "_combined.csv" := df]> (outdir w2)
                ∧ rows df ≡ₚ all_rows (monthly_artifacts_of year (outdir w2))
      end.
Proof.
  intros Hstale.
  destruct (write_stage_spec year target_curves target_strikes month walk w0)
    as (fd & w2 & Hw & Ho & Hn & Hc & Hp).
  destruct (combine_year_spec year w2) as (w3 & Hcomb & Hrows).
  assert (Hnames : NoDup ((λ kv : string * list DataFrame, kv.1 +:+ ".csv") <$> fd))
    by (by apply csv_names_NoDup).
  assert (Hall : monthly_artifacts (outdir w2) = monthly_artifacts_of year (outdir w2)).
  { unfold monthly_artifacts_of. symmetry. apply filter_all.
    intros [n d] [Hm Hnd%elem_of_map_to_list]%list_elem_of_filter. simpl in *.
    rewrite Ho in Hnd.
    apply foldl_insert_lookup in Hnd as [Hnd|(kv & Hkv & -> & _)].
    - apply Hstale; [by eexists|done].
    - eapply written_name_of_year; [exact Hc|exact Hp|].
      apply list_elem_of_fmap. by exists kv. }
  exists fd, w2, w3. split_and!; [done| | | |].
  - unfold CurveFilter.extract_curve_data, bind. by rewrite Hw.
  - apply grouped_by_date_intro; [done|done|].
    intros r Hr. by apply (retained_year year target_curves target_strikes month walk r).
  - intros k gs Hk. rewrite <- Hall. apply list_elem_of_filter. simpl. split.
    + eapply written_name_of_year; [exact Hc|exact Hp|].
      apply list_elem_of_fmap. by exists (k, gs).
    + apply elem_of_map_to_list. rewrite Ho.
      by apply (foldl_insert_in (λ kv, kv.1 +:+ ".csv") (λ kv, concat kv.2) fd _ (k, gs)).
  - by rewrite <- Hall.
Qed.

Section combined_sample.
#[local] Existing Instance Sample.iso_text.

Lemma yearly_combined_rows_witness :
  ∃ fd w2 w3,
    CurveFilter.write_stage "2024" ["NYMEX"] Sample.strikes None
      [("in", [Sample.january; Sample.mixed])] Sample.fresh = (Ok tt, w2)
    ∧ CurveFilter.extract_curve_data "2024" ["NYMEX"] Sample.strikes None
        [("in", [Sample.january; Sample.mixed])] Sample.fresh = (Ok tt, w3)
    ∧ grouped_by_date fd
        (files_of [("in", [Sample.january; Sample.mixed])] ≫= λ f, Retained.rows_of
           (Retained.curve_frame "2024" ["NYMEX"] Sample.strikes None f))
    ∧ (∀ k gs, (k, gs) ∈ fd →
         (k +:+ ".csv", concat gs) ∈ monthly_artifacts_of "2024" (outdir w2))
    ∧ match monthly_artifacts_of "2024" (outdir w2) with
      | [] => outdir w3 = outdir w2
      | _ :: _ =>
          ∃ df, outdir w3 = <["2024" +:+ "_combined.csv" := df]> (outdir w2)
                ∧ rows df ≡ₚ all_rows (monthly_artifacts_of "2024" (outdir w2))
      end.
Proof.
  apply (yearly_combined_rows "2024" ["NYMEX"] Sample.strikes None
           [("in", [Sample.january; Sample.mixed])] Sample.fresh).
  intros n [d Hd]. simpl in Hd. rewrite lookup_empty in Hd. discriminate Hd.
Defined.

(** C4 as stated fails when the output folder holds a monthly file of
    another year: run for 2024 on a folder that still holds [2023-05.csv],
    the combined artifact has the three rows of the folder, one more than
    the monthly artifact of 2024. *)
Lemma yearly_combined_rows_stale_counterexample :
  ∃ w2 w3 df,
    CurveFilter.write_stage "2024" ["NYMEX"] Sample.strikes None
      [("in", [Sample.january])] Sample.stale = (Ok tt, w2)
    ∧ CurveFilter.extract_curve_data "2024" ["NYMEX"] Sample.strikes None
        [("in", [Sample.january])] Sample.stale = (Ok tt, w3)
    ∧ outdir w3 !! "2024_combined.csv" = Some df
    ∧ length (rows df) = 3%nat
    ∧ length (all_rows (monthly_artifacts_of "2024" (outdir w2))) = 2%nat
    ∧ ¬ rows df ≡ₚ all_rows (monthly_artifacts_of "2024" (outdir w2)).
Proof.
  eexists _, _, _. split; [vm_compute; reflexivity|].
  split; [vm_compute; reflexivity|].
  split; [vm_compute; reflexivity|].
  split; [vm_compute; reflexivity|].
  split; [vm_compute; reflexivity|].
  intros Hperm. apply Permutation_length in Hperm. vm_compute in Hperm. discriminate Hperm.
Qed.

End combined_sample.

Section collision_sample.
#[local] Existing Instance Sample.iso_text.

(** C3. With a date range that spans two years, [filter_vol_data] holds the
    two Februaries under two keys, names the file of each after the month
    number alone, and the second write replaces the first: the folder ends
    with one monthly file, which holds the row of 2024 only, and the row of
    2023 is in no file. *)
Theorem filter_vol_data_month_collision :
  ∃ fd w1 w3,
    VolExtractor.scan "2024" ["NYMEX"] None None None (Some "2023-01-01")
      (Some "2024-12-31") [("in", [Sample.februaries])] Sample.fresh = (Ok fd, w1)
    ∧ fd.*1 = ["2023-02"; "2024-02"]
    ∧ ((λ kv, length (kv.2 ≫= rows)) <$> fd) = [1; 1]%nat
    ∧ VolExtractor.month_num "2023-02" = VolExtractor.month_num "2024-02"
    ∧ VolExtractor.filter_vol_data "2024" ["NYMEX"] None None None (Some "2023-01-01")
        (Some "2024-12-31") [("in", [Sample.februaries])] Sample.fresh = (Ok tt, w3)
    ∧ ((λ nd, (nd.1, (λ r, ts_year <$> (match at_ r "Curve_Date" with
                                          | Date t => Some t
                                          | _ => None
                                          end)) <$> rows nd.2))
         <$> map_to_list (outdir w3))
      = [("NYMEX_2024_ewma_hist_combined.csv", [Some 2024%nat]);
         ("NYMEX_02_ewma_hist.csv", [Some 2024%nat])].
Proof.
  eexists _, _, _.
  split; [vm_compute; reflexivity|].
  split; [vm_compute; reflexivity|].
  split; [vm_compute; reflexivity|].
  split; [vm_compute; reflexivity|].
  split; [vm_compute; reflexivity|].
  vm_compute; reflexivity.
Qed.

End collision_sample.

(** ** The two record readers (C5) *)

(** C5, amended. Neither [robust_read_csv] raises.  The reader of
    [vol_extractor] tries UTF-8 with BOM and, when that fails, UTF-16; it
    returns the no-data signal exactly when both fail, whatever the size of
    the file, and a table without rows is returned as data.  The reader of
    [volatility_surface] tries UTF-8 alone; it returns the no-data signal
    exactly when the size query fails, the file has fewer than 10 bytes, the
    parse fails or the parsed table is empty. *)
Theorem robust_readers path f w :
  (∃ w' evs,
     VolExtractor.robust_read_csv path f w = (Ok (Retained.vol_loaded f), w')
     ∧ trace w' = trace w ++ evs ∧ outdir w' = outdir w ∧ saved w' = saved w
     ∧ encodings_tried evs
       = match fparse f utf_8_sig bad_error with
         | Ok _ => [utf_8_sig]
         | Raise _ => [utf_8_sig; utf_16]
         end
     ∧ (Retained.vol_loaded f = None
        ↔ ∃ e1 e2, fparse f utf_8_sig bad_error = Raise e1
                   ∧ fparse f utf_16 bad_error = Raise e2)
     ∧ (∀ df, fparse f utf_8_sig bad_error = Ok df → Retained.vol_loaded f = Some df))
  ∧ (∃ w' evs,
       VolatilitySurface.robust_read_csv path f w = (Ok (Retained.curve_loaded f), w')
       ∧ trace w' = trace w ++ evs ∧ outdir w' = outdir w ∧ saved w' = saved w
       ∧ (encodings_tried evs = [] ∨ encodings_tried evs = [utf_8])
       ∧ (Retained.curve_loaded f = None
          ↔ (∃ e, fsize f = Raise e)
            ∨ (∃ sz, fsize f = Ok sz ∧ (sz < 10)%nat)
            ∨ (∃ e, fparse f utf_8 bad_skip = Raise e)
            ∨ (∃ df, fparse f utf_8 bad_skip = Ok df ∧ Pd.empty df = true))).
Proof.
  split.
  - unfold VolExtractor.robust_read_csv, Retained.vol_loaded, try_except, bind,
      read_csv, lift, print, emit, ret, bind. simpl.
    destruct (fparse f utf_8_sig bad_error) as [df|e1]; simpl.
    + eexists _, [ReadCsv path utf_8_sig bad_error].
      split_and!; [done|done|done|done|done| |].
      * split; [done|]. by intros (? & ? & ? & _).
      * by intros ? [= ->].
    + destruct (fparse f utf_16 bad_error) as [df|e2]; simpl.
      * eexists _, [ReadCsv path utf_8_sig bad_error; ReadCsv path utf_16 bad_error].
        split_and!; [done| |done|done|done| |done].
        -- simpl. by rewrite <- (assoc_L (++)).
        -- split; [done|]. by intros (? & ? & _ & ?).
      * eexists _, [ReadCsv path utf_8_sig bad_error; ReadCsv path utf_16 bad_error;
                    Printed (FailedToRead path e1 e2)].
        split_and!; [done| |done|done|done| |done].
        -- simpl. by rewrite <- !(assoc_L (++)).
        -- split; [by eauto|done].
  - unfold VolatilitySurface.robust_read_csv, Retained.curve_loaded, try_except, bind,
      getsize, read_csv, lift, print, emit, ret, bind.
    destruct (fsize f) as [sz|e]; simpl.
    2:{ eexists _, [Printed (ReadError path e)].
        split_and!; [done|done|done|done|by left|].
        split; [by eauto|done]. }
    destruct (decide (sz < 10)%nat) as [Hsz|Hsz]; simpl.
    { eexists _, [Printed (FileTooSmall path)].
      split_and!; [done|done|done|done|by left|].
      split; [intros _; right; left; by eauto|done]. }
    destruct (fparse f utf_8 bad_skip) as [df|e]; simpl.
    2:{ eexists _, [ReadCsv path utf_8 bad_skip; Printed (ReadError path e)].
        split_and!; [done| |done|done|by right|].
        - simpl. by rewrite <- (assoc_L (++)).
        - split; [intros _; right; right; left; by eauto|done]. }
    destruct (Pd.empty df) eqn:He; simpl.
    + eexists _, [ReadCsv path utf_8 bad_skip; Printed (EmptyFrame path)].
      split_and!; [done| |done|done|by right|].
      * simpl. by rewrite <- (assoc_L (++)).
      * split; [intros _; right; right; right; by eauto|done].
    + eexists _, [ReadCsv path utf_8 bad_skip].
      split_and!; [done|done|done|done|by right|].
      split; [done|].
      intros [(? & ?)|[(sz' & Hs & ?)|[(? & ?)|(df' & Hd & ?)]]]; try done.
      * injection Hs as <-. lia.
      * injection Hd as <-. congruence.
Qed.

(** C5 as stated fails on both readers: the reader of [vol_extractor] hands
    back the table of a five-byte file that has a header and no row; the
    reader of [volatility_surface] gives up on a UTF-16 file after the one
    UTF-8 attempt. *)
Lemma robust_readers_counterexample :
  (fsize Sample.header_only = Ok 5%nat
   ∧ ∃ df, (VolExtractor.robust_read_csv "h.csv" Sample.header_only Sample.fresh).1
           = Ok (Some df)
           ∧ rows df = [])
  ∧ (∃ df, fparse Sample.utf16_file utf_16 bad_skip = Ok df ∧ Pd.empty df = false)
  ∧ (VolatilitySurface.robust_read_csv "u.csv" Sample.utf16_file Sample.fresh).1 = Ok None
  ∧ encodings_tried
      (trace (VolatilitySurface.robust_read_csv "u.csv" Sample.utf16_file Sample.fresh).2)
    = [utf_8].
Proof.
  split_and!.
  - reflexivity.
  - eexists. split; [vm_compute; reflexivity|reflexivity].
  - eexists. split; [reflexivity|vm_compute; reflexivity].
  - vm_compute; reflexivity.
  - vm_compute; reflexivity.
Qed.

(** ** The rolling mean and its first difference *)

Section rolling.

Lemma last_rows_app {A} n (a b : list A) :
  last_rows n (last_rows n a ++ b) = last_rows n (a ++ b).
Proof.
  unfold last_rows. destruct (decide (length a ≤ n)%nat) as [Hle|Hgt].
  - replace (length a - n)%nat with 0%nat by lia. done.
  - rewrite !length_app, length_drop.
    replace (length a - (length a - n) + length b - n)%nat with (length b) by lia.
    replace (length a + length b - n)%nat with ((length a - n) + length b)%nat by lia.
    rewrite <- (drop_drop (a ++ b) (length b) (length a - n)).
    by rewrite (drop_app_le a b (length a - n)) by lia.
Qed.

(** The queue of [roll] holds the last rows seen, so each output is the
    mean over the trailing window. *)
Lemma roll_lookup window min_periods seen col i :
  (i < length col)%nat →
  roll window min_periods (last_rows window seen) col !! i
  = Some (window_mean min_periods (last_rows window (seen ++ take (S i) col))).
Proof.
  revert seen i. induction col as [|x xs IH]; intros seen i Hi; simpl in Hi; [lia|].
  simpl. unfold push. rewrite last_rows_app.
  destruct i as [|j]; simpl.
  - by rewrite take_0.
  - rewrite IH by lia. by rewrite <- (assoc_L (++)).
Qed.

Lemma roll_length window min_periods win col :
  length (roll window min_periods win col) = length col.
Proof. revert win. induction col as [|x xs IH]; intros win; simpl; [done|]. by rewrite IH. Qed.

(** The rolling mean of a column is the trailing mean of the
    specification. *)
Lemma roll_trailing_mean window min_periods col i :
  (i < length col)%nat →
  roll window min_periods [] col !! i = Some (trailing_mean window min_periods col i).
Proof.
  intros Hi.
  change (roll window min_periods [] col)
    with (roll window min_periods (last_rows window []) col).
  rewrite (roll_lookup window min_periods [] col i Hi).
  unfold window_mean, trailing_mean, last_rows. simpl.
  rewrite length_take. by replace (S i `min` length col)%nat with (S i) by lia.
Qed.

Lemma diff_from_length prev col : length (diff_from prev col) = length col.
Proof. revert prev. induction col as [|x xs IH]; intros prev; simpl; [done|]. by rewrite IH. Qed.

Lemma diff_from_lookup prev col i x :
  col !! i = Some x →
  diff_from prev col !! i
  = Some match x, match i with
                  | O => prev
                  | S j => default None (col !! j)
                  end with
         | Some a, Some b => Some (a - b)%Qc
         | _, _ => None
         end.
Proof.
  revert prev i. induction col as [|y ys IH]; intros prev i Hx; [done|].
  destruct i as [|i]; simpl in *.
  - by injection Hx as ->.
  - rewrite (IH y i Hx). destruct i; done.
Qed.

(** The change at the first defined row of a column is undefined. *)
Lemma diff_first_defined col i :
  first_defined col i → diff_from None col !! i = Some None.
Proof.
  intros [[v Hv] Hbefore]. rewrite (diff_from_lookup None col i (Some v) Hv).
  destruct i as [|j]; [done|]. by rewrite (Hbefore j) by lia.
Qed.

End rolling.

(** ** The run of [build_vol_time_series] *)

Section series_run.
Context `{PandasText}.
Variables (curve_name : string) (month : option string) (rolling_window : nat).
Variables (start_date end_date : option string).

Lemma series_load_file_spec root f all_data w :
  ∃ w', TimeSeriesPlotter.load_file month start_date end_date root f all_data w
        = (Ok (all_data ++ option_list (Retained.series_frame month start_date end_date f)),
           w')
        ∧ outdir w' = outdir w ∧ saved w' = saved w.
Proof.
  unfold TimeSeriesPlotter.load_file, Retained.series_frame.
  destruct (Py.endswith (fname f) ".csv"); simpl.
  2:{ exists w. by rewrite app_nil_r. }
  destruct (TimeSeriesPlotter.month_mismatch month (fname f)); simpl.
  { exists w. by rewrite app_nil_r. }
  unfold try_except, bind, read_csv, lift, emit, print, ret; simpl.
  destruct (fparse f utf_8 bad_skip) as [df|e]; simpl.
  2:{ eexists. by rewrite app_nil_r. }
  destruct (Pd.empty df); simpl.
  { eexists. by rewrite app_nil_r. }
  destruct (TimeSeriesPlotter.prepare start_date end_date df) as [[d|]|e]; simpl;
    eexists; by rewrite ?app_nil_r.
Qed.

Lemma series_files_spec root files all_data w :
  ∃ w', for_each files (TimeSeriesPlotter.load_file month start_date end_date root)
          all_data w
        = (Ok (all_data ++ omap (Retained.series_frame month start_date end_date) files),
           w')
        ∧ outdir w' = outdir w ∧ saved w' = saved w.
Proof.
  revert all_data w. induction files as [|f files IH]; intros all_data w; simpl.
  - exists w. by rewrite app_nil_r.
  - destruct (series_load_file_spec root f all_data w) as (w1 & Hl & Ho & Hs).
    unfold bind. rewrite Hl.
    destruct (IH (all_data ++ option_list (Retained.series_frame month start_date end_date f)) w1)
      as (w2 & Hf & Ho2 & Hs2).
    exists w2. rewrite Hf. split_and!; [|congruence|congruence].
    rewrite <- (assoc_L (++)).
    by destruct (Retained.series_frame month start_date end_date f).
Qed.

(** The load never raises, writes nothing, and collects the tables of the
    files in the order of the walk. *)
Lemma series_load_spec walk w :
  ∃ w', TimeSeriesPlotter.load month start_date end_date walk w
        = (Ok (omap (Retained.series_frame month start_date end_date) (files_of walk)), w')
        ∧ outdir w' = outdir w ∧ saved w' = saved w.
Proof.
  unfold TimeSeriesPlotter.load, files_of.
  assert (Hgen : ∀ all_data w0,
    ∃ w', for_each walk (λ dir all_data,
            for_each dir.2 (TimeSeriesPlotter.load_file month start_date end_date dir.1)
              all_data) all_data w0
          = (Ok (all_data ++ omap (Retained.series_frame month start_date end_date)
                               (walk ≫= snd)), w')
          ∧ outdir w' = outdir w0 ∧ saved w' = saved w0).
  { induction walk as [|[root files] walk IH]; intros all_data w0; csimpl.
    - exists w0. by rewrite app_nil_r.
    - destruct (series_files_spec root files all_data w0) as (w1 & Hl & Ho & Hs).
      unfold bind. rewrite Hl.
      destruct (IH (all_data ++ omap (Retained.series_frame month start_date end_date) files) w1)
        as (w2 & Hf & Ho2 & Hs2).
      exists w2. rewrite Hf. split_and!; [|congruence|congruence].
      by rewrite <- (assoc_L (++)), omap_app. }
  apply (Hgen [] w).
Qed.

Lemma save_figures names w :
  for_each names (λ name _, save name Figure) tt w
  = (Ok tt, {| trace := trace w; outdir := outdir w;
               saved := saved w ++ ((λ n, (n, Figure)) <$> names) |}).
Proof.
  revert w. induction names as [|n names IH]; intros w; simpl.
  - unfold ret. rewrite app_nil_r. by destruct w.
  - unfold bind, save at 1. rewrite IH. simpl. by rewrite <- (assoc_L (++)).
Qed.

(** What a run that returns has saved: nothing when no file gave a table,
    otherwise the workbook of the three matrices and then the images. *)
Lemma build_spec walk w b w' :
  TimeSeriesPlotter.build_vol_time_series curve_name month rolling_window
    start_date end_date walk w = (Ok b, w') →
  outdir w' = outdir w
  ∧ match omap (Retained.series_frame month start_date end_date) (files_of walk) with
    | [] => saved w' = saved w
    | (_ :: _) as all_data =>
        let combined := TimeSeriesPlotter.sort_values_date (concat all_data) in
        let pivot := TimeSeriesPlotter.original combined in
        ∃ curve roll,
          TimeSeriesPlotter.curve_of curve_name combined = Ok curve
          ∧ TimeSeriesPlotter.rolling rolling_window pivot = Some roll
          ∧ saved w'
            = saved w
              ++ (TimeSeriesPlotter.workbook_name curve_name month curve,
                  Workbook (time_series_sheets rolling_window pivot roll (diff roll)))
                 :: ((λ n, (n, Figure)) <$>
                       TimeSeriesPlotter.image_names curve_name month curve combined pivot)
    end.
Proof.
  unfold TimeSeriesPlotter.build_vol_time_series.
  destruct (series_load_spec walk w) as (w1 & Hl & Ho & Hs).
  unfold bind at 1. rewrite Hl.
  destruct (omap _ (files_of walk)) as [|d ds] eqn:Hall.
  - unfold bind, print, emit, ret. simpl. intros [= <- <-]. simpl. by split.
  - set (combined := TimeSeriesPlotter.sort_values_date (concat (d :: ds))).
    unfold bind at 1, lift.
    destruct (TimeSeriesPlotter.curve_of curve_name combined) as [curve|e]; [|done].
    destruct (TimeSeriesPlotter.rolling rolling_window
                (TimeSeriesPlotter.original combined)) as [roll|] eqn:Hroll; [|done].
    destruct (labels (TimeSeriesPlotter.original combined)) as [|l ls] eqn:Hlab; [done|].
    unfold bind at 1, notices at 1.
    unfold bind at 1, save at 1.
    unfold bind at 1. rewrite save_figures.
    unfold bind, print, emit, ret. simpl. intros [= <- <-]. simpl.
    split; [done|]. exists curve, roll. split_and!; [done|done|].
    rewrite Hs, <- (assoc_L (++)). done.
Qed.

End series_run.

Section series_matrices.
Context `{PandasText}.

Lemma pivot_table_rectangular idx col val df :
  rectangular (pivot_table idx col val df).
Proof.
  unfold rectangular, pivot_table; simpl. split; [by rewrite length_fmap|].
  apply Forall_fmap, Forall_forall. intros c _. simpl. by rewrite length_fmap.
Qed.

Lemma original_rectangular combined :
  rectangular (TimeSeriesPlotter.original combined).
Proof.
  unfold TimeSeriesPlotter.original. destruct (has_column _ _).
  - apply pivot_table_rectangular.
  - unfold rectangular, TimeSeriesPlotter.ewma_matrix; simpl. split; [done|].
    constructor; [|constructor]. by rewrite length_fmap.
Qed.

Lemma rolling_mean_spec window min_periods m r :
  rolling_mean window min_periods m = Some r →
  (min_periods ≤ window)%nat
  ∧ index r = index m ∧ labels r = labels m
  ∧ data r = roll window min_periods [] <$> data m.
Proof.
  unfold rolling_mean. case_decide; [|done]. by intros [= <-].
Qed.

Lemma rolling_rectangular window min_periods m r :
  rectangular m → rolling_mean window min_periods m = Some r → rectangular r.
Proof.
  intros [Hl Hc] (_ & Hi & Hlab & Hd)%rolling_mean_spec.
  unfold rectangular. rewrite Hd, Hi, Hlab, length_fmap. split; [done|].
  apply Forall_fmap. eapply Forall_impl; [exact Hc|].
  intros col Hcol. simpl. by rewrite roll_length.
Qed.

Lemma diff_rectangular m : rectangular m → rectangular (diff m).
Proof.
  intros [Hl Hc]. unfold rectangular, diff; simpl. rewrite length_fmap.
  split; [done|]. apply Forall_fmap. eapply Forall_impl; [exact Hc|].
  intros col Hcol. simpl. by rewrite diff_from_length.
Qed.

(** The workbook among the artifacts a run has added. *)
Lemma new_workbook curve_name month rolling_window start_date end_date walk w b w' :
  TimeSeriesPlotter.build_vol_time_series curve_name month rolling_window
    start_date end_date walk w = (Ok b, w') →
  ∃ new, saved w' = saved w ++ new
    ∧ ∀ name sheets, (name, Workbook sheets) ∈ new →
        ∃ o r, sheets = time_series_sheets rolling_window o r (diff r)
               ∧ rectangular o
               ∧ TimeSeriesPlotter.rolling rolling_window o = Some r.
Proof.
  intros [_ Hb]%build_spec.
  destruct (omap _ (files_of walk)) as [|d0 ds].
  - exists []. rewrite app_nil_r. split; [done|].
    intros ?? Hin. by apply elem_of_nil in Hin.
  - destruct Hb as (curve & roll & _ & Hroll & Hsaved).
    eexists. split; [exact Hsaved|].
    intros name sheets [Hhd|Hfig]%elem_of_cons.
    + injection Hhd as -> ->. eexists _, _. split; [done|].
      split; [apply original_rectangular|done].
    + by apply list_elem_of_fmap in Hfig as (? & [=] & _).
Qed.

End series_matrices.


(** C8. In the workbook of a run of [build_vol_time_series] the Rolling and
    the Daily-Change sheets have the date index and the columns of the
    Original sheet, value for value in shape, and in every column the
    Daily-Change value at the first row with a defined Rolling value is
    undefined. *)
Theorem rolling_and_change_aligned `{PandasText} curve_name month rolling_window
    start_date end_date walk w b w' :
  TimeSeriesPlotter.build_vol_time_series curve_name month rolling_window
    start_date end_date walk w = (Ok b, w') →
  ∃ new, saved w' = saved w ++ new
    ∧ ∀ name sheets, (name, Workbook sheets) ∈ new →
        ∃ o r d,
          sheets = time_series_sheets rolling_window o r d
          ∧ index r = index o ∧ labels r = labels o
          ∧ index d = index o ∧ labels d = labels o
          ∧ rectangular o ∧ rectangular r ∧ rectangular d
          ∧ ∀ k rc i, data r !! k = Some rc → first_defined rc i →
              ∃ dc, data d !! k = Some dc ∧ dc !! i = Some None.
Proof.
  intros Hrun.
  destruct (new_workbook _ _ _ _ _ _ _ _ _ Hrun) as (new & Hsaved & Hnew).
  exists new. split; [done|]. intros name sheets Hin.
  destruct (Hnew name sheets Hin) as (o & r & -> & Hrect & Hroll).
  exists o, r, (diff r). split; [done|].
  pose proof (rolling_rectangular _ _ _ _ Hrect Hroll) as Hr.
  apply rolling_mean_spec in Hroll as (_ & Hi & Hl & _).
  split_and!; [done|done|done|done|done|done|by apply diff_rectangular|].
  intros k rc i Hk Hfirst. exists (diff_from None rc).
  split; [by simpl; rewrite list_lookup_fmap, Hk|].
  by apply diff_first_defined.
Qed.

Section series_sample.
#[local] Existing Instance Sample.iso_text.

Let run := TimeSeriesPlotter.build_vol_time_series "NYMEX" None 2 None None
             [("in", [Sample.january; Sample.mixed])] Sample.fresh.


Lemma rolling_and_change_aligned_witness :
  ∃ new, saved run.2 = saved Sample.fresh ++ new
    ∧ ∀ name sheets, (name, Workbook sheets) ∈ new →
        ∃ o r d,
          sheets = time_series_sheets 2 o r d
          ∧ index r = index o ∧ labels r = labels o
          ∧ index d = index o ∧ labels d = labels o
          ∧ rectangular o ∧ rectangular r ∧ rectangular d
          ∧ ∀ k rc i, data r !! k = Some rc → first_defined rc i →
              ∃ dc, data d !! k = Some dc ∧ dc !! i = Some None.
Proof.
  apply (rolling_and_change_aligned "NYMEX" None 2 None None
           [("in", [Sample.january; Sample.mixed])] Sample.fresh true run.2).
  vm_compute. reflexivity.
Defined.

End series_sample.

(** ** The Original matrix does not look at [Basis] (C9) *)

Section basis_blind.
Context `{PandasText}.

Lemma elem_of_concat_columns c frames acc :
  c ∈ foldl (λ acc d, union_columns acc (columns d)) acc frames
  ↔ c ∈ acc ∨ ∃ d, d ∈ frames ∧ c ∈ columns d.
Proof.
  revert acc. induction frames as [|d frames IH]; intros acc; simpl.
  - split; [by left|]. intros [?|(d & Hd & _)]; [done|]. by apply elem_of_nil in Hd.
  - rewrite IH. unfold union_columns. rewrite elem_of_app, list_elem_of_filter.
    split.
    + intros [[?|[_ ?]]|(d' & Hd' & ?)]; [by left| |].
      * right. exists d. split; [left|done].
      * right. exists d'. split; [by right|done].
    + intros [?|(d' & Hd' & Hc)]; [by left; left|].
      apply elem_of_cons in Hd' as [->|Hd'].
      * left. destruct (decide (c ∈ acc)); [by left|by right].
      * right. by exists d'.
Qed.

Lemma elem_of_columns_concat c frames :
  c ∈ columns (concat frames) ↔ ∃ d, d ∈ frames ∧ c ∈ columns d.
Proof.
  unfold concat; simpl.
  rewrite elem_of_concat_columns. split; [|by right].
  intros [Hnil|?]; [by apply elem_of_nil in Hnil|done].
Qed.

Variable φ : cell → cell.

Let relabel_row (r : gmap string cell) : gmap string cell :=
  <["Basis" := φ (at_ r "Basis")]> r.

Lemma relabel_row_at r c : c ≠ "Basis" → at_ (relabel_row r) c = at_ r c.
Proof. intros Hc. unfold at_, relabel_row. by rewrite lookup_insert_ne. Qed.

Lemma relabel_columns d c :
  c ≠ "Basis" → c ∈ columns (relabel_basis φ d) ↔ c ∈ columns d.
Proof.
  intros Hc. unfold relabel_basis, assign; simpl. case_decide; [done|].
  rewrite elem_of_app, list_elem_of_singleton.
  split; [intros [?|?]; [done|congruence]|by left].
Qed.

Lemma relabel_has_column frames c :
  c ≠ "Basis" →
  has_column (concat (relabel_basis φ <$> frames)) c = has_column (concat frames) c.
Proof.
  intros Hc. unfold has_column. apply bool_decide_ext.
  rewrite !elem_of_columns_concat. split.
  - intros (d & (d0 & -> & Hd0)%list_elem_of_fmap & Hcol).
    exists d0. split; [done|]. by apply (relabel_columns d0 c Hc).
  - intros (d & Hd & Hcol). exists (relabel_basis φ d).
    split; [apply list_elem_of_fmap; by exists d|]. by apply (relabel_columns d c Hc).
Qed.

Lemma relabel_rows frames :
  rows (concat (relabel_basis φ <$> frames)) = relabel_row <$> rows (concat frames).
Proof.
  unfold concat; simpl. induction frames as [|d frames IH]; csimpl; [done|].
  by rewrite IH, fmap_app.
Qed.

Lemma insert_by_fmap {A} (le : A → A → bool) (f : A → A) x l :
  (∀ a b, le (f a) (f b) = le a b) →
  Py.insert_by le (f x) (f <$> l) = f <$> Py.insert_by le x l.
Proof.
  intros Hle. induction l as [|y l IH]; csimpl; [done|].
  rewrite Hle. destruct (le x y); csimpl; [done|]. by rewrite IH.
Qed.

Lemma sort_by_fmap {A} (le : A → A → bool) (f : A → A) l :
  (∀ a b, le (f a) (f b) = le a b) →
  Py.sort_by le (f <$> l) = f <$> Py.sort_by le l.
Proof.
  intros Hle. induction l as [|x l IH]; csimpl; [done|].
  by rewrite IH, insert_by_fmap.
Qed.

Lemma relabel_sorted frames :
  rows (TimeSeriesPlotter.sort_values_date (concat (relabel_basis φ <$> frames)))
  = relabel_row <$> rows (TimeSeriesPlotter.sort_values_date (concat frames)).
Proof.
  unfold TimeSeriesPlotter.sort_values_date. cbn [rows].
  rewrite relabel_rows. apply sort_by_fmap.
  intros a b. unfold TimeSeriesPlotter.date_leb. by rewrite !relabel_row_at.
Qed.

(** Replacing the [Basis] values of the loaded tables changes nothing in
    the Original matrix. *)
Lemma original_basis_blind frames :
  TimeSeriesPlotter.original
    (TimeSeriesPlotter.sort_values_date (concat (relabel_basis φ <$> frames)))
  = TimeSeriesPlotter.original (TimeSeriesPlotter.sort_values_date (concat frames)).
Proof.
  unfold TimeSeriesPlotter.original.
  assert (Hcm : has_column (TimeSeriesPlotter.sort_values_date
                              (concat (relabel_basis φ <$> frames))) "Contract_Month"
                = has_column (TimeSeriesPlotter.sort_values_date (concat frames))
                    "Contract_Month").
  { apply (relabel_has_column frames "Contract_Month"). done. }
  rewrite Hcm.
  destruct (has_column (TimeSeriesPlotter.sort_values_date (concat frames))
              "Contract_Month").
  - unfold pivot_table.
    assert (Hobs : observations "date" "Contract_Month" "Mid"
                     (TimeSeriesPlotter.sort_values_date
                        (concat (relabel_basis φ <$> frames)))
                   = observations "date" "Contract_Month" "Mid"
                       (TimeSeriesPlotter.sort_values_date (concat frames))).
    { unfold observations. rewrite relabel_sorted.
      generalize (rows (TimeSeriesPlotter.sort_values_date (concat frames))).
      intros l. induction l as [|r l IH]; csimpl; [done|].
      rewrite !relabel_row_at by done. by rewrite IH. }
    by rewrite Hobs.
  - unfold TimeSeriesPlotter.ewma_matrix. rewrite relabel_sorted.
    assert (Hd : omap (λ r, match at_ r "date" with
                            | Date t => Some (t, at_ r "Mid")
                            | _ => None
                            end)
                   (relabel_row <$> rows (TimeSeriesPlotter.sort_values_date (concat frames)))
                 = omap (λ r, match at_ r "date" with
                              | Date t => Some (t, at_ r "Mid")
                              | _ => None
                              end)
                     (rows (TimeSeriesPlotter.sort_values_date (concat frames)))).
    { generalize (rows (TimeSeriesPlotter.sort_values_date (concat frames))).
      intros l. induction l as [|r l IH]; csimpl; [done|].
      rewrite !relabel_row_at by done. by rewrite IH. }
    by rewrite Hd.
Qed.

End basis_blind.

Section contribution.
Context `{PandasText}.

Lemma pivot_contributes idx col val df r t v :
  r ∈ rows df → at_ r idx = Date t → at_ r val = Num v →
  notnull (at_ r col) = true →
  contributes (pivot_table idx col val df) t (at_ r col) v.
Proof.
  intros Hr Ht Hv Hc.
  assert (Ho : (t, at_ r col, v) ∈ observations idx col val df).
  { unfold observations. apply list_elem_of_omap. exists r. split; [done|].
    by rewrite Ht, Hv, Hc. }
  set (obs := observations idx col val df) in *.
  assert (Hi : t ∈ Py.sort_by ts_leb (remove_dups ((λ o, o.1.1) <$> obs))).
  { rewrite sort_by_Permutation, elem_of_remove_dups.
    apply list_elem_of_fmap. by exists (t, at_ r col, v). }
  assert (Hk : at_ r col ∈ Py.sort_by cell_leb (remove_dups ((λ o, o.1.2) <$> obs))).
  { rewrite sort_by_Permutation, elem_of_remove_dups.
    apply list_elem_of_fmap. by exists (t, at_ r col, v). }
  apply list_elem_of_lookup in Hi as [i Hi]. apply list_elem_of_lookup in Hk as [k Hk].
  exists i, k. eexists _, _. unfold pivot_table. fold obs. cbn [index labels data].
  split_and!; [exact Hi|exact Hk| | |].
  - by rewrite list_lookup_fmap, Hk.
  - rewrite list_lookup_fmap, Hi. reflexivity.
  - apply list_elem_of_fmap. exists (t, at_ r col, v). split; [done|].
    by apply list_elem_of_filter.
Qed.

Lemma ewma_contributes df r t v :
  r ∈ rows df → at_ r "date" = Date t → at_ r "Mid" = Num v →
  contributes (TimeSeriesPlotter.ewma_matrix df) t (Str "EWMA_Volatility") v.
Proof.
  intros Hr Ht Hv. unfold TimeSeriesPlotter.ewma_matrix.
  set (dated := omap _ (rows df)).
  assert (Hd : (t, Num v) ∈ dated).
  { apply list_elem_of_omap. exists r. split; [done|]. by rewrite Ht, Hv. }
  assert (Hi : t ∈ Py.sort_by ts_leb (remove_dups dated.*1)).
  { rewrite sort_by_Permutation, elem_of_remove_dups.
    apply list_elem_of_fmap. by exists (t, Num v). }
  apply list_elem_of_lookup in Hi as [i Hi].
  exists i, 0%nat. eexists _, _. cbn [index labels data].
  split_and!; [exact Hi|done|done| |].
  - rewrite list_lookup_fmap, Hi. reflexivity.
  - apply list_elem_of_omap. exists (t, Num v). split; [done|].
    simpl. by rewrite decide_True.
Qed.

(** A row with a date and a numeric [Mid] (and a contract month, where the
    data has that column) is averaged into its cell of the Original
    matrix, whatever its [Basis]. *)
Lemma original_contributes combined r t v :
  r ∈ rows combined → at_ r "date" = Date t → at_ r "Mid" = Num v →
  (has_column combined "Contract_Month" = true →
   notnull (at_ r "Contract_Month") = true) →
  contributes (TimeSeriesPlotter.original combined) t
    (if has_column combined "Contract_Month" then at_ r "Contract_Month"
     else Str "EWMA_Volatility") v.
Proof.
  intros Hr Ht Hv Hcm. unfold TimeSeriesPlotter.original.
  destruct (has_column combined "Contract_Month").
  - apply pivot_contributes; auto.
  - by apply (ewma_contributes combined r).
Qed.

End contribution.


Section filenames_sample.
#[local] Existing Instance Sample.iso_text.

Let walk : list (string * list File) := [("in", [Sample.january; Sample.mixed])].
Let run (curve_name : string) :=
  TimeSeriesPlotter.build_vol_time_series curve_name None 2 None None walk Sample.fresh.



End filenames_sample.

(** ** Moneyness and the Surface Matrix (C7) *)

Section surface.
Context `{PandasText}.

Lemma moneyness_in_table c :
  if in_table c then ∃ q, VolatilitySurface.moneyness c = Num q
  else VolatilitySurface.moneyness c = NaN.
Proof.
  destruct c as [s|q|t|]; simpl; try done.
  destruct (VolatilitySurface.type_to_moneyness !! s) as [q|] eqn:Hs.
  - rewrite bool_decide_true by (by eexists). by exists q.
  - rewrite bool_decide_false by (by intros [??]). done.
Qed.

Lemma observations_select idx col val df :
  observations idx col val (select df (λ r, notnull (at_ r col)))
  = observations idx col val df.
Proof.
  unfold observations, select; simpl.
  induction (rows df) as [|r l IH]; [done|].
  rewrite filter_cons. destruct (notnull (at_ r col)) eqn:Hn.
  - rewrite decide_True by done. csimpl. by rewrite IH, Hn.
  - rewrite decide_False by (by intros ?). csimpl. rewrite IH, Hn.
    by destruct (at_ r idx), (at_ r val).
Qed.

(** The rows with an undefined moneyness are in no cell of the matrix. *)
Lemma surface_drops_undefined df :
  VolatilitySurface.surface (select df (λ r, notnull (at_ r "Moneyness")))
  = VolatilitySurface.surface df.
Proof.
  unfold VolatilitySurface.surface, pivot_table.
  by rewrite observations_select.
Qed.

Lemma elem_of_observations idx col val df t c v :
  (t, c, v) ∈ observations idx col val df →
  ∃ r, r ∈ rows df ∧ at_ r idx = Date t ∧ at_ r col = c ∧ at_ r val = Num v
       ∧ notnull c = true.
Proof.
  unfold observations. intros (r & Hr & Ho)%list_elem_of_omap.
  exists r. destruct (at_ r idx) as [| |t'|]; try done.
  destruct (at_ r val) as [|v'| |]; try done.
  destruct (notnull (at_ r col)) eqn:Hn; [|done].
  injection Ho as Ht Hc Hv. subst. done.
Qed.

Lemma surface_labels df c :
  c ∈ labels (VolatilitySurface.surface df) →
  ∃ r, r ∈ rows df ∧ at_ r "Moneyness" = c ∧ notnull c = true.
Proof.
  unfold VolatilitySurface.surface, dropna_columns; simpl.
  intros ([c' col] & -> & [_ Hz]%list_elem_of_filter)%list_elem_of_fmap.
  apply elem_of_zip_l in Hz. simpl in *.
  rewrite sort_by_Permutation, elem_of_remove_dups in Hz.
  apply list_elem_of_fmap in Hz as ([[t c0] v] & -> & Ho). simpl.
  apply elem_of_observations in Ho as (r & Hr & _ & Hc & _ & Hn). by exists r.
Qed.

Lemma assign_at df c f r' :
  r' ∈ rows (assign df c f) →
  ∃ r, r ∈ rows df ∧ at_ r' c = f r ∧ ∀ c', c' ≠ c → at_ r' c' = at_ r c'.
Proof.
  unfold assign; simpl. intros (r & -> & Hr)%list_elem_of_fmap.
  exists r. split; [done|]. unfold at_. rewrite lookup_insert_eq. split; [done|].
  intros c' Hc'. by rewrite lookup_insert_ne.
Qed.

Lemma with_date_at df df' r' :
  with_date df = Some df' → r' ∈ rows df' →
  ∃ r, r ∈ rows df ∧ ∀ c, c ≠ "date" → at_ r' c = at_ r c.
Proof.
  unfold with_date. destruct (has_column df "date").
  - intros [= <-] (r & Hr & _ & Hc)%assign_at. by exists r.
  - destruct (has_column df "Curve_Date"); [|done].
    intros [= <-] (r & Hr & _ & Hc)%assign_at. by exists r.
Qed.

Lemma prepare_moneyness df :
  match VolatilitySurface.prepare df with
  | Ok (Some df') => moneyness_of_type df'
  | _ => True
  end.
Proof.
  unfold VolatilitySurface.prepare.
  destruct (VolExtractor.getitem _ "Type"); [|done].
  destruct (VolExtractor.getitem _ "Mid"); [|done].
  destruct (with_date _) as [d|] eqn:Hd; [|done].
  intros r4 (r3 & Hr3 & _ & H4)%assign_at.
  destruct (with_date_at _ _ _ Hd Hr3) as (r2 & Hr2 & H3).
  apply assign_at in Hr2 as (r1 & Hr1 & _ & H2).
  apply assign_at in Hr1 as (r0 & Hr0 & Hm & H1).
  rewrite !H4, !H3, !H2 by done. rewrite Hm. by rewrite H1.
Qed.

Lemma concat_moneyness frames :
  (∀ d, d ∈ frames → moneyness_of_type d) → moneyness_of_type (concat frames).
Proof.
  intros Hf r. unfold concat; simpl.
  intros (l & Hr & (d & -> & Hd)%list_elem_of_fmap)%list_elem_of_join.
  by apply (Hf d Hd).
Qed.

Lemma period_rows_moneyness target period label b frames :
  (∀ d, d ∈ frames → moneyness_of_type d) →
  moneyness_of_type
    (VolatilitySurface.period_rows target period
       (VolatilitySurface.filter_dates b (VolatilitySurface.add_year (concat frames)))
       label).
Proof.
  intros Hf r [_ Hr]%elem_of_select.
  assert (Hy : moneyness_of_type (VolatilitySurface.add_year (concat frames))).
  { intros r' (r0 & Hr0 & _ & Hc)%assign_at. rewrite !Hc by done.
    by apply (concat_moneyness frames Hf). }
  destruct b as [[lo hi]|]; unfold VolatilitySurface.filter_dates in Hr;
    [|by apply Hy].
  apply elem_of_select in Hr as [_ Hr]. by apply Hy.
Qed.

Lemma filter_iff_in {A} (P Q : A → Prop) `{∀ x, Decision (P x), ∀ x, Decision (Q x)}
    (l : list A) :
  (∀ x, x ∈ l → P x ↔ Q x) → filter P l = filter Q l.
Proof.
  induction l as [|x l IH]; intros Hl; [done|].
  rewrite !filter_cons, IH by (intros; apply Hl; by right).
  destruct (Hl x (list_elem_of_here _ _)).
  destruct (decide (P x)), (decide (Q x)); tauto || done.
Qed.

Lemma notnull_moneyness c : notnull (VolatilitySurface.moneyness c) = in_table c.
Proof.
  pose proof (moneyness_in_table c) as Hm. destruct (in_table c).
  - destruct Hm as [q ->]. done.
  - by rewrite Hm.
Qed.

(** Dropping the rows whose [Type] is no key of the table changes
    nothing in the matrix. *)
Lemma surface_drops_unmapped df :
  moneyness_of_type df →
  VolatilitySurface.surface df
  = VolatilitySurface.surface (select df (λ r, in_table (at_ r "Type"))).
Proof.
  intros Hdf. rewrite <- (surface_drops_undefined df).
  rewrite <- (surface_drops_undefined (select df (λ r, in_table (at_ r "Type")))).
  f_equal. unfold select; simpl. f_equal.
  rewrite list_filter_filter. apply filter_iff_in.
  intros r Hr. rewrite (Hdf r Hr), notnull_moneyness. tauto.
Qed.

Lemma surface_labels_mapped df c :
  moneyness_of_type df → c ∈ labels (VolatilitySurface.surface df) →
  ∃ r, r ∈ rows df ∧ in_table (at_ r "Type") = true
       ∧ c = VolatilitySurface.moneyness (at_ r "Type").
Proof.
  intros Hdf (r & Hr & <- & Hn)%surface_labels. exists r.
  rewrite (Hdf r Hr) in Hn |- *. by rewrite notnull_moneyness in Hn.
Qed.

Lemma emit_period_total target period tag df_all label w :
  ∃ w', VolatilitySurface.emit_period target period tag df_all label w = (Ok tt, w').
Proof.
  unfold VolatilitySurface.emit_period.
  destruct (Pd.empty _); [by eexists|].
  destruct (matrix_empty _); [by eexists|].
  unfold bind, save. by eexists.
Qed.

End surface.

(** C7. The label [ATM] maps to moneyness 0, [ATM - $0.50] to -1/2 and
    [ATM + $0.25] to 1/4; a [Type] that is no key of the table gets an
    undefined moneyness.  Every row the surface builder loads carries the
    moneyness of its [Type], up to the rows of a period; the Surface Matrix
    of a table is the matrix of its rows with a defined moneyness, each of
    its columns is the defined moneyness of some row, and writing the matrix
    of a period never raises. *)
Theorem unmapped_types_leave_no_cell `{PandasText} :
  VolatilitySurface.moneyness (Str "ATM") = Num (Q2Qc 0)
  ∧ VolatilitySurface.moneyness (Str "ATM - $0.50") = Num (Q2Qc (-1 # 2))
  ∧ VolatilitySurface.moneyness (Str "ATM + $0.25") = Num (Q2Qc (1 # 4))
  ∧ (∀ c, in_table c = false → VolatilitySurface.moneyness c = NaN)
  ∧ (∀ df, match VolatilitySurface.prepare df with
           | Ok (Some df') => moneyness_of_type df'
           | _ => True
           end)
  ∧ (∀ target period label b frames,
       (∀ d, d ∈ frames → moneyness_of_type d) →
       moneyness_of_type
         (VolatilitySurface.period_rows target period
            (VolatilitySurface.filter_dates b (VolatilitySurface.add_year (concat frames)))
            label))
  ∧ (∀ df, moneyness_of_type df →
       VolatilitySurface.surface df
       = VolatilitySurface.surface (select df (λ r, in_table (at_ r "Type"))))
  ∧ (∀ df c, moneyness_of_type df → c ∈ labels (VolatilitySurface.surface df) →
       ∃ r, r ∈ rows df ∧ in_table (at_ r "Type") = true
            ∧ c = VolatilitySurface.moneyness (at_ r "Type"))
  ∧ (∀ target period tag df_all label w,
       ∃ w', VolatilitySurface.emit_period target period tag df_all label w = (Ok tt, w')).
Proof.
  split_and!.
  - apply (f_equal Num), Qc_is_canon. vm_compute. reflexivity.
  - apply (f_equal Num), Qc_is_canon. vm_compute. reflexivity.
  - apply (f_equal Num), Qc_is_canon. vm_compute. reflexivity.
  - intros c Hc. pose proof (moneyness_in_table c) as Hm. by rewrite Hc in Hm.
  - apply prepare_moneyness.
  - intros. by apply period_rows_moneyness.
  - apply surface_drops_unmapped.
  - intros df c. apply surface_labels_mapped.
  - intros. apply emit_period_total.
Qed.

Section surface_sample.
#[local] Existing Instance Sample.iso_text.

Lemma unmapped_types_leave_no_cell_witness :
  ∃ df, VolatilitySurface.prepare Sample.surface_table = Ok (Some df)
    ∧ moneyness_of_type df
    ∧ VolatilitySurface.surface df
      = VolatilitySurface.surface (select df (λ r, in_table (at_ r "Type")))
    ∧ length (rows df) = 4%nat
    ∧ length (rows (select df (λ r, in_table (at_ r "Type")))) = 3%nat.
Proof.
  destruct unmapped_types_leave_no_cell
    as (_ & _ & _ & _ & Hprep & _ & Hdrop & _ & _).
  specialize (Hprep Sample.surface_table).
  destruct (VolatilitySurface.prepare Sample.surface_table) as [[df|]|e] eqn:Hp;
    [|vm_compute in Hp; discriminate Hp|vm_compute in Hp; discriminate Hp].
  exists df. split; [done|]. split; [exact Hprep|]. split; [by apply Hdrop|].
  vm_compute in Hp. injection Hp as <-.
  split; vm_compute; reflexivity.
Defined.

Let loaded : option DataFrame :=
  Retained.surface_frame (Some "2024-01") Sample.surface_file.

(** The matrix of the sample: one date, the strikes 0 and 1/4, the
    duplicated cell averaged to 0.22, and no column for [HIST]. *)
Example surface_sample_matrix :
  (λ m, ((λ t, (ts_year t, ts_month t, ts_day t)) <$> index m, labels m, data m))
    <$> (VolatilitySurface.surface <$> loaded)
  = Some ([(2024, 1, 5)]%nat, [Num (Q2Qc 0); Num (Q2Qc (1 # 4))],
          [[Some (Q2Qc (11 # 50))]; [Some (Q2Qc (3 # 10))]]).
Proof. vm_compute. reflexivity. Qed.

End surface_sample.

(** ** The month filter is a test on the file name (C10) *)

Lemma prefix_iff (p s : string) :
  String.prefix p s = true ↔ ∃ after, s = p +:+ after.
Proof.
  revert s. induction p as [|a p IH]; intros s.
  - split; [intros _; by exists s|]. intros _. by destruct s.
  - destruct s as [|b s]; simpl.
    + split; [done|]. by intros [after Heq].
    + destruct (ascii_dec a b) as [->|Hne].
      * rewrite IH. split; intros [after Heq]; exists after.
        -- by rewrite Heq.
        -- by injection Heq.
      * split; [done|]. intros [after Heq]. by injection Heq as -> _.
Qed.

Lemma contains_iff (sub s : string) :
  Py.contains sub s = true ↔ substring_of sub s.
Proof.
  unfold substring_of. induction s as [|c s IH].
  - change (Py.contains sub "") with (String.prefix sub "" || false).
    rewrite orb_false_r, prefix_iff. split.
    + intros [after Heq]. by exists "", after.
    + intros (before & after & Heq). destruct before; [|done]. by exists after.
  - change (Py.contains sub (String c s))
      with (String.prefix sub (String c s) || Py.contains sub s).
    rewrite orb_true_iff, IH, prefix_iff. split.
    + intros [[after Heq]|(before & after & Heq)].
      * by exists "", after.
      * exists (String c before), after. by rewrite Heq.
    + intros (before & after & Heq). destruct before as [|b before].
      * left. by exists after.
      * right. injection Heq as -> Heq. by exists before, after.
Qed.

Section month_gate.
Context `{PandasText}.

Lemma surface_read_spec path f w :
  ∃ w', VolatilitySurface.robust_read_csv path f w = (Ok (Retained.curve_loaded f), w').
Proof.
  destruct (read_input_spec path f w) as (w' & Hr & _). by exists w'.
Qed.

Lemma surface_load_file_spec target_month data_folder f all_data w df df' :
  VolatilitySurface.included target_month (fname f) = true →
  Retained.curve_loaded f = Some df →
  VolatilitySurface.prepare df = Ok (Some df') →
  ∃ w', VolatilitySurface.load_file target_month data_folder f all_data w
        = (Ok (all_data ++ [df']), w').
Proof.
  intros Hinc Hload Hprep. unfold VolatilitySurface.load_file. rewrite Hinc.
  destruct (surface_read_spec (Py.path_join data_folder (fname f)) f w) as (w1 & Hr).
  unfold bind at 1. rewrite Hr, Hload. unfold bind, lift. rewrite Hprep.
  by eexists.
Qed.

Lemma surface_prepare_rows df df' :
  VolatilitySurface.prepare df = Ok (Some df') →
  length (rows df') = length (rows df).
Proof.
  unfold VolatilitySurface.prepare.
  destruct (VolExtractor.getitem _ "Type"); [|done].
  destruct (VolExtractor.getitem _ "Mid"); [|done].
  unfold with_date.
  destruct (has_column _ "date");
    [|destruct (has_column _ "Curve_Date"); [|done]];
    intros [= <-]; unfold assign, rename_columns; simpl;
    by rewrite !length_fmap.
Qed.

Lemma filter_fmap {A B} (P : B → Prop) `{∀ x, Decision (P x)} (f : A → B) (l : list A) :
  filter P (f <$> l) = f <$> filter (λ x, P (f x)) l.
Proof.
  induction l as [|x l IH]; [done|].
  rewrite fmap_cons, !filter_cons, IH. by destruct (decide (P (f x))).
Qed.

Lemma series_prepare_rows start_date end_date df df' :
  TimeSeriesPlotter.prepare start_date end_date df = Ok (Some df') →
  ∃ dated b,
    with_date (rename_columns clean_label df) = Some dated
    ∧ VolatilitySurface.bounds None start_date end_date = Ok b
    ∧ rows df' = (λ r, <["Mid" := to_numeric_coerce (at_ r "Mid")]> r)
                   <$> filter (series_row_kept b) (rows dated).
Proof.
  unfold TimeSeriesPlotter.prepare.
  destruct (with_date _) as [dated|]; [|done].
  destruct (VolatilitySurface.bounds None start_date end_date) as [b|]; [|done].
  destruct (VolExtractor.getitem _ "Mid"); [|done].
  destruct (Pd.empty _); [done|]. intros [= <-].
  exists dated, b. split_and!; [done|done|].
  unfold select, assign. cbn [rows]. rewrite filter_fmap.
  f_equal. destruct b as [[lo hi]|]; unfold VolatilitySurface.filter_dates.
  - unfold select. cbn [rows]. rewrite list_filter_filter.
    apply list_filter_iff. intros r. unfold series_row_kept, at_.
    by rewrite lookup_insert_eq.
  - apply list_filter_iff. intros r. unfold series_row_kept, at_.
    rewrite lookup_insert_eq. simpl. tauto.
Qed.

End month_gate.

Lemma truthy_nonempty (m : string) : m ≠ "" → Py.truthy (Some m) = true.
Proof.
  intros Hm. unfold Py.truthy. apply negb_true_iff, String.eqb_neq. done.
Qed.

(** C10, amended. With a month filter, a [.csv] file is taken by
    [generate_vol_surfaces] and by [build_vol_time_series] if and only if
    the month string occurs in its name; a file that is not taken is not
    even read.  A file that is taken is not filtered by month again:
    [generate_vol_surfaces] loads every row of its table, and
    [build_vol_time_series] loads every row whose [Mid] is a number and,
    when a date range is given, whose date is inside the range, whatever
    the month of the row. *)
Theorem month_filter_is_on_file_names `{PandasText} (m : string) (f : File) :
  m ≠ "" → Py.endswith (fname f) ".csv" = true →
  (VolatilitySurface.included (Some m) (fname f) = true ↔ substring_of m (fname f))
  ∧ (TimeSeriesPlotter.month_mismatch (Some m) (fname f) = false
     ↔ substring_of m (fname f))
  ∧ (¬ substring_of m (fname f) →
     (∀ folder all_data w,
        VolatilitySurface.load_file (Some m) folder f all_data w = (Ok all_data, w))
     ∧ (∀ start_date end_date root all_data w,
          TimeSeriesPlotter.load_file (Some m) start_date end_date root f all_data w
          = (Ok all_data, w)))
  ∧ (substring_of m (fname f) →
     (∀ df df' folder all_data w,
        Retained.curve_loaded f = Some df →
        VolatilitySurface.prepare df = Ok (Some df') →
        length (rows df') = length (rows df)
        ∧ ∃ w', VolatilitySurface.load_file (Some m) folder f all_data w
                = (Ok (all_data ++ [df']), w'))
     ∧ (∀ start_date end_date root all_data w,
          (∃ w', TimeSeriesPlotter.load_file (Some m) start_date end_date root f all_data w
                 = (Ok (all_data
                        ++ option_list (Retained.series_frame (Some m) start_date end_date f)),
                    w'))
          ∧ ∀ df', Retained.series_frame (Some m) start_date end_date f = Some df' →
              ∃ df dated b,
                fparse f utf_8 bad_skip = Ok df
                ∧ with_date (rename_columns clean_label df) = Some dated
                ∧ VolatilitySurface.bounds None start_date end_date = Ok b
                ∧ rows df' = (λ r, <["Mid" := to_numeric_coerce (at_ r "Mid")]> r)
                               <$> filter (series_row_kept b) (rows dated))).
Proof.
  intros Hm Hcsv. pose proof (truthy_nonempty m Hm) as Ht.
  assert (Hinc : VolatilitySurface.included (Some m) (fname f) = Py.contains m (fname f)).
  { unfold VolatilitySurface.included. by rewrite Hcsv, Ht. }
  assert (Hmis : TimeSeriesPlotter.month_mismatch (Some m) (fname f)
                 = negb (Py.contains m (fname f))).
  { unfold TimeSeriesPlotter.month_mismatch. by rewrite Ht. }
  split_and!.
  - by rewrite Hinc, contains_iff.
  - by rewrite Hmis, negb_false_iff, contains_iff.
  - intros Hno. rewrite <- contains_iff in Hno. apply not_true_is_false in Hno.
    split.
    + intros. unfold VolatilitySurface.load_file. by rewrite Hinc, Hno.
    + intros. unfold TimeSeriesPlotter.load_file. by rewrite Hcsv, Hmis, Hno.
  - intros Hyes. rewrite <- contains_iff in Hyes. split.
    + intros df df' folder all_data w Hload Hprep. split.
      * by apply surface_prepare_rows.
      * apply (surface_load_file_spec _ _ _ _ _ df); [by rewrite Hinc|done|done].
    + intros sd ed root all_data w. split.
      * destruct (series_load_file_spec (Some m) sd ed root f all_data w) as (w' & Hl & _).
        by exists w'.
      * intros df'. unfold Retained.series_frame.
        rewrite Hcsv, Hmis, Hyes. simpl.
        destruct (fparse f utf_8 bad_skip) as [df|]; [|done].
        destruct (Pd.empty df); [done|].
        destruct (TimeSeriesPlotter.prepare sd ed df) as [o|] eqn:Hp; [|done].
        intros ->. apply series_prepare_rows in Hp as (dated & b & ? & ? & ?).
        by exists df, dated, b.
Qed.

Section month_sample.
#[local] Existing Instance Sample.iso_text.

Lemma month_filter_is_on_file_names_witness :
  (VolatilitySurface.included (Some "01") (fname Sample.january_named) = true
   ↔ substring_of "01" (fname Sample.january_named))
  ∧ (TimeSeriesPlotter.month_mismatch (Some "01") (fname Sample.january_named) = false
     ↔ substring_of "01" (fname Sample.january_named)).
Proof.
  destruct (month_filter_is_on_file_names "01" Sample.january_named) as (H1 & H2 & _).
  - discriminate.
  - vm_compute. reflexivity.
  - by split.
Defined.

(** C10 as stated fails on [build_vol_time_series]: the file is taken, for
    its name holds the month, and of its three rows the one whose [Mid] is
    no number is not loaded; the February row is. *)
Lemma month_filter_counterexample :
  substring_of "01" (fname Sample.january_named)
  ∧ (length ∘ rows) <$> (match fparse Sample.january_named utf_8 bad_skip with
                         | Ok df => Some df
                         | Raise _ => None
                         end) = Some 3%nat
  ∧ ∃ df' w',
      TimeSeriesPlotter.load (Some "01") None None
        [("in", [Sample.january_named])] Sample.fresh = (Ok [df'], w')
      ∧ (λ r, match at_ r "date" with
              | Date t => Some (ts_month t, ts_day t)
              | _ => None
              end) <$> rows df' = [Some (1, 5); Some (2, 6)]%nat.
Proof.
  split; [apply contains_iff; vm_compute; reflexivity|].
  split; [vm_compute; reflexivity|].
  eexists _, _. split; [vm_compute; reflexivity|].
  vm_compute. reflexivity.
Qed.

End month_sample.

(** * Further properties of the stages *)

Section curve_log.
Context `{PandasText}.
Variables (year : string) (target_curves target_strikes : list string).
Variable month : option string.

Let step := CurveFilter.process_file year target_curves target_strikes month.

Lemma curve_process_file_exact root f acc w :
  step root f acc w
  = (Ok {| CurveFilter.file_dict :=
             match Retained.curve_frame year target_curves target_strikes month f with
             | Some d => CurveFilter.add_groups month (CurveFilter.file_dict acc) d
             | None => CurveFilter.file_dict acc
             end;
           CurveFilter.csv_files_found :=
             CurveFilter.csv_files_found acc
             + (if Py.endswith (fname f) ".csv" then 1 else 0);
           CurveFilter.csv_files_processed :=
             CurveFilter.csv_files_processed acc
             + match Retained.curve_frame year target_curves target_strikes month f with
               | Some _ => 1
               | None => 0
               end |},
     {| trace := trace w ++ curve_events root f; outdir := outdir w; saved := saved w |}).
Proof.
  unfold step, CurveFilter.process_file, Retained.curve_frame, curve_events,
    CurveFilter.read_input, Retained.curve_loaded, missing_columns.
  destruct acc as [fd nf np], w as [tr o s]. simpl.
  destruct (Py.endswith (fname f) ".csv"); simpl.
  { unfold try_except, bind, getsize, read_csv, lift, print, emit, ret; simpl.
    destruct (fsize f) as [sz|e]; simpl.
    2:{ by rewrite !Nat.add_0_r, Nat.add_1_r. }
    destruct (decide (sz < 10)%nat); simpl.
    { by rewrite !Nat.add_0_r, Nat.add_1_r. }
    destruct (fparse f utf_8 bad_skip) as [df|e]; simpl.
    2:{ by rewrite !Nat.add_0_r, Nat.add_1_r, <- (assoc_L (++)). }
    destruct (Pd.empty df); simpl.
    { by rewrite !Nat.add_0_r, Nat.add_1_r, <- (assoc_L (++)). }
    pose proof (missing_columns_nil (columns (rename_columns Py.strip df))
                  CurveFilter.required_columns) as Hm.
    fold (has_column (rename_columns Py.strip df)) in Hm.
    destruct (filter _ CurveFilter.required_columns) as [|c cs] eqn:Hf;
      simpl in Hm.
    - rewrite (proj1 Hm eq_refl). by rewrite !Nat.add_1_r.
    - destruct (_ && _); [by destruct Hm as [_ Hm]; discriminate Hm|].
      simpl. by rewrite !Nat.add_0_r, Nat.add_1_r, <- (assoc_L (++)). }
  by rewrite !Nat.add_0_r, app_nil_r.
Qed.

Let upd (fd : list (string * list DataFrame)) (f : File) :=
  match Retained.curve_frame year target_curves target_strikes month f with
  | Some d => CurveFilter.add_groups month fd d
  | None => fd
  end.

Let is_csv (f : File) : Prop := Py.endswith (fname f) ".csv" = true.
Let processed (f : File) : Prop :=
  is_Some (Retained.curve_frame year target_curves target_strikes month f).

Lemma curve_files_exact root files acc w :
  for_each files (step root) acc w
  = (Ok {| CurveFilter.file_dict := foldl upd (CurveFilter.file_dict acc) files;
           CurveFilter.csv_files_found :=
             CurveFilter.csv_files_found acc + length (filter is_csv files);
           CurveFilter.csv_files_processed :=
             CurveFilter.csv_files_processed acc + length (filter processed files) |},
     {| trace := trace w ++ (files ≫= curve_events root);
        outdir := outdir w; saved := saved w |}).
Proof.
  revert acc w. induction files as [|f files IH]; intros acc w; csimpl.
  - unfold ret. rewrite !Nat.add_0_r, app_nil_r. by destruct acc, w.
  - unfold bind. rewrite curve_process_file_exact, IH. simpl.
    f_equal; [|by rewrite <- (assoc_L (++))]. f_equal. f_equal.
    + rewrite filter_cons.
      destruct (decide (is_csv f)) as [Hc|Hc]; unfold is_csv in Hc.
      * rewrite Hc. simpl. lia.
      * apply not_true_is_false in Hc. rewrite Hc. lia.
    + rewrite filter_cons.
      destruct (decide (processed f)) as [[d Hd]|Hn]; unfold processed in *.
      * rewrite Hd. simpl. lia.
      * destruct (Retained.curve_frame _ _ _ _ f) as [d|]; [|lia].
        destruct Hn. by eexists.
Qed.

Lemma curve_scan_exact walk w :
  CurveFilter.scan year target_curves target_strikes month walk w
  = (Ok {| CurveFilter.file_dict :=
             curve_dict year target_curves target_strikes month walk;
           CurveFilter.csv_files_found := length (filter is_csv (files_of walk));
           CurveFilter.csv_files_processed := length (filter processed (files_of walk)) |},
     {| trace := trace w ++ (paths_of walk ≫= λ p, curve_events p.1 p.2);
        outdir := outdir w; saved := saved w |}).
Proof.
  unfold CurveFilter.scan, curve_dict. fold step. fold upd.
  assert (Hgen : ∀ acc w0,
    for_each walk (λ dir acc, for_each dir.2 (step dir.1) acc) acc w0
    = (Ok {| CurveFilter.file_dict := foldl upd (CurveFilter.file_dict acc) (files_of walk);
             CurveFilter.csv_files_found :=
               CurveFilter.csv_files_found acc + length (filter is_csv (files_of walk));
             CurveFilter.csv_files_processed :=
               CurveFilter.csv_files_processed acc
               + length (filter processed (files_of walk)) |},
       {| trace := trace w0 ++ (paths_of walk ≫= λ p, curve_events p.1 p.2);
          outdir := outdir w0; saved := saved w0 |})).
  { unfold files_of, paths_of.
    induction walk as [|[root files] walk IH]; intros acc w0; csimpl.
    - unfold ret. rewrite !Nat.add_0_r, app_nil_r. by destruct acc, w0.
    - unfold bind. rewrite curve_files_exact, IH. simpl.
      rewrite foldl_app, !filter_app, !length_app, bind_app, !Nat.add_assoc.
      rewrite <- (assoc_L (++)). do 4 f_equal.
      clear. induction files as [|f files IH]; csimpl; [done|]. by rewrite IH. }
  apply (Hgen CurveFilter.init w).
Qed.

Lemma curve_write_months_exact fd w :
  CurveFilter.write_months fd w
  = (Ok tt, {| trace := trace w
                        ++ ((λ kv : string * list DataFrame,
                               Printed (Notice ("Processing " +:+ kv.1))) <$> fd);
               outdir := with_months (outdir w) fd; saved := saved w |}).
Proof.
  unfold CurveFilter.write_months, with_months. revert w.
  induction fd as [|kv fd IH]; intros w; simpl.
  - unfold ret. rewrite app_nil_r. by destruct w.
  - unfold bind at 1. unfold bind at 1. unfold print, emit, to_csv. simpl.
    rewrite IH. simpl. by rewrite <- (assoc_L (++)).
Qed.

Lemma combine_year_exact w :
  CurveFilter.combine_year year w
  = (Ok tt,
     match omap (λ n, outdir w !! n) (monthly_names (outdir w)) with
     | [] => w
     | _ :: _ =>
         {| trace := trace w
                     ++ [Printed (Notice (year +:+ "_combined.csv has been created"))];
            outdir := with_combined year (outdir w); saved := saved w |}
     end).
Proof.
  unfold CurveFilter.combine_year, with_combined. unfold bind at 1.
  unfold sorted_listdir at 1. fold (monthly_names (outdir w)).
  assert (Hin : ∀ n, n ∈ monthly_names (outdir w) → is_Some (outdir w !! n)).
  { intros n [_ Hn]%list_elem_of_filter. unfold Py.sorted in Hn.
    rewrite sort_by_Permutation in Hn.
    apply list_elem_of_fmap in Hn as ([n' d] & -> & Hnd).
    apply elem_of_map_to_list in Hnd. by eexists. }
  unfold bind at 1. rewrite (map_io_read_back _ w Hin).
  destruct (omap _ (monthly_names (outdir w))) as [|d ds]; [done|].
  unfold bind, to_csv, print, emit. done.
Qed.

Lemma extract_curve_data_exact walk w :
  ∃ pre post,
    CurveFilter.extract_curve_data year target_curves target_strikes month walk w
    = (Ok tt,
       {| trace := trace w ++ pre ++ (paths_of walk ≫= λ p, curve_events p.1 p.2)
                   ++ Printed (Notice
                        ("Found "
                         +:+ Py.str_nat (length (filter is_csv (files_of walk)))
                         +:+ " CSV files, processed "
                         +:+ Py.str_nat (length (filter processed (files_of walk)))
                         +:+ " files")) :: post;
          outdir := with_combined year
                      (with_months (outdir w)
                         (curve_dict year target_curves target_strikes month walk));
          saved := saved w |})
    ∧ only_notices pre ∧ only_notices post.
Proof.
  unfold CurveFilter.extract_curve_data, CurveFilter.write_stage.
  unfold bind at 1. unfold bind at 1. unfold notices at 1.
  unfold bind at 1. rewrite curve_scan_exact.
  unfold bind at 1. unfold print at 1, emit at 1.
  rewrite curve_write_months_exact, combine_year_exact. cbn [trace outdir saved
    CurveFilter.file_dict CurveFilter.csv_files_found CurveFilter.csv_files_processed].
  set (fd := curve_dict year target_curves target_strikes month walk).
  exists ((λ m : string, Printed (Notice m)) <$>
            [ "Starting curve data extraction..."; "Input folder"; "Output folder";
              "Target curves: " +:+ String.concat ", " target_curves;
              "Target strikes: " +:+ String.concat ", " target_strikes;
              "Year: " +:+ year; "Month: " +:+ default "None" month ]),
         (((λ kv : string * list DataFrame,
              Printed (Notice ("Processing " +:+ kv.1))) <$> fd)
          ++ match omap (λ n, with_months (outdir w) fd !! n)
                     (monthly_names (with_months (outdir w) fd)) with
             | [] => []
             | _ :: _ =>
                 [Printed (Notice (year +:+ "_combined.csv has been created"))]
             end).
  split.
  - f_equal.
    destruct (omap _ (monthly_names (with_months (outdir w) fd))) as [|d ds] eqn:Hall.
    + rewrite app_nil_r. unfold with_combined. rewrite Hall.
      f_equal. by rewrite <- !(assoc_L (++)).
    + f_equal. by rewrite <- !(assoc_L (++)).
  - split.
    + unfold only_notices. apply Forall_fmap, Forall_forall. intros m _. by eexists.
    + unfold only_notices. apply Forall_app. split.
      * apply Forall_fmap, Forall_forall. intros kv _. by eexists.
      * destruct (omap _ _); repeat constructor. by eexists.
Qed.

End curve_log.

Lemma read_calls_app a b : read_calls (a ++ b) = read_calls a ++ read_calls b.
Proof. apply omap_app. Qed.

Lemma missing_reports_app a b :
  missing_reports (a ++ b) = missing_reports a ++ missing_reports b.
Proof. apply omap_app. Qed.

Lemma read_calls_notices evs : only_notices evs → read_calls evs = [].
Proof.
  induction 1 as [|ev evs [m ->] _ IH]; [done|]. done.
Qed.

Lemma missing_reports_notices evs : only_notices evs → missing_reports evs = [].
Proof.
  induction 1 as [|ev evs [m ->] _ IH]; [done|]. done.
Qed.

Lemma omap_bind_option {A B C} (g : A → list B) (p : B → option C) (h : A → option C)
    (l : list A) :
  (∀ x, x ∈ l → omap p (g x) = option_list (h x)) →
  omap p (l ≫= g) = omap h l.
Proof.
  induction l as [|x l IH]; intros Hl; csimpl; [done|].
  rewrite omap_app, Hl by left. rewrite IH by (intros; apply Hl; by right).
  by destruct (h x).
Qed.

Lemma length_filter_impl {A} (P Q : A → Prop) `{∀ x, Decision (P x), ∀ x, Decision (Q x)}
    (l : list A) :
  (∀ x, P x → Q x) → (length (filter P l) ≤ length (filter Q l))%nat.
Proof.
  intros HPQ. induction l as [|x l IH]; [done|].
  rewrite !filter_cons. destruct (decide (P x)) as [HP|HP].
  - rewrite decide_True by auto. simpl. lia.
  - destruct (decide (Q x)); simpl; lia.
Qed.



(** X3. [extract_curve_data] reports a file that lacks a required column
    and goes on: the run always completes, and its missing-column warnings
    are, in the order of the walk, one for each [.csv] file that was read,
    was not empty and lacks one of [Basis], [Type] and [Curve_Date] after
    the column names are stripped, each listing the missing names in that
    order. *)
Theorem extract_curve_data_missing_columns `{PandasText} year target_curves
    target_strikes month walk w :
  ∃ w' new,
    CurveFilter.extract_curve_data year target_curves target_strikes month walk w
    = (Ok tt, w')
    ∧ trace w' = trace w ++ new
    ∧ missing_reports new
      = omap (λ p : string * File,
                if Py.endswith (fname p.2) ".csv" then
                  match Retained.curve_loaded p.2 with
                  | Some df =>
                      match missing_columns df with
                      | [] => None
                      | _ :: _ => Some (missing_columns df, Py.path_join p.1 (fname p.2))
                      end
                  | None => None
                  end
                else None) (paths_of walk).
Proof.
  destruct (extract_curve_data_exact year target_curves target_strikes month walk w)
    as (pre & post & Hrun & Hpre & Hpost).
  eexists _, _. split; [exact Hrun|]. cbn [trace]. split; [reflexivity|].
  rewrite !missing_reports_app, (missing_reports_notices pre Hpre). simpl.
  rewrite (missing_reports_notices post Hpost), app_nil_r.
  apply omap_bind_option. intros [root f] _.
  unfold curve_events, Retained.curve_loaded. simpl.
  destruct (Py.endswith _ _); [|done].
  destruct (fsize f) as [sz|e]; [|done].
  destruct (decide (sz < 10)%nat); [done|]. simpl.
  destruct (fparse f utf_8 bad_skip) as [df|e]; [|done].
  destruct (Pd.empty df); [done|]. by destruct (missing_columns df).
Qed.

(** ** Sorting *)

Section sort_unique.
Context {A : Type} (le : A → A → bool).
Hypothesis le_total : ∀ a b, le a b = true ∨ le b a = true.
Hypothesis le_trans : ∀ a b c, le a b = true → le b c = true → le a c = true.

Let R (a b : A) : Prop := le a b = true.

Lemma insert_by_sorted x l :
  StronglySorted R l → StronglySorted R (Py.insert_by le x l).
Proof.
  induction 1 as [|y l Hl IH Hy]; simpl.
  - repeat constructor.
  - destruct (le x y) eqn:Hxy.
    + constructor; [by constructor|]. constructor; [done|].
      eapply Forall_impl; [exact Hy|]. intros z Hz. by apply (le_trans x y z).
    + constructor; [done|].
      rewrite (insert_by_Permutation le x l). constructor; [|done].
      destruct (le_total x y) as [Hc|Hc]; [congruence|done].
Qed.

Lemma sort_by_sorted l : StronglySorted R (Py.sort_by le l).
Proof.
  induction l as [|x l IH]; simpl; [constructor|]. by apply insert_by_sorted.
Qed.

Lemma filter_sorted (P : A → Prop) `{∀ x, Decision (P x)} l :
  StronglySorted R l → StronglySorted R (filter P l).
Proof.
  induction 1 as [|y l Hl IH Hy]; [constructor|].
  rewrite filter_cons. destruct (decide (P y)); [|done].
  constructor; [done|]. rewrite Forall_forall in Hy. apply Forall_forall.
  intros z [_ Hz]%list_elem_of_filter. by apply Hy.
Qed.

Hypothesis le_antisym : ∀ a b, le a b = true → le b a = true → a = b.

(** The sorted list keeps nothing of the order of its input. *)
Lemma filter_sort_by_perm (P : A → Prop) `{∀ x, Decision (P x)} l1 l2 :
  filter P l1 ≡ₚ filter P l2 →
  filter P (Py.sort_by le l1) = filter P (Py.sort_by le l2).
Proof.
  intros Hp. apply (StronglySorted_unique_strong R).
  - intros x y _ _. apply le_antisym.
  - apply filter_sorted, sort_by_sorted.
  - apply filter_sorted, sort_by_sorted.
  - by rewrite !sort_by_Permutation.
Qed.

End sort_unique.

Lemma string_leb_trans (a b c : string) :
  String.leb a b = true → String.leb b c = true → String.leb a c = true.
Proof.
  unfold String.leb.
  assert (Hgen : ∀ a b c, String.compare a b ≠ Gt → String.compare b c ≠ Gt →
                          String.compare a c ≠ Gt).
  { clear. induction a as [|x a IH]; intros [|y b] [|z c]; simpl; try done.
    destruct (Ascii.compare x y) eqn:Hxy; [| |done].
    - apply Ascii.compare_eq_iff in Hxy as ->.
      destruct (Ascii.compare y z); [apply IH|done|done].
    - destruct (Ascii.compare y z) eqn:Hyz; [| |done].
      + apply Ascii.compare_eq_iff in Hyz as <-. by rewrite Hxy.
      + intros _ _. unfold Ascii.compare in *.
        rewrite N.compare_lt_iff in Hxy, Hyz.
        assert (Hxz : (N_of_ascii x < N_of_ascii z)%N) by lia.
        apply N.compare_lt_iff in Hxz. by rewrite Hxz. }
  intros Hab Hbc. specialize (Hgen a b c).
  destruct (String.compare a b); [| |done];
    (destruct (String.compare b c); [| |done]);
    (destruct (String.compare a c); [done|done|]); by destruct Hgen.
Qed.

(** Two folders with the same monthly files are read alike by the yearly
    combination. *)
Lemma sorted_names_perm (P : string → Prop) `{∀ x, Decision (P x)} (l1 l2 : list string) :
  filter P l1 ≡ₚ filter P l2 → filter P (Py.sorted l1) = filter P (Py.sorted l2).
Proof.
  apply filter_sort_by_perm.
  - apply String.leb_total.
  - apply string_leb_trans.
  - apply String.leb_antisym.
Qed.

(** ** The output folder of [extract_curve_data] *)

Lemma string_app_inv_head (a b c : string) : a +:+ b = a +:+ c → b = c.
Proof.
  induction a as [|x a IH]; [done|].
  change (String x (a +:+ b) = String x (a +:+ c) → b = c).
  intros [= Heq]. by apply IH.
Qed.

Lemma with_months_lookup_in fd o kv :
  NoDup fd.*1 → kv ∈ fd → with_months o fd !! (kv.1 +:+ ".csv") = Some (concat kv.2).
Proof.
  intros Hn Hkv.
  apply (foldl_insert_in (λ kv, kv.1 +:+ ".csv") (λ kv, concat kv.2) fd o kv); [|done].
  by apply csv_names_NoDup.
Qed.

Lemma with_months_lookup_notin (fd : list (string * list DataFrame)) o n :
  n ∉ (λ k, k +:+ ".csv") <$> fd.*1 → with_months o fd !! n = o !! n.
Proof.
  intros Hn.
  apply (foldl_insert_notin (λ kv, kv.1 +:+ ".csv") (λ kv, concat kv.2) fd o n).
  by rewrite <- list_fmap_compose in Hn.
Qed.

Lemma with_months_idem fd o :
  NoDup fd.*1 → with_months (with_months o fd) fd = with_months o fd.
Proof.
  intros Hn. apply map_eq. intros n.
  destruct (decide (n ∈ (λ k, k +:+ ".csv") <$> fd.*1)) as [Hin|Hout].
  - rewrite <- list_fmap_compose in Hin.
    apply list_elem_of_fmap in Hin as (kv & -> & Hkv).
    change ((λ k, k +:+ ".csv") ∘ fst) with (λ kv : string * list DataFrame, kv.1 +:+ ".csv").
    simpl. by rewrite !with_months_lookup_in.
  - by rewrite !with_months_lookup_notin.
Qed.

Lemma with_months_insert fd o c d :
  NoDup fd.*1 → c ∉ (λ k, k +:+ ".csv") <$> fd.*1 →
  with_months (<[c := d]> o) fd = <[c := d]> (with_months o fd).
Proof.
  intros Hn Hc. apply map_eq. intros n.
  destruct (decide (n ∈ (λ k, k +:+ ".csv") <$> fd.*1)) as [Hin|Hout].
  - rewrite lookup_insert_ne by (by intros ->).
    rewrite <- list_fmap_compose in Hin.
    apply list_elem_of_fmap in Hin as (kv & -> & Hkv). simpl.
    by rewrite !with_months_lookup_in.
  - rewrite with_months_lookup_notin by done.
    destruct (decide (c = n)) as [->|Hne].
    + by rewrite !lookup_insert_eq.
    + rewrite !lookup_insert_ne by done. by rewrite with_months_lookup_notin.
Qed.

Lemma with_combined_lookup_ne year o n :
  n ≠ year +:+ "_combined.csv" → with_combined year o !! n = o !! n.
Proof.
  intros Hn. unfold with_combined. destruct (omap _ _); [done|].
  by rewrite lookup_insert_ne.
Qed.

Lemma elem_of_monthly_names o n :
  n ∈ monthly_names o → CurveFilter.is_monthly_name n = true.
Proof. by intros [? _]%list_elem_of_filter. Qed.

Lemma keys_insert_perm (o : gmap string DataFrame) c d :
  (map_to_list (<[c := d]> o)).*1 ≡ₚ c :: (map_to_list (delete c o)).*1.
Proof.
  rewrite <- insert_delete_eq.
  rewrite map_to_list_insert by apply lookup_delete_eq. done.
Qed.

Lemma keys_perm (o : gmap string DataFrame) c :
  ∃ l, (map_to_list o).*1 ≡ₚ l ++ (map_to_list (delete c o)).*1 ∧ (∀ x, x ∈ l → x = c).
Proof.
  destruct (o !! c) as [d|] eqn:Hc.
  - exists [c]. split.
    + rewrite <- (map_to_list_delete o c d Hc). done.
    + by intros x ->%list_elem_of_singleton.
  - exists []. split.
    + by rewrite delete_id.
    + by intros x ?%elem_of_nil.
Qed.

Lemma monthly_names_insert o c d :
  CurveFilter.is_monthly_name c = false →
  monthly_names (<[c := d]> o) = monthly_names o.
Proof.
  intros Hc. unfold monthly_names. apply sorted_names_perm.
  rewrite keys_insert_perm. destruct (keys_perm o c) as (l & -> & Hl).
  rewrite filter_cons, decide_False by (by rewrite Hc).
  rewrite filter_app.
  assert (filter (λ f, CurveFilter.is_monthly_name f = true) l = []) as ->; [|done].
  induction l as [|x l IH]; [done|].
  rewrite filter_cons. rewrite (Hl x) by left.
  rewrite decide_False by (by rewrite Hc). apply IH. intros; apply Hl; by right.
Qed.

Lemma with_combined_idem year o :
  CurveFilter.is_monthly_name (year +:+ "_combined.csv") = false →
  with_combined year (with_combined year o) = with_combined year o.
Proof.
  intros Hc. unfold with_combined at 2.
  destruct (omap _ (monthly_names o)) as [|d ds] eqn:Hall.
  - unfold with_combined. by rewrite Hall.
  - unfold with_combined. rewrite monthly_names_insert by done.
    assert (Hsame : omap (λ n, <[year +:+ "_combined.csv" := concat (d :: ds)]> o !! n)
                      (monthly_names o)
                    = omap (λ n, o !! n) (monthly_names o)).
    { pose proof (elem_of_monthly_names o) as Hm. revert Hm.
      generalize (monthly_names o). intros l Hm.
      induction l as [|n l IH]; [done|]. csimpl.
      rewrite lookup_insert_ne.
      2:{ intros <-. specialize (Hm _ (list_elem_of_here _ _)). congruence. }
      rewrite IH by (intros; apply Hm; by right). done. }
    rewrite Hsame, Hall. by rewrite insert_insert_eq.
Qed.

Lemma year_combined_not_monthly (year : string) :
  String.length year = 4%nat →
  CurveFilter.is_monthly_name (year +:+ "_combined.csv") = false.
Proof.
  destruct year as [|a [|b [|c [|d [|e ?]]]]]; try done. intros _.
  unfold CurveFilter.is_monthly_name. apply andb_false_intro2.
  change (Py.is_digit a && Py.is_digit b && Py.is_digit c && Py.is_digit d
          && false && Py.is_digit "c" && Py.is_digit "o"
          && String.prefix ".csv" "mbined.csv" = false).
  by rewrite andb_false_r.
Qed.

Section curve_dict_facts.
Context `{PandasText}.
Variables (year : string) (target_curves target_strikes : list string).
Variable month : option string.

Let fd (walk : list (string * list File)) :=
  curve_dict year target_curves target_strikes month walk.
Let retained (walk : list (string * list File)) : list (gmap string cell) :=
  files_of walk ≫= λ f, Retained.rows_of
    (Retained.curve_frame year target_curves target_strikes month f).

Lemma curve_dict_spec walk :
  NoDup (fd walk).*1 ∧ keys_covered (fd walk)
  ∧ placements (fd walk) ≡ₚ (λ r, (bucket_of r, r)) <$> retained walk.
Proof.
  destruct (curve_scan_spec year target_curves target_strikes month walk
              {| trace := []; outdir := ∅; saved := [] |})
    as (acc & w' & Hs & _ & Hn & Hc & Hp).
  rewrite curve_scan_exact in Hs. injection Hs as <- _.
  split_and!; [done|done|]. unfold retained. by rewrite <- bind_fmap_rows.
Qed.

Lemma curve_dict_grouped walk : grouped_by_date (fd walk) (retained walk).
Proof.
  destruct (curve_dict_spec walk) as (Hn & Hc & Hp).
  apply grouped_by_date_intro; [done|done|].
  intros r Hr. by apply (retained_year year target_curves target_strikes month walk r).
Qed.

Lemma curve_dict_key walk k :
  k ∈ (fd walk).*1 →
  ∃ t, k = bucket_key (ts_year t) (ts_month t) ∧ Py.str_nat (ts_year t) = year.
Proof.
  destruct (curve_dict_spec walk) as (Hn & Hc & Hp).
  by apply (key_of_year year target_curves target_strikes month walk).
Qed.

Lemma curve_dict_name_monthly walk k :
  k ∈ (fd walk).*1 → CurveFilter.is_monthly_name (k +:+ ".csv") = true.
Proof. intros (t & -> & _)%curve_dict_key. apply bucket_name_monthly. Qed.

Lemma curve_dict_name_not_combined walk k :
  k ∈ (fd walk).*1 → k +:+ ".csv" ≠ year +:+ "_combined.csv".
Proof.
  intros (t & -> & Hy)%curve_dict_key. unfold bucket_key. rewrite Hy.
  rewrite string_app_assoc. intros Heq%string_app_inv_head. discriminate Heq.
Qed.

(** With a month filter every key of the dictionary is the year and that
    month. *)
Lemma curve_dict_key_month walk m k :
  month = Some m → m ≠ "" → k ∈ (fd walk).*1 →
  k = year +:+ "-" +:+ m ∧ String.length m = 2%nat.
Proof.
  intros Hm Hne Hk. destruct (curve_dict_spec walk) as (Hn & Hc & Hp).
  destruct (Hc k Hk) as [r Hr]. rewrite Hp in Hr.
  apply list_elem_of_fmap in Hr as (r' & [= -> ->] & Hr').
  destruct (retained_year year target_curves target_strikes month walk r' Hr')
    as [(t & Hd & Hy & Hmo) Hyear].
  unfold retained in Hr'. apply list_elem_of_bind in Hr' as (f & Hr' & _).
  destruct (Retained.curve_frame year target_curves target_strikes month f)
    as [d|] eqn:Hf; simpl in Hr'; [|by apply elem_of_nil in Hr'].
  destruct (curve_frame_dated year target_curves target_strikes month f d Hf)
    as [_ Hfit].
  specialize (Hfit m r' Hm). rewrite Hm in Hfit.
  rewrite (Hfit (truthy_nonempty m Hne) Hr') in Hmo. injection Hmo as ->.
  rewrite Hy in Hyear. injection Hyear as <-.
  unfold bucket_of. rewrite Hd. split; [done|].
  apply fmt_02d_length. destruct (timestamp_ranges t) as (_ & ? & _). lia.
Qed.

End curve_dict_facts.

(** X4. At the end of a run of [extract_curve_data] the output folder holds
    one file per year-month key of the run, named [YYYY-MM.csv] after a date
    of the requested year and holding exactly the rows grouped under the
    key; two keys never share a file, the yearly combination overwrites
    none of them, and every other file of the folder, the combined file
    apart, is as it was. *)
Theorem extract_curve_data_monthly_files `{PandasText} year target_curves target_strikes
    month walk w :
  ∃ fd w',
    CurveFilter.extract_curve_data year target_curves target_strikes month walk w
    = (Ok tt, w')
    ∧ grouped_by_date fd
        (files_of walk ≫= λ f, Retained.rows_of
           (Retained.curve_frame year target_curves target_strikes month f))
    ∧ (∀ k gs, (k, gs) ∈ fd →
         (∃ t, k = bucket_key (ts_year t) (ts_month t) ∧ Py.str_nat (ts_year t) = year)
         ∧ ∃ df, outdir w' !! (k +:+ ".csv") = Some df ∧ rows df = gs ≫= rows)
    ∧ (∀ k k', k +:+ ".csv" = k' +:+ ".csv" → k = k')
    ∧ (∀ n, n ∉ (λ k, k +:+ ".csv") <$> fd.*1 → n ≠ year +:+ "_combined.csv" →
            outdir w' !! n = outdir w !! n)
    ∧ saved w' = saved w.
Proof.
  destruct (extract_curve_data_exact year target_curves target_strikes month walk w)
    as (pre & post & Hrun & _ & _).
  set (fd := curve_dict year target_curves target_strikes month walk) in *.
  destruct (curve_dict_spec year target_curves target_strikes month walk) as (Hn & _ & _).
  eexists fd, _. split; [exact Hrun|]. cbn [outdir saved].
  split_and!; [apply curve_dict_grouped| |apply csv_name_inj| |done].
  - intros k gs Hk.
    assert (Hk' : k ∈ fd.*1) by (apply list_elem_of_fmap; by exists (k, gs)).
    split; [by apply (curve_dict_key year target_curves target_strikes month walk)|].
    exists (concat gs). split.
    + rewrite with_combined_lookup_ne
        by (by apply (curve_dict_name_not_combined year target_curves target_strikes
                        month walk)).
      by apply (with_months_lookup_in fd (outdir w) (k, gs)).
    + unfold concat; simpl. clear. induction gs as [|g gs IH]; csimpl; [done|].
      by rewrite IH.
  - intros n Hn' Hc. rewrite with_combined_lookup_ne by done.
    by apply with_months_lookup_notin.
Qed.

(** X5. With a month filter [extract_curve_data] writes at most one monthly
    file, [{year}-{month}.csv]: every other file of the output folder, the
    combined file apart, is left as it was.  The month is compared with the
    two-digit month of the row dates, so a month that is not written with
    two characters selects nothing and no monthly file is written at all. *)
Theorem extract_curve_data_month_filter `{PandasText} year target_curves target_strikes
    (m : string) walk w :
  m ≠ "" →
  ∃ w',
    CurveFilter.extract_curve_data year target_curves target_strikes (Some m) walk w
    = (Ok tt, w')
    ∧ (∀ n, n ≠ (year +:+ "-" +:+ m) +:+ ".csv" → n ≠ year +:+ "_combined.csv" →
            outdir w' !! n = outdir w !! n)
    ∧ (String.length m ≠ 2%nat →
       ∀ n, n ≠ year +:+ "_combined.csv" → outdir w' !! n = outdir w !! n).
Proof.
  intros Hm.
  destruct (extract_curve_data_exact year target_curves target_strikes (Some m) walk w)
    as (pre & post & Hrun & _ & _).
  set (fd := curve_dict year target_curves target_strikes (Some m) walk) in *.
  pose proof (curve_dict_key_month year target_curves target_strikes (Some m) walk m)
    as Hkey. fold fd in Hkey.
  eexists. split; [exact Hrun|]. cbn [outdir]. split.
  - intros n Hn Hc. rewrite with_combined_lookup_ne by done.
    apply with_months_lookup_notin.
    intros (k & -> & Hk)%list_elem_of_fmap.
    destruct (Hkey k eq_refl Hm Hk) as [-> _]. done.
  - intros Hlen n Hc. rewrite with_combined_lookup_ne by done.
    apply with_months_lookup_notin.
    intros (k & -> & Hk)%list_elem_of_fmap.
    destruct (Hkey k eq_refl Hm Hk) as [_ Hl]. done.
Qed.

Section month_filter_sample.
#[local] Existing Instance Sample.iso_text.

Lemma extract_curve_data_month_filter_witness :
  ∃ w',
    CurveFilter.extract_curve_data "2024" ["NYMEX"] Sample.strikes (Some "1")
      [("in", [Sample.january; Sample.mixed])] Sample.fresh
    = (Ok tt, w')
    ∧ (∀ n, n ≠ ("2024" +:+ "-" +:+ "1") +:+ ".csv" → n ≠ "2024" +:+ "_combined.csv" →
            outdir w' !! n = outdir Sample.fresh !! n)
    ∧ (String.length "1" ≠ 2%nat →
       ∀ n, n ≠ "2024" +:+ "_combined.csv" → outdir w' !! n = outdir Sample.fresh !! n).
Proof.
  apply (extract_curve_data_month_filter "2024" ["NYMEX"] Sample.strikes "1"
           [("in", [Sample.january; Sample.mixed])] Sample.fresh).
  discriminate.
Defined.

End month_filter_sample.

(** X6. [extract_curve_data] matches curves and strikes without regard to
    case: two runs whose target curves, and whose target strikes, are equal
    once put in upper case leave the same output folder. *)
Theorem extract_curve_data_ignores_case `{PandasText} year target_curves target_curves'
    target_strikes target_strikes' month walk w :
  Py.upper <$> target_curves' = Py.upper <$> target_curves →
  Py.upper <$> target_strikes' = Py.upper <$> target_strikes →
  ∃ w1 w2,
    CurveFilter.extract_curve_data year target_curves target_strikes month walk w
    = (Ok tt, w1)
    ∧ CurveFilter.extract_curve_data year target_curves' target_strikes' month walk w
      = (Ok tt, w2)
    ∧ outdir w1 = outdir w2.
Proof.
  intros Hc Hs.
  destruct (extract_curve_data_exact year target_curves target_strikes month walk w)
    as (pre & post & Hrun & _ & _).
  destruct (extract_curve_data_exact year target_curves' target_strikes' month walk w)
    as (pre' & post' & Hrun' & _ & _).
  eexists _, _. split; [exact Hrun|]. split; [exact Hrun'|]. cbn [outdir].
  do 2 f_equal.
  unfold curve_dict, Retained.curve_frame, CurveFilter.df_filtered, CurveFilter.mask,
    CurveFilter.isin_upper.
  by rewrite Hc, Hs.
Qed.

Section case_sample.
#[local] Existing Instance Sample.iso_text.

Lemma extract_curve_data_ignores_case_witness :
  ∃ w1 w2,
    CurveFilter.extract_curve_data "2024" ["NYMEX"] Sample.strikes None
      [("in", [Sample.january; Sample.mixed])] Sample.fresh
    = (Ok tt, w1)
    ∧ CurveFilter.extract_curve_data "2024" ["Nymex"] ["atm"; "Atm + $0.25"] None
        [("in", [Sample.january; Sample.mixed])] Sample.fresh
      = (Ok tt, w2)
    ∧ outdir w1 = outdir w2.
Proof.
  apply (extract_curve_data_ignores_case "2024" ["NYMEX"] ["Nymex"] Sample.strikes
           ["atm"; "Atm + $0.25"] None [("in", [Sample.january; Sample.mixed])]
           Sample.fresh);
    vm_compute; reflexivity.
Defined.

End case_sample.

(** X7. Running [extract_curve_data] again on the same input into the same
    output folder changes nothing there: the monthly files are rewritten
    with the same rows and the combined file, whose name is not a monthly
    one for a four-character year, is not read back into itself. *)
Theorem extract_curve_data_rerun `{PandasText} year target_curves target_strikes month
    walk w :
  String.length year = 4%nat →
  ∃ w1 w2,
    CurveFilter.extract_curve_data year target_curves target_strikes month walk w
    = (Ok tt, w1)
    ∧ CurveFilter.extract_curve_data year target_curves target_strikes month walk w1
      = (Ok tt, w2)
    ∧ outdir w2 = outdir w1.
Proof.
  intros Hyear%year_combined_not_monthly.
  destruct (extract_curve_data_exact year target_curves target_strikes month walk w)
    as (pre & post & Hrun & _ & _).
  match type of Hrun with _ = (_, ?w1) =>
    destruct (extract_curve_data_exact year target_curves target_strikes month walk w1)
      as (pre' & post' & Hrun' & _ & _)
  end.
  eexists _, _. split; [exact Hrun|].
  split; [exact Hrun'|]. cbn [outdir].
  set (fd := curve_dict year target_curves target_strikes month walk).
  destruct (curve_dict_spec year target_curves target_strikes month walk) as (Hn & _ & _).
  fold fd in Hn.
  assert (Hw : with_months (with_combined year (with_months (outdir w) fd)) fd
               = with_combined year (with_months (outdir w) fd)).
  { unfold with_combined. destruct (omap _ _) as [|d ds].
    - by apply with_months_idem.
    - rewrite with_months_insert, with_months_idem; [done|done|done|].
      intros (k & Heq & Hk)%list_elem_of_fmap.
      pose proof (curve_dict_name_monthly year target_curves target_strikes month walk k Hk)
        as Hmon.
      rewrite <- Heq in Hmon. congruence. }
  rewrite Hw. by apply with_combined_idem.
Qed.

Section rerun_sample.
#[local] Existing Instance Sample.iso_text.

Lemma extract_curve_data_rerun_witness :
  ∃ w1 w2,
    CurveFilter.extract_curve_data "2024" ["NYMEX"] Sample.strikes None
      [("in", [Sample.january; Sample.mixed])] Sample.stale
    = (Ok tt, w1)
    ∧ CurveFilter.extract_curve_data "2024" ["NYMEX"] Sample.strikes None
        [("in", [Sample.january; Sample.mixed])] w1
      = (Ok tt, w2)
    ∧ outdir w2 = outdir w1.
Proof.
  apply (extract_curve_data_rerun "2024" ["NYMEX"] Sample.strikes None
           [("in", [Sample.january; Sample.mixed])] Sample.stale).
  reflexivity.
Defined.

End rerun_sample.

(** ** Loops *)

Section loops.
Context {A S : Type}.

Lemma for_each_ext (body body' : A → S → IO S) l s w :
  (∀ x s w, x ∈ l → body x s w = body' x s w) →
  for_each l body s w = for_each l body' s w.
Proof.
  revert s w. induction l as [|x l IH]; intros s w Hb; simpl; [done|].
  unfold bind. rewrite Hb by left.
  destruct (body' x s w) as [[s1|e] w1]; [|done].
  apply IH. intros. apply Hb. by right.
Qed.

(** A loop whose body raises on one of the elements raises. *)
Lemma for_each_raises (body : A → S → IO S) l x s w :
  x ∈ l →
  (∀ s w, ∃ e w', body x s w = (Raise e, w')) →
  ∃ e w', for_each l body s w = (Raise e, w').
Proof.
  intros Hx Hr. revert s w. induction l as [|y l IH]; intros s w.
  - by apply elem_of_nil in Hx.
  - simpl. unfold bind. destruct (body y s w) as [[s1|e] w1] eqn:Hy.
    + apply elem_of_cons in Hx as [->|Hx].
      * destruct (Hr s w) as (e & w' & He). congruence.
      * by apply IH.
    + by eauto.
Qed.

(** A loop changes the folder and the saved artifacts no more than its
    body does. *)
Lemma for_each_quiet (body : A → S → IO S) l s w r w' :
  (∀ x s w r w', body x s w = (r, w') → outdir w' = outdir w ∧ saved w' = saved w) →
  for_each l body s w = (r, w') → outdir w' = outdir w ∧ saved w' = saved w.
Proof.
  intros Hq. revert s w. induction l as [|x l IH]; intros s w; simpl.
  - unfold ret. by intros [= <- <-].
  - unfold bind. destruct (body x s w) as [[s1|e] w1] eqn:Hx.
    + intros Hl. apply Hq in Hx as [Ho Hs]. apply IH in Hl as [Ho' Hs'].
      split; congruence.
    + intros [= <- <-]. by apply Hq in Hx.
Qed.

End loops.

(** ** [filter_vol_data]: columns, dates and the yearly combination *)

Section vol_stage.
Context `{PandasText}.
Variables (year : string) (basis_filter : list string).
Variables (type_filter callput_filter month start_date end_date : option string).

Let step := VolExtractor.process_file year basis_filter type_filter callput_filter
               month start_date end_date.

Lemma vol_process_file_quiet root f fd w r w' :
  step root f fd w = (r, w') → outdir w' = outdir w ∧ saved w' = saved w.
Proof.
  unfold step, VolExtractor.process_file.
  destruct (Py.endswith (fname f) ".csv"); simpl.
  2:{ unfold ret. by intros [= <- <-]. }
  unfold VolExtractor.robust_read_csv, try_except, bind, read_csv, lift, print,
    emit, ret; simpl.
  destruct (fparse f utf_8_sig bad_error) as [df|e1]; simpl.
  - destruct (VolExtractor.getitem _ "Basis"); [|by intros [= <- <-]].
    destruct (VolExtractor.getitem _ "Type"); [|by intros [= <- <-]].
    destruct (VolExtractor.get_callput _); [|by intros [= <- <-]].
    destruct (has_column _ "Curve_Date"); simpl; [|by intros [= <- <-]].
    destruct (VolExtractor.date_mask _ _ _); by intros [= <- <-].
  - destruct (fparse f utf_16 bad_error) as [df|e2]; simpl; [|by intros [= <- <-]].
    destruct (VolExtractor.getitem _ "Basis"); [|by intros [= <- <-]].
    destruct (VolExtractor.getitem _ "Type"); [|by intros [= <- <-]].
    destruct (VolExtractor.get_callput _); [|by intros [= <- <-]].
    destruct (has_column _ "Curve_Date"); simpl; [|by intros [= <- <-]].
    destruct (VolExtractor.date_mask _ _ _); by intros [= <- <-].
Qed.

Lemma vol_scan_quiet walk w r w' :
  VolExtractor.scan year basis_filter type_filter callput_filter month
    start_date end_date walk w = (r, w') →
  outdir w' = outdir w ∧ saved w' = saved w.
Proof.
  unfold VolExtractor.scan. apply for_each_quiet.
  intros [root files] fd w0 r0 w0'. simpl. apply for_each_quiet.
  intros f. apply vol_process_file_quiet.
Qed.

(** The loop body raises on a file that was read and lacks one of the
    three text columns. *)
Lemma vol_missing_text_column_raises root f df c fd w :
  Py.endswith (fname f) ".csv" = true →
  Retained.vol_loaded f = Some df →
  c ∈ ["Basis"; "Type"; "Call/Put"] →
  has_column (rename_columns clean_label df) c = false →
  ∃ e w', step root f fd w = (Raise e, w').
Proof.
  intros Hcsv Hload Hc Hmiss. unfold step, VolExtractor.process_file.
  rewrite Hcsv. simpl.
  destruct (robust_read_csv_spec (Py.path_join root (fname f)) f w) as (w1 & Hr & Ho).
  unfold bind at 1. rewrite Hr, Hload.
  unfold bind, lift, VolExtractor.getitem, VolExtractor.get_callput.
  repeat (apply elem_of_cons in Hc as [->|Hc]); [| | |by apply elem_of_nil in Hc].
  - rewrite Hmiss. by eauto.
  - destruct (has_column _ "Basis"); [|by eauto]. rewrite Hmiss. by eauto.
  - destruct (has_column _ "Basis"); [|by eauto].
    destruct (has_column _ "Type"); [|by eauto]. rewrite Hmiss. by eauto.
Qed.

End vol_stage.

(** X8. [filter_vol_data] does not survive a file without one of its text
    columns: when any [.csv] file of the walk can be read and lacks
    [Basis], [Type] or [Call/Put] after the column names are cleaned, the
    stage ends with an exception, whatever the filters (a missing
    [Call/Put] column counts even when no call/put filter is asked for),
    and it has written nothing: the output folder is as it was. *)
Theorem filter_vol_data_needs_text_columns `{PandasText} year basis_filter type_filter
    callput_filter month start_date end_date walk w f df c :
  f ∈ files_of walk →
  Py.endswith (fname f) ".csv" = true →
  Retained.vol_loaded f = Some df →
  c ∈ ["Basis"; "Type"; "Call/Put"] →
  has_column (rename_columns clean_label df) c = false →
  ∃ e w',
    VolExtractor.filter_vol_data year basis_filter type_filter callput_filter month
      start_date end_date walk w = (Raise e, w')
    ∧ outdir w' = outdir w ∧ saved w' = saved w.
Proof.
  intros Hf Hcsv Hload Hc Hmiss.
  assert (Hscan : ∃ e w',
    VolExtractor.scan year basis_filter type_filter callput_filter month
      start_date end_date walk w = (Raise e, w')).
  { unfold VolExtractor.scan. unfold files_of in Hf.
    apply list_elem_of_bind in Hf as ([root files] & Hf & Hdir). simpl in Hf.
    apply (for_each_raises _ walk (root, files)); [done|].
    intros fd0 w0. simpl. apply (for_each_raises _ files f); [done|].
    intros fd1 w1.
    by apply (vol_missing_text_column_raises year basis_filter type_filter
                callput_filter month start_date end_date root f df c). }
  destruct Hscan as (e & w' & Hscan). exists e, w'.
  unfold VolExtractor.filter_vol_data, bind. rewrite Hscan. split; [done|].
  by apply vol_scan_quiet in Hscan.
Qed.

Section text_columns_sample.
#[local] Existing Instance Sample.iso_text.

Lemma filter_vol_data_needs_text_columns_witness :
  ∃ e w',
    VolExtractor.filter_vol_data "2024" ["NYMEX"] None None None None None
      [("in", [Sample.january; Sample.surface_file])] Sample.fresh = (Raise e, w')
    ∧ outdir w' = outdir Sample.fresh ∧ saved w' = saved Sample.fresh.
Proof.
  apply (filter_vol_data_needs_text_columns "2024" ["NYMEX"] None None None None None
           [("in", [Sample.january; Sample.surface_file])] Sample.fresh
           Sample.surface_file Sample.surface_table "Call/Put").
  - change (Sample.surface_file ∈ [Sample.january; Sample.surface_file]).
    right. left.
  - vm_compute. reflexivity.
  - vm_compute. reflexivity.
  - apply (bool_decide_unpack _). vm_compute. exact I.
  - vm_compute. reflexivity.
Defined.

End text_columns_sample.

(** X9. When both a start and an end date are given, the [year] argument
    of [filter_vol_data] plays no part in the selection of rows: the scan of
    the input gives the same dictionary, prints the same and fails the same
    for any two years. *)
Theorem filter_vol_data_range_overrides_year `{PandasText} year year' basis_filter
    type_filter callput_filter month (s e : string) walk w :
  s ≠ "" → e ≠ "" →
  VolExtractor.scan year basis_filter type_filter callput_filter month
    (Some s) (Some e) walk w
  = VolExtractor.scan year' basis_filter type_filter callput_filter month
      (Some s) (Some e) walk w.
Proof.
  intros Hs He.
  assert (Hdm : VolExtractor.date_mask year (Some s) (Some e)
                = VolExtractor.date_mask year' (Some s) (Some e)).
  { unfold VolExtractor.date_mask.
    by rewrite (truthy_nonempty s Hs), (truthy_nonempty e He). }
  unfold VolExtractor.scan. apply for_each_ext. intros [root files] fd0 w0 _. simpl.
  apply for_each_ext. intros f fd1 w1 _.
  unfold VolExtractor.process_file. by rewrite Hdm.
Qed.

Section range_sample.
#[local] Existing Instance Sample.iso_text.

Lemma filter_vol_data_range_overrides_year_witness :
  VolExtractor.scan "2024" ["NYMEX"] None None None
    (Some "2023-01-01") (Some "2024-12-31") [("in", [Sample.februaries])] Sample.fresh
  = VolExtractor.scan "1999" ["NYMEX"] None None None
      (Some "2023-01-01") (Some "2024-12-31") [("in", [Sample.februaries])] Sample.fresh.
Proof.
  apply (filter_vol_data_range_overrides_year "2024" "1999" ["NYMEX"] None None None
           "2023-01-01" "2024-12-31" [("in", [Sample.februaries])] Sample.fresh);
    discriminate.
Defined.

End range_sample.

Lemma substring_app_skip (a b : string) i k :
  String.substring (String.length a + i) k (a +:+ b) = String.substring i k b.
Proof. induction a as [|x a IH]; [done|]. simpl. exact IH. Qed.

(** A suffix no longer than the second part of a name is looked for in that
    part alone. *)
Lemma endswith_app (a b s : string) :
  (String.length s ≤ String.length b)%nat → Py.endswith (a +:+ b) s = Py.endswith b s.
Proof.
  intros Hle. unfold Py.endswith. rewrite string_length_app.
  rewrite !decide_True by lia.
  replace (String.length a + String.length b - String.length s)%nat
    with (String.length a + (String.length b - String.length s))%nat by lia.
  by rewrite substring_app_skip.
Qed.

Lemma map_io_robust_read_back names w :
  (∀ n, n ∈ names → is_Some (outdir w !! n)) →
  map_io VolExtractor.robust_read_back names w
  = (Ok ((λ n, outdir w !! n) <$> names), w).
Proof.
  induction names as [|n names IH]; intros Hin; simpl; [done|].
  unfold bind at 1. unfold VolExtractor.robust_read_back at 1.
  unfold try_except, bind at 1, read_back at 1.
  destruct (Hin n) as [d Hd]; [left|]. rewrite Hd. unfold ret at 1.
  unfold bind. rewrite IH by (intros; apply Hin; by right). done.
Qed.

Lemma omap_id_fmap {A B} (f : A → option B) (l : list A) : omap id (f <$> l) = omap f l.
Proof. induction l as [|x l IH]; csimpl; [done|]. rewrite IH. by destruct (f x). Qed.

Lemma vol_combine_year_spec year basis_filter w :
  ∃ w', VolExtractor.combine_year year basis_filter w = (Ok tt, w')
        ∧ saved w' = saved w
        ∧ match filter (λ nd : string * DataFrame,
                          Py.endswith nd.1 "_ewma_hist.csv" = true)
                  (map_to_list (outdir w)) with
          | [] => outdir w' = outdir w
          | _ :: _ =>
              ∃ df, outdir w'
                    = <[VolExtractor.combined_name year basis_filter := df]> (outdir w)
                    ∧ rows df ≡ₚ all_rows
                         (filter (λ nd : string * DataFrame,
                                    Py.endswith nd.1 "_ewma_hist.csv" = true)
                            (map_to_list (outdir w)))
          end.
Proof.
  unfold VolExtractor.combine_year. unfold bind at 1. unfold sorted_listdir at 1.
  set (names := filter (λ f, Py.endswith f "_ewma_hist.csv" = true)
                  (Py.sorted (map_to_list (outdir w)).*1)).
  assert (Hin : ∀ n, n ∈ names → is_Some (outdir w !! n)).
  { intros n [_ Hn]%list_elem_of_filter. unfold Py.sorted in Hn.
    rewrite sort_by_Permutation in Hn.
    apply list_elem_of_fmap in Hn as ([n' d] & -> & Hnd).
    apply elem_of_map_to_list in Hnd. by eexists. }
  unfold bind at 1. rewrite (map_io_robust_read_back names w Hin), omap_id_fmap.
  set (inputs := filter (λ nd : string * DataFrame, Py.endswith nd.1 "_ewma_hist.csv" = true)
                   (map_to_list (outdir w))).
  assert (Hperm : omap (λ n, outdir w !! n) names ≡ₚ inputs.*2).
  { unfold names, Py.sorted. rewrite sort_by_Permutation. unfold inputs.
    rewrite (omap_lookup_filter (outdir w) (λ n, Py.endswith n "_ewma_hist.csv" = true));
      [done|].
    intros [n d] Hnd. by apply elem_of_map_to_list in Hnd. }
  destruct (omap _ names) as [|d ds] eqn:Hall.
  - exists w. split; [done|]. split; [done|].
    apply Permutation_nil_l in Hperm. symmetry in Hperm.
    apply fmap_nil_inv in Hperm. by rewrite Hperm.
  - unfold bind, to_csv, print, emit. simpl. eexists. split; [done|]. simpl.
    split; [done|].
    destruct inputs as [|nd l] eqn:Hm.
    + by apply Permutation_nil_r in Hperm.
    + eexists. split; [done|]. rewrite all_rows_snd.
      change (rows (concat (d :: ds))) with (mjoin (rows <$> (d :: ds))).
      by rewrite Hperm.
Qed.

(** X10. The yearly combination of [filter_vol_data] never raises and
    merges every file of the output folder whose name ends in
    [_ewma_hist.csv], whatever curve or earlier run wrote it: the combined
    file holds, as a multiset, the rows of all of them.  Its own name never
    ends that way, so a later run does not read it back; with no such file
    in the folder nothing is written. *)
Theorem filter_vol_data_combines_every_file year basis_filter w :
  let inputs := filter (λ nd : string * DataFrame, Py.endswith nd.1 "_ewma_hist.csv" = true)
                  (map_to_list (outdir w)) in
  Py.endswith (VolExtractor.combined_name year basis_filter) "_ewma_hist.csv" = false
  ∧ ∃ w', VolExtractor.combine_year year basis_filter w = (Ok tt, w')
          ∧ saved w' = saved w
          ∧ match inputs with
            | [] => outdir w' = outdir w
            | _ :: _ =>
                ∃ df, outdir w'
                      = <[VolExtractor.combined_name year basis_filter := df]> (outdir w)
                      ∧ rows df ≡ₚ all_rows inputs
            end.
Proof.
  intros inputs. split; [|subst inputs; apply vol_combine_year_spec].
  unfold VolExtractor.combined_name.
  rewrite !endswith_app; [done|rewrite ?string_length_app; simpl; lia..].
Qed.

Lemma for_each_inv {A S} (I : S → Prop) (body : A → S → IO S) l s w s' w' :
  (∀ x s w s' w', x ∈ l → body x s w = (Ok s', w') → I s → I s') →
  I s → for_each l body s w = (Ok s', w') → I s'.
Proof.
  revert s w. induction l as [|x l IH]; intros s w Hb Hs; simpl.
  - unfold ret. by intros [= <- <-].
  - unfold bind. destruct (body x s w) as [[s1|e] w1] eqn:Hx; [|done].
    apply IH.
    + intros y s0 w0 s0' w0' Hy. apply Hb. by right.
    + eapply Hb; [left|exact Hx|done].
Qed.

Lemma add_groups_no_rows month fd d :
  rows d = [] → CurveFilter.add_groups month fd d = fd.
Proof.
  intros Hd. unfold CurveFilter.add_groups, groupby_ym. by rewrite Hd.
Qed.

(** X11. With an empty [basis_filter] no row passes the mask of
    [filter_vol_data]: a run that returns has written no monthly file, and
    the only file it can have written is the combination of what the folder
    already held, under the curve name [UNKNOWN]. *)
Theorem filter_vol_data_empty_basis `{PandasText} year type_filter callput_filter month
    start_date end_date walk w w' :
  VolExtractor.filter_vol_data year [] type_filter callput_filter month
    start_date end_date walk w = (Ok tt, w') →
  ∀ n, n ≠ "UNKNOWN_" +:+ year +:+ "_ewma_hist_combined.csv" →
       outdir w' !! n = outdir w !! n.
Proof.
  unfold VolExtractor.filter_vol_data. unfold bind at 1.
  destruct (VolExtractor.scan _ _ _ _ _ _ _ walk w) as [[fd|e] w1] eqn:Hscan; [|done].
  assert (Hfd : fd = []).
  { unfold VolExtractor.scan in Hscan.
    eapply (for_each_inv (λ fd, fd = [])); [|reflexivity|exact Hscan].
    intros [root files] fd0 w0 fd0' w0' _ Hfiles Hfd0. simpl in Hfiles.
    eapply (for_each_inv (λ fd, fd = [])); [|exact Hfd0|exact Hfiles].
    intros f fd1 w2 fd1' w2' _ Hstep ->.
    apply vol_process_file_spec in Hstep as [_ ->].
    destruct (Retained.vol_frame _ _ _ _ _ _ _ f) as [d|] eqn:Hd; [|done].
    apply add_groups_no_rows.
    revert Hd. unfold Retained.vol_frame. destruct (Py.endswith _ _); [|done].
    destruct (Retained.vol_loaded f) as [df|]; [simpl|done].
    destruct (has_column _ _); [|done].
    destruct (VolExtractor.date_mask _ _ _) as [dm|]; [|done]. intros [= <-].
    unfold select. cbn [rows].
    induction (rows (VolExtractor.add_dates _)) as [|r rs IHr]; [done|].
    rewrite filter_cons, decide_False; [exact IHr|].
    unfold VolExtractor.mask, CurveFilter.isin_upper.
    destruct (at_ r "Basis"); simpl; done. }
  subst fd. unfold VolExtractor.write_months. simpl. unfold bind at 1, ret at 1.
  destruct (vol_combine_year_spec year [] w1) as (w2 & Hc & _ & Ho).
  rewrite Hc. intros [= <-] n Hn.
  apply vol_scan_quiet in Hscan as [Ho1 _].
  destruct (filter _ (map_to_list (outdir w1))).
  - by rewrite Ho, Ho1.
  - destruct Ho as (df & -> & _). rewrite lookup_insert_ne by (by intros <-).
    by rewrite Ho1.
Qed.

Section empty_basis_sample.
#[local] Existing Instance Sample.iso_text.

Lemma filter_vol_data_empty_basis_witness :
  ∃ w',
    VolExtractor.filter_vol_data "2024" [] None None None None None
      [("in", [Sample.january; Sample.mixed])] Sample.stale = (Ok tt, w')
    ∧ ∀ n, n ≠ "UNKNOWN_" +:+ "2024" +:+ "_ewma_hist_combined.csv" →
           outdir w' !! n = outdir Sample.stale !! n.
Proof.
  eexists. split; [vm_compute; reflexivity|].
  apply (filter_vol_data_empty_basis "2024" None None None None None
           [("in", [Sample.january; Sample.mixed])] Sample.stale).
  vm_compute. reflexivity.
Defined.

End empty_basis_sample.

(** ** [generate_vol_surfaces]: what can fail and what is saved *)

Section surface_run.
Context `{PandasText}.
Variables (target_curve : string) (target_month : option string).
Variables (date_range : option (list string)) (start_date end_date : option string).

(** What one file gives the loader: a table, nothing, or an exception. *)
Let outcome (f : File) : result (option DataFrame) :=
  if VolatilitySurface.included target_month (fname f) then
    match Retained.curve_loaded f with
    | Some df => VolatilitySurface.prepare df
    | None => Ok None
    end
  else Ok None.

Lemma surface_prepare_raises df e :
  VolatilitySurface.prepare df = Raise e → e = KeyError "Type" ∨ e = KeyError "Mid".
Proof.
  unfold VolatilitySurface.prepare, VolExtractor.getitem.
  destruct (has_column _ "Type"); [|intros [= <-]; by left].
  destruct (has_column _ "Mid"); [|intros [= <-]; by right].
  by destruct (with_date _).
Qed.

Lemma surface_frame_outcome f :
  Retained.surface_frame target_month f
  = match outcome f with Ok o => o | Raise _ => None end.
Proof.
  unfold Retained.surface_frame, outcome.
  destruct (VolatilitySurface.included _ _); [|done].
  by destruct (Retained.curve_loaded f).
Qed.

Lemma surface_load_file_exact data_folder f all_data w :
  ∃ w', VolatilitySurface.load_file target_month data_folder f all_data w
        = (match outcome f with
           | Ok o => Ok (all_data ++ option_list o)
           | Raise e => Raise e
           end, w')
        ∧ outdir w' = outdir w ∧ saved w' = saved w.
Proof.
  unfold VolatilitySurface.load_file, outcome.
  destruct (VolatilitySurface.included _ _).
  2:{ exists w. unfold ret. by rewrite app_nil_r. }
  destruct (read_input_spec (Py.path_join data_folder (fname f)) f w)
    as (w1 & Hr & Ho).
  assert (Hs : saved w1 = saved w).
  { revert Hr. unfold CurveFilter.read_input, try_except, bind, getsize, read_csv,
      lift, print, emit, ret. simpl.
    destruct (fsize f) as [sz|e]; simpl; [|by intros [= _ <-]].
    destruct (decide (sz < 10)%nat); simpl; [by intros [= _ <-]|].
    destruct (fparse f utf_8 bad_skip) as [df|e]; simpl; [|by intros [= _ <-]].
    destruct (Pd.empty df); by intros [= _ <-]. }
  change (VolatilitySurface.robust_read_csv (Py.path_join data_folder (fname f)) f)
    with (CurveFilter.read_input (Py.path_join data_folder (fname f)) f).
  unfold bind at 1. rewrite Hr.
  destruct (Retained.curve_loaded f) as [df|].
  - unfold bind, lift.
    destruct (VolatilitySurface.prepare df) as [[d|]|e]; simpl.
    + by exists w1.
    + unfold print, emit, ret. simpl. eexists. by rewrite app_nil_r.
    + by exists w1.
  - unfold bind, print, emit, ret. simpl. eexists. by rewrite app_nil_r.
Qed.

Lemma surface_load_exact data_folder listing w :
  ∃ r w',
    VolatilitySurface.load target_month data_folder listing w = (r, w')
    ∧ outdir w' = outdir w ∧ saved w' = saved w
    ∧ (r = Ok (omap (Retained.surface_frame target_month) listing)
       ∨ r = Raise (KeyError "Type") ∨ r = Raise (KeyError "Mid"))
    ∧ ((∃ f e, f ∈ listing ∧ outcome f = Raise e) → ∃ e, r = Raise e).
Proof.
  unfold VolatilitySurface.load.
  assert (Hgen : ∀ all_data w0,
    ∃ r w',
      for_each listing (VolatilitySurface.load_file target_month data_folder) all_data w0
      = (r, w')
      ∧ outdir w' = outdir w0 ∧ saved w' = saved w0
      ∧ (r = Ok (all_data ++ omap (Retained.surface_frame target_month) listing)
         ∨ r = Raise (KeyError "Type") ∨ r = Raise (KeyError "Mid"))
      ∧ ((∃ f e, f ∈ listing ∧ outcome f = Raise e) → ∃ e, r = Raise e)).
  { induction listing as [|f l IH]; intros all_data w0; simpl.
    - exists (Ok all_data), w0. unfold ret. rewrite app_nil_r.
      split_and!; [done|done|done|by left|].
      intros (f & e & Hf & _). by apply elem_of_nil in Hf.
    - destruct (surface_load_file_exact data_folder f all_data w0) as (w1 & Hl & Ho & Hs).
      unfold bind. rewrite Hl. rewrite (surface_frame_outcome f).
      destruct (outcome f) as [o|e] eqn:Hout.
      + destruct (IH (all_data ++ option_list o) w1) as (r & w2 & Hf & Ho2 & Hs2 & Hr & Hx).
        exists r, w2. rewrite Hf. split_and!; [done|congruence|congruence| |].
        * destruct Hr as [->|Hr]; [left|by right].
          rewrite <- (assoc_L (++)). by destruct o.
        * intros (f' & e & [->|Hf']%elem_of_cons & He); [congruence|].
          apply Hx. by exists f', e.
      + exists (Raise e), w1. split_and!; [done|done|done| |by eauto].
        right. unfold outcome in Hout.
        destruct (VolatilitySurface.included _ _); [|done].
        destruct (Retained.curve_loaded f) as [df|]; [|done].
        apply surface_prepare_raises in Hout as [->| ->]; [by left|by right]. }
  apply (Hgen [] w).
Qed.

Lemma emit_period_exact period tag df_all label w :
  VolatilitySurface.emit_period target_curve period tag df_all label w
  = (Ok tt, {| trace := trace w; outdir := outdir w;
               saved := saved w ++ period_artifacts target_curve period tag df_all label |}).
Proof.
  unfold VolatilitySurface.emit_period, period_artifacts.
  destruct (Pd.empty _).
  { unfold ret. rewrite app_nil_r. by destruct w. }
  destruct (matrix_empty _).
  { unfold ret. rewrite app_nil_r. by destruct w. }
  unfold bind, save. simpl. by rewrite <- (assoc_L (++)).
Qed.

Lemma emit_periods_exact period tag df_all w :
  VolatilitySurface.emit_periods target_curve period tag df_all w
  = if has_column df_all "Basis" then
      (Ok tt, {| trace := trace w; outdir := outdir w;
                 saved := saved w
                          ++ (VolatilitySurface.unique period df_all
                                ≫= period_artifacts target_curve period tag df_all) |})
    else (Raise (KeyError "Basis"), w).
Proof.
  unfold VolatilitySurface.emit_periods, bind at 1, lift, VolExtractor.getitem.
  destruct (has_column df_all "Basis"); [|done].
  generalize (VolatilitySurface.unique period df_all). intros labels.
  revert w. induction labels as [|l ls IH]; intros w; csimpl.
  - unfold ret. rewrite app_nil_r. by destruct w.
  - unfold bind. rewrite emit_period_exact, IH. simpl.
    by rewrite <- (assoc_L (++)).
Qed.

Lemma bounds_raises e :
  VolatilitySurface.bounds date_range start_date end_date = Raise e →
  ∃ s, e = ValueError s.
Proof.
  assert (Hparse : ∀ s0 e0 : string,
    match VolExtractor.to_datetime s0 with
    | Raise x => Raise x
    | Ok lo => match VolExtractor.to_datetime e0 with
               | Raise x => Raise x
               | Ok hi => Ok (Some (lo, hi))
               end
    end = Raise e → ∃ s, e = ValueError s).
  { intros s0 e0. unfold VolExtractor.to_datetime.
    destruct (parse_datetime s0); [|intros [= <-]; by eauto].
    destruct (parse_datetime e0); [done|intros [= <-]; by eauto]. }
  unfold VolatilitySurface.bounds.
  destruct date_range as [[|s0 [|e0 [|? ?]]]|];
    try (destruct start_date as [s1|], end_date as [e1|]; try done;
         destruct (_ && _); [apply Hparse|done]).
  apply Hparse.
Qed.

Lemma unique_nil c (df : DataFrame) : rows df = [] → VolatilitySurface.unique c df = [].
Proof. intros Hr. unfold VolatilitySurface.unique. by rewrite Hr. Qed.

Lemma unique_rows c (df : DataFrame) :
  VolatilitySurface.unique c df = [] → rows df = [].
Proof.
  unfold VolatilitySurface.unique. intros Hu.
  apply (f_equal reverse) in Hu. rewrite reverse_involutive in Hu. simpl in Hu.
  destruct (rows df) as [|r rs]; [done|]. exfalso.
  assert (Hin : at_ r c ∈ remove_dups (reverse ((λ r, at_ r c) <$> r :: rs))).
  { apply elem_of_remove_dups, elem_of_reverse. left. }
  rewrite Hu in Hin. by apply elem_of_nil in Hin.
Qed.

(** The whole run: the load, then either nothing to do, a bound that does
    not parse, a table without [Basis], or the artifacts of the two
    loops. *)
Lemma surfaces_run_spec data_folder listing w :
  ∃ r w',
    VolatilitySurface.generate_vol_surfaces target_curve target_month date_range
      start_date end_date data_folder listing w = (r, w')
    ∧ outdir w' = outdir w
    ∧ match r with
      | Raise e =>
          saved w' = saved w
          ∧ (e = KeyError "Type" ∨ e = KeyError "Mid" ∨ e = KeyError "Basis"
             ∨ ∃ s, e = ValueError s)
      | Ok _ =>
          match omap (Retained.surface_frame target_month) listing with
          | [] => saved w' = saved w
          | (_ :: _) as all_data =>
              ∃ b, VolatilitySurface.bounds date_range start_date end_date = Ok b
                   ∧ saved w' = saved w ++ surfaces_saved target_curve b all_data
          end
      end
    ∧ ((∃ f e, f ∈ listing
               ∧ (if VolatilitySurface.included target_month (fname f) then
                    match Retained.curve_loaded f with
                    | Some df => VolatilitySurface.prepare df
                    | None => Ok None
                    end
                  else Ok None) = Raise e) → ∃ e, r = Raise e).
Proof.
  unfold VolatilitySurface.generate_vol_surfaces.
  destruct (surface_load_exact data_folder listing w) as (r & w1 & Hl & Ho & Hs & Hr & Hx).
  unfold bind at 1. rewrite Hl.
  destruct Hr as [->|[-> | ->]].
  2:{ eexists _, _. split; [done|]. split_and!; [done|done|by auto|by eauto]. }
  2:{ eexists _, _. split; [done|]. split_and!; [done|done|by auto|by eauto]. }
  assert (Hnone : ¬ ∃ f e, f ∈ listing ∧ outcome f = Raise e).
  { intros Hex. by destruct (Hx Hex) as [e ?]. }
  destruct (omap _ listing) as [|d ds] eqn:Hall.
  { unfold print, emit. simpl. eexists _, _. split; [done|]. simpl.
    split_and!; [done|done|]. intros Hex. by destruct Hnone. }
  unfold bind at 1, lift.
  destruct (VolatilitySurface.bounds date_range start_date end_date) as [b|e] eqn:Hb.
  2:{ eexists _, _. split; [done|]. apply bounds_raises in Hb.
      split_and!; [done|done|by auto 6|]. intros Hex. by destruct Hnone. }
  fold (surface_rows b (d :: ds)).
  set (df_all := surface_rows b (d :: ds)).
  destruct (VolatilitySurface.unique "month" df_all) as [|m ms] eqn:Hm.
  { pose proof (unique_rows _ _ Hm) as Hrows.
    rewrite (unique_nil "year" df_all Hrows).
    unfold bind, ret, print, emit. simpl. eexists _, _. split; [done|]. simpl.
    split_and!; [done| |intros Hex; by destruct Hnone].
    exists b. split; [done|]. unfold surfaces_saved. fold df_all.
    rewrite Hm, (unique_nil "year" df_all Hrows). simpl. by rewrite app_nil_r. }
  unfold bind at 1. rewrite emit_periods_exact.
  destruct (has_column df_all "Basis") eqn:HB.
  2:{ eexists _, _. split; [done|]. split_and!; [done|done|by auto 6|].
      intros Hex. by destruct Hnone. }
  destruct (VolatilitySurface.unique "year" df_all) as [|y ys] eqn:Hy.
  { apply unique_rows in Hy. by rewrite (unique_nil "month" df_all Hy) in Hm. }
  unfold bind at 1. rewrite emit_periods_exact, HB.
  unfold bind, print, emit. simpl. eexists _, _. split; [done|]. simpl.
  split_and!; [done| |intros Hex; by destruct Hnone].
  exists b. split; [done|]. unfold surfaces_saved. fold df_all.
  by rewrite Hs, Hm, Hy, <- (assoc_L (++)).
Qed.

End surface_run.


Lemma has_column_assign_ne df c c' f :
  c ≠ c' → has_column (assign df c' f) c = has_column df c.
Proof.
  intros Hne. unfold has_column, assign. simpl. case_decide; [done|].
  apply bool_decide_ext. rewrite elem_of_app, list_elem_of_singleton.
  split; [intros [Hc|Hc]; [done|by destruct Hne]|by left].
Qed.

(** X13. [generate_vol_surfaces] needs the [Type] and [Mid] columns in
    every file it loads: when a file of the listing passes the name test,
    is read and lacks one of them after the column names are cleaned, the
    run ends with an exception and saves nothing, whatever the other files
    hold. *)
Theorem generate_vol_surfaces_needs_type_and_mid `{PandasText} target_curve target_month
    date_range start_date end_date data_folder listing w f df c :
  f ∈ listing →
  VolatilitySurface.included target_month (fname f) = true →
  Retained.curve_loaded f = Some df →
  c ∈ ["Type"; "Mid"] →
  has_column (rename_columns clean_label df) c = false →
  ∃ e w',
    VolatilitySurface.generate_vol_surfaces target_curve target_month date_range
      start_date end_date data_folder listing w = (Raise e, w')
    ∧ outdir w' = outdir w ∧ saved w' = saved w.
Proof.
  intros Hf Hinc Hload Hc Hmiss.
  destruct (surfaces_run_spec target_curve target_month date_range start_date end_date
              data_folder listing w) as (r & w' & Hrun & Ho & Hr & Hx).
  destruct Hx as [e ->].
  { assert (Hp : ∃ e, VolatilitySurface.prepare df = Raise e).
    { unfold VolatilitySurface.prepare, VolExtractor.getitem.
      repeat (apply elem_of_cons in Hc as [->|Hc]); [| |by apply elem_of_nil in Hc].
      - rewrite Hmiss. by eauto.
      - destruct (has_column _ "Type"); [|by eauto].
        rewrite has_column_assign_ne, Hmiss by done. by eauto. }
    destruct Hp as [e Hp]. exists f, e. split; [done|]. by rewrite Hinc, Hload. }
  exists e, w'. split_and!; [done|done|]. by destruct Hr.
Qed.

Section needs_type_sample.
#[local] Existing Instance Sample.iso_text.

Lemma generate_vol_surfaces_needs_type_and_mid_witness :
  ∃ e w',
    VolatilitySurface.generate_vol_surfaces "NYMEX" None None None None "data"
      [Sample.surface_file; Sample.no_type] Sample.fresh = (Raise e, w')
    ∧ outdir w' = outdir Sample.fresh ∧ saved w' = saved Sample.fresh.
Proof.
  apply (generate_vol_surfaces_needs_type_and_mid "NYMEX" None None None None "data"
           [Sample.surface_file; Sample.no_type] Sample.fresh Sample.no_type
           (Sample.table ["Basis"; "Curve_Date"; "Mid"]
              [ ["NYMEX"; "2024-01-05"; "0.20"] ]) "Type").
  - right. left.
  - vm_compute. reflexivity.
  - vm_compute. reflexivity.
  - left.
  - vm_compute. reflexivity.
Defined.

End needs_type_sample.

Section surface_artifacts.
Context `{PandasText}.
Variable target_curve : string.

Lemma period_artifacts_pairs period tag df_all labels :
  ∃ pairs : list (string * Matrix),
    labels ≫= period_artifacts target_curve period tag df_all = pairs ≫= surface_pair
    ∧ ∀ stem m, (stem, m) ∈ pairs →
        ∃ label, label ∈ labels
          ∧ stem = VolatilitySurface.safe_curve target_curve +:+ "_"
                   +:+ cell_str label +:+ tag
          ∧ m = VolatilitySurface.surface
                  (VolatilitySurface.period_rows target_curve period df_all label)
          ∧ matrix_empty m = false.
Proof.
  induction labels as [|l ls (pairs & Heq & Hp)]; csimpl.
  - exists []. split; [done|]. intros ?? Hin. by apply elem_of_nil in Hin.
  - unfold period_artifacts at 1.
    destruct (Pd.empty _).
    { exists pairs. split; [done|]. intros stem m Hin.
      destruct (Hp stem m Hin) as (label & ? & ?). exists label. split; [by right|done]. }
    destruct (matrix_empty _) eqn:Hm.
    { exists pairs. split; [done|]. intros stem m Hin.
      destruct (Hp stem m Hin) as (label & ? & ?). exists label. split; [by right|done]. }
    eexists ((_, _) :: pairs). split.
    + csimpl. unfold surface_pair at 1. simpl. by rewrite Heq.
    + intros stem m [[= -> ->]|Hin]%elem_of_cons.
      * exists l. split; [left|done].
      * destruct (Hp stem m Hin) as (label & ? & ?). exists label. split; [by right|done].
Qed.

Lemma surfaces_saved_pairs b all_data :
  ∃ pairs : list (string * Matrix),
    surfaces_saved target_curve b all_data = pairs ≫= surface_pair
    ∧ ∀ stem m, (stem, m) ∈ pairs →
        ∃ period tag label,
          ((period = "month" ∧ tag = "_surface")
           ∨ (period = "year" ∧ tag = "_YEARLY_surface"))
          ∧ label ∈ VolatilitySurface.unique period (surface_rows b all_data)
          ∧ stem = VolatilitySurface.safe_curve target_curve +:+ "_"
                   +:+ cell_str label +:+ tag
          ∧ m = VolatilitySurface.surface
                  (VolatilitySurface.period_rows target_curve period
                     (surface_rows b all_data) label)
          ∧ matrix_empty m = false.
Proof.
  unfold surfaces_saved.
  destruct (period_artifacts_pairs "month" "_surface" (surface_rows b all_data)
              (VolatilitySurface.unique "month" (surface_rows b all_data)))
    as (p1 & Heq1 & Hp1).
  destruct (period_artifacts_pairs "year" "_YEARLY_surface" (surface_rows b all_data)
              (VolatilitySurface.unique "year" (surface_rows b all_data)))
    as (p2 & Heq2 & Hp2).
  exists (p1 ++ p2). split; [by rewrite bind_app, Heq1, Heq2|].
  intros stem m [Hin|Hin]%elem_of_app.
  - destruct (Hp1 stem m Hin) as (label & ? & ? & ? & ?).
    exists "month", "_surface", label. split_and!; by auto.
  - destruct (Hp2 stem m Hin) as (label & ? & ? & ? & ?).
    exists "year", "_YEARLY_surface", label. split_and!; by auto.
Qed.

End surface_artifacts.

Lemma replace_char_no_space (s : string) :
  Py.contains " " (Py.replace_char " " "_" s) = false.
Proof.
  induction s as [|c s IH]; [done|].
  change (Py.replace_char " " "_" (String c s))
    with (String (if Ascii.eqb c " " then "_"%char else c) (Py.replace_char " " "_" s)).
  change (Py.contains " " (String ?x ?t))
    with (String.prefix " " (String x t) || Py.contains " " t).
  rewrite IH, orb_false_r.
  destruct (String.prefix _ _) eqn:Hp; [|done].
  apply prefix_iff in Hp as [after Heq]. injection Heq as Hc _.
  destruct (Ascii.eqb c " ") eqn:Hcs; [done|].
  subst c. by rewrite Ascii.eqb_refl in Hcs.
Qed.

(** X14. What a run of [generate_vol_surfaces] that returns has saved comes
    in pairs: a figure [{stem}.png] followed by the matrix
    [{stem}_data.csv] it draws, one pair per surface.  No saved matrix is
    empty; every stem starts with the curve name, in which each space has
    become an underscore, and ends in [_surface]. *)
Theorem generate_vol_surfaces_pairs `{PandasText} target_curve target_month date_range
    start_date end_date data_folder listing w w' :
  VolatilitySurface.generate_vol_surfaces target_curve target_month date_range
    start_date end_date data_folder listing w = (Ok tt, w') →
  Py.contains " " (VolatilitySurface.safe_curve target_curve) = false
  ∧ ∃ pairs : list (string * Matrix),
      saved w' = saved w ++ (pairs ≫= surface_pair)
      ∧ ∀ stem m, (stem, m) ∈ pairs →
          matrix_empty m = false
          ∧ Py.startswith stem (VolatilitySurface.safe_curve target_curve +:+ "_") = true
          ∧ Py.endswith stem "_surface" = true.
Proof.
  intros Hrun. split; [apply replace_char_no_space|].
  destruct (surfaces_run_spec target_curve target_month date_range start_date end_date
              data_folder listing w) as (r & w0 & Hrun' & _ & Hr & _).
  rewrite Hrun in Hrun'. injection Hrun' as <- <-.
  destruct (omap _ listing) as [|d ds].
  { exists []. rewrite Hr. split; [by rewrite app_nil_r|].
    intros ?? Hin. by apply elem_of_nil in Hin. }
  destruct Hr as (b & _ & ->).
  destruct (surfaces_saved_pairs target_curve b (d :: ds)) as (pairs & -> & Hp).
  exists pairs. split; [done|]. intros stem m Hin.
  destruct (Hp stem m Hin) as (period & tag & label & Htag & _ & -> & _ & Hm).
  split_and!; [done| |].
  - unfold Py.startswith. rewrite <- string_app_assoc. apply prefix_app.
  - destruct Htag as [[_ ->]|[_ ->]];
      (rewrite !endswith_app; [done|rewrite ?string_length_app; simpl; lia..]).
Qed.

Section pairs_sample.
#[local] Existing Instance Sample.iso_text.

Lemma generate_vol_surfaces_pairs_witness :
  ∃ w',
    VolatilitySurface.generate_vol_surfaces "NYMEX" None None None None "data"
      [Sample.surface_file] Sample.fresh = (Ok tt, w')
    ∧ Py.contains " " (VolatilitySurface.safe_curve "NYMEX") = false
    ∧ ∃ pairs : list (string * Matrix),
        saved w' = saved Sample.fresh ++ (pairs ≫= surface_pair)
        ∧ ∀ stem m, (stem, m) ∈ pairs →
            matrix_empty m = false
            ∧ Py.startswith stem (VolatilitySurface.safe_curve "NYMEX" +:+ "_") = true
            ∧ Py.endswith stem "_surface" = true.
Proof.
  eexists. split; [vm_compute; reflexivity|].
  apply (generate_vol_surfaces_pairs "NYMEX" None None None None "data"
           [Sample.surface_file] Sample.fresh).
  vm_compute. reflexivity.
Defined.

End pairs_sample.

Lemma string_app_nil_r (s : string) : s +:+ "" = s.
Proof. induction s as [|c s IH]; [done|]. change (String c (s +:+ "") = String c s). by rewrite IH. Qed.

Section surface_dates.
Context `{PandasText}.

(** A loaded row carries the month of its own date. *)
Lemma surface_frame_month target_month f d r :
  Retained.surface_frame target_month f = Some d → r ∈ rows d →
  at_ r "month" = VolatilitySurface.period_month (at_ r "date").
Proof.
  unfold Retained.surface_frame. destruct (VolatilitySurface.included _ _); [|done].
  destruct (Retained.curve_loaded f) as [df|]; [simpl|done].
  unfold VolatilitySurface.prepare.
  destruct (VolExtractor.getitem _ "Type"); [|done].
  destruct (VolExtractor.getitem _ "Mid"); [|done].
  destruct (with_date _) as [dd|]; [|done]. intros [= <-].
  unfold assign. cbn [rows]. intros (r' & -> & _)%list_elem_of_fmap.
  unfold at_. rewrite lookup_insert_eq. by rewrite lookup_insert_ne.
Qed.

Lemma surface_rows_origin b all_data r :
  r ∈ rows (surface_rows b all_data) →
  (∃ d r0 any_missing,
     d ∈ all_data ∧ r0 ∈ rows d
     ∧ r = <["year" := VolatilitySurface.year_label any_missing (at_ r0 "date")]> r0)
  ∧ ∀ lo hi, b = Some (lo, hi) → date_between lo hi r = true.
Proof.
  unfold surface_rows, VolatilitySurface.filter_dates. intros Hr. split.
  - assert (Hr' : r ∈ rows (VolatilitySurface.add_year (concat all_data))).
    { destruct b as [[lo hi]|]; [|done]. by apply elem_of_select in Hr as [_ ?]. }
    unfold VolatilitySurface.add_year, assign, concat in Hr'. cbn [rows] in Hr'.
    apply list_elem_of_fmap in Hr' as (r0 & -> & Hr0).
    apply list_elem_of_join in Hr0 as (l & Hr0 & (d & -> & Hd)%list_elem_of_fmap).
    by eexists d, r0, _.
  - intros lo hi ->. by apply elem_of_select in Hr as [? _].
Qed.

Lemma surface_index_row df t :
  t ∈ index (VolatilitySurface.surface df) →
  ∃ r v, r ∈ rows df ∧ at_ r "date" = Date t ∧ at_ r "Mid" = Num v.
Proof.
  unfold VolatilitySurface.surface, dropna_columns, pivot_table. cbn [index].
  rewrite sort_by_Permutation, elem_of_remove_dups.
  intros ([[t' c] v] & -> & Ho)%list_elem_of_fmap.
  apply elem_of_observations in Ho as (r & ? & ? & ? & ? & ?). by exists r, v.
Qed.

End surface_dates.

(** X15. Every date of a surface that [generate_vol_surfaces] saves is the
    date of a loaded row of the target curve with a numeric [Mid]; it lies
    inside the date range when one applies; and it belongs to the period in
    the file name: the month [YYYY-MM] of a monthly surface, the year of a
    yearly one (written [YYYY.0] when some loaded date is missing). *)
Theorem generate_vol_surfaces_dates `{PandasText} target_curve target_month date_range
    start_date end_date data_folder listing w w' :
  VolatilitySurface.generate_vol_surfaces target_curve target_month date_range
    start_date end_date data_folder listing w = (Ok tt, w') →
  ∃ new,
    saved w' = saved w ++ new
    ∧ ∀ name m t, (name, MatrixCsv m) ∈ new → t ∈ index m →
        (∃ d r v,
           d ∈ omap (Retained.surface_frame target_month) listing ∧ r ∈ rows d
           ∧ at_ r "Basis" = Str target_curve ∧ at_ r "date" = Date t
           ∧ at_ r "Mid" = Num v)
        ∧ (∀ lo hi,
             VolatilitySurface.bounds date_range start_date end_date = Ok (Some (lo, hi)) →
             ts_leb lo t = true ∧ ts_leb t hi = true)
        ∧ ∃ period,
            name = (VolatilitySurface.safe_curve target_curve +:+ "_" +:+ period)
                   +:+ "_data.csv"
            ∧ (period = bucket_key (ts_year t) (ts_month t) +:+ "_surface"
               ∨ period = Py.str_nat (ts_year t) +:+ "_YEARLY_surface"
               ∨ period = (Py.str_nat (ts_year t) +:+ ".0") +:+ "_YEARLY_surface").
Proof.
  intros Hrun.
  destruct (surfaces_run_spec target_curve target_month date_range start_date end_date
              data_folder listing w) as (r & w0 & Hrun' & _ & Hr & _).
  rewrite Hrun in Hrun'. injection Hrun' as <- <-.
  destruct (omap _ listing) as [|d0 ds] eqn:Hall.
  { exists []. rewrite Hr. split; [by rewrite app_nil_r|].
    intros ??? Hin. by apply elem_of_nil in Hin. }
  destruct Hr as (b & Hb & ->).
  eexists. split; [reflexivity|]. intros name m t Hin Ht.
  destruct (surfaces_saved_pairs target_curve b (d0 :: ds)) as (pairs & Heq & Hp).
  rewrite Heq in Hin.
  apply list_elem_of_bind in Hin as ([stem m'] & Hin & Hpair).
  unfold surface_pair in Hin. simpl in Hin.
  apply elem_of_cons in Hin as [[=]|Hin].
  apply list_elem_of_singleton in Hin. injection Hin as -> ->.
  destruct (Hp stem m' Hpair) as (period & tag & label & Htag & _ & -> & -> & _).
  apply surface_index_row in Ht as (r & v & Hr & Hdate & Hmid).
  unfold VolatilitySurface.period_rows in Hr.
  apply elem_of_select in Hr as [Hsel Hr].
  apply andb_prop in Hsel as [HB Hlab].
  apply bool_decide_eq_true in HB, Hlab.
  apply surface_rows_origin in Hr as [(d & r0 & am & Hd & Hr0 & ->) Hrange].
  assert (Hat : ∀ c, c ≠ "year" →
            at_ (<["year" := VolatilitySurface.year_label am (at_ r0 "date")]> r0) c
            = at_ r0 c).
  { intros c Hc. unfold at_. by rewrite lookup_insert_ne. }
  rewrite Hat in HB, Hdate, Hmid by done.
  split_and!.
  - exists d, r0, v. split_and!; try done.
  - intros lo hi Hb'. rewrite Hb' in Hb. injection Hb as <-.
    specialize (Hrange lo hi eq_refl). unfold date_between in Hrange.
    rewrite Hat, Hdate in Hrange by done. by apply andb_prop in Hrange.
  - rewrite <- Hall in Hd. apply list_elem_of_omap in Hd as (f & Hf & Hframe).
    pose proof (surface_frame_month target_month f d r0 Hframe Hr0) as Hmonth.
    rewrite Hdate in Hmonth.
    destruct Htag as [[-> ->]|[-> ->]].
    + rewrite Hat, Hmonth in Hlab by done. subst label.
      exists (bucket_key (ts_year t) (ts_month t) +:+ "_surface"). split; [done|by left].
    + assert (Hy : ∀ x, at_ (<["year" := x]> r0) "year" = x).
      { intros x. unfold at_. by rewrite lookup_insert_eq. }
      rewrite Hy, Hdate in Hlab. subst label.
      unfold VolatilitySurface.year_label. cbn [cell_str].
      destruct am.
      * exists ((Py.str_nat (ts_year t) +:+ ".0") +:+ "_YEARLY_surface").
        split; [done|by right; right].
      * exists (Py.str_nat (ts_year t) +:+ "_YEARLY_surface").
        rewrite string_app_nil_r. split; [done|by right; left].
Qed.

Section dates_sample.
#[local] Existing Instance Sample.iso_text.

Lemma generate_vol_surfaces_dates_witness :
  ∃ w' new,
    VolatilitySurface.generate_vol_surfaces "NYMEX" None None
      (Some "2024-01-01") (Some "2024-12-31") "data" [Sample.surface_file] Sample.fresh
    = (Ok tt, w')
    ∧ saved w' = saved Sample.fresh ++ new
    ∧ new.*1 = [ "NYMEX_2024-01_surface.png"; "NYMEX_2024-01_surface_data.csv";
                 "NYMEX_2024_YEARLY_surface.png"; "NYMEX_2024_YEARLY_surface_data.csv" ]
    ∧ ∀ name m t, (name, MatrixCsv m) ∈ new → t ∈ index m →
        (∃ d r v,
           d ∈ omap (Retained.surface_frame None) [Sample.surface_file] ∧ r ∈ rows d
           ∧ at_ r "Basis" = Str "NYMEX" ∧ at_ r "date" = Date t
           ∧ at_ r "Mid" = Num v)
        ∧ (∀ lo hi,
             VolatilitySurface.bounds None (Some "2024-01-01") (Some "2024-12-31")
             = Ok (Some (lo, hi)) →
             ts_leb lo t = true ∧ ts_leb t hi = true)
        ∧ ∃ period,
            name = (VolatilitySurface.safe_curve "NYMEX" +:+ "_" +:+ period)
                   +:+ "_data.csv"
            ∧ (period = bucket_key (ts_year t) (ts_month t) +:+ "_surface"
               ∨ period = Py.str_nat (ts_year t) +:+ "_YEARLY_surface"
               ∨ period = (Py.str_nat (ts_year t) +:+ ".0") +:+ "_YEARLY_surface").
Proof.
  destruct (generate_vol_surfaces_dates "NYMEX" None None
              (Some "2024-01-01") (Some "2024-12-31") "data" [Sample.surface_file]
              Sample.fresh
              (VolatilitySurface.generate_vol_surfaces "NYMEX" None None
                 (Some "2024-01-01") (Some "2024-12-31") "data" [Sample.surface_file]
                 Sample.fresh).2)
    as (new & Hsaved & Hnew); [vm_compute; reflexivity|].
  eexists _, new. split; [vm_compute; reflexivity|].
  split; [exact Hsaved|]. split; [|exact Hnew].
  vm_compute in Hsaved. by rewrite <- Hsaved.
Defined.

End dates_sample.

(** ** [build_vol_time_series]: outcome and diagnostics *)

Section series_outcome.
Context `{PandasText}.
Variables (curve_name : string) (month : option string) (rolling_window : nat).
Variables (start_date end_date : option string).

Lemma series_load_file_exact root f all_data w :
  TimeSeriesPlotter.load_file month start_date end_date root f all_data w
  = (Ok (all_data ++ option_list (Retained.series_frame month start_date end_date f)),
     {| trace := trace w ++ series_events month start_date end_date root f;
        outdir := outdir w; saved := saved w |}).
Proof.
  unfold TimeSeriesPlotter.load_file, Retained.series_frame, series_events,
    series_failure.
  destruct (Py.endswith (fname f) ".csv"); simpl.
  2:{ unfold ret. rewrite !app_nil_r. by destruct w. }
  destruct (TimeSeriesPlotter.month_mismatch month (fname f)); simpl.
  { unfold ret. rewrite !app_nil_r. by destruct w. }
  unfold try_except, bind, read_csv, lift, emit, print, ret; simpl.
  destruct (fparse f utf_8 bad_skip) as [df|e]; simpl.
  2:{ by rewrite app_nil_r, <- (assoc_L (++)). }
  destruct (Pd.empty df); simpl.
  { by rewrite app_nil_r. }
  destruct (TimeSeriesPlotter.prepare start_date end_date df) as [[d|]|e]; simpl;
    by rewrite ?app_nil_r, <- ?(assoc_L (++)).
Qed.

Lemma series_load_exact walk w :
  TimeSeriesPlotter.load month start_date end_date walk w
  = (Ok (omap (Retained.series_frame month start_date end_date) (files_of walk)),
     {| trace := trace w
                 ++ (paths_of walk ≫= λ p, series_events month start_date end_date p.1 p.2);
        outdir := outdir w; saved := saved w |}).
Proof.
  unfold TimeSeriesPlotter.load.
  assert (Hfiles : ∀ root files all_data w0,
    for_each files (TimeSeriesPlotter.load_file month start_date end_date root) all_data w0
    = (Ok (all_data ++ omap (Retained.series_frame month start_date end_date) files),
       {| trace := trace w0 ++ (files ≫= series_events month start_date end_date root);
          outdir := outdir w0; saved := saved w0 |})).
  { intros root files. induction files as [|f files IH]; intros all_data w0; csimpl.
    - unfold ret. rewrite !app_nil_r. by destruct w0.
    - unfold bind. rewrite series_load_file_exact, IH. simpl.
      rewrite <- !(assoc_L (++)).
      by destruct (Retained.series_frame month start_date end_date f). }
  assert (Hgen : ∀ all_data w0,
    for_each walk (λ dir all_data,
      for_each dir.2 (TimeSeriesPlotter.load_file month start_date end_date dir.1)
        all_data) all_data w0
    = (Ok (all_data ++ omap (Retained.series_frame month start_date end_date)
                         (files_of walk)),
       {| trace := trace w0
                   ++ (paths_of walk ≫= λ p, series_events month start_date end_date p.1 p.2);
          outdir := outdir w0; saved := saved w0 |})).
  { unfold files_of, paths_of.
    induction walk as [|[root files] walk' IH]; intros all_data w0; csimpl.
    - unfold ret. rewrite !app_nil_r. by destruct w0.
    - unfold bind. rewrite Hfiles, IH. simpl.
      rewrite omap_app, bind_app. f_equal.
      + by rewrite (assoc_L (++)).
      + f_equal. rewrite <- (assoc_L (++)). do 2 f_equal.
        clear. induction files as [|f files IH]; csimpl; [done|]. by rewrite IH. }
  apply (Hgen [] w).
Qed.

Lemma series_frame_rows f d :
  Retained.series_frame month start_date end_date f = Some d → rows d ≠ [].
Proof.
  unfold Retained.series_frame. destruct (_ && _); [|done].
  destruct (fparse f utf_8 bad_skip) as [df|]; [|done].
  destruct (Pd.empty df); [done|].
  unfold TimeSeriesPlotter.prepare.
  destruct (with_date _); [|done].
  destruct (VolatilitySurface.bounds _ _ _); [|done].
  destruct (VolExtractor.getitem _ _); [|done].
  destruct (Pd.empty _) eqn:He; [done|]. intros [= <-].
  unfold Pd.empty in He. by destruct (rows _).
Qed.

Lemma rolling_defined pivot :
  ∃ roll, TimeSeriesPlotter.rolling rolling_window pivot = Some roll.
Proof.
  unfold TimeSeriesPlotter.rolling, rolling_mean, TimeSeriesPlotter.min_periods.
  rewrite decide_True by lia. by eexists.
Qed.

(** The run, case by case. *)
Lemma build_exact walk w :
  let all_data := omap (Retained.series_frame month start_date end_date) (files_of walk) in
  let combined := TimeSeriesPlotter.sort_values_date (concat all_data) in
  let loaded := trace w
                ++ (paths_of walk ≫= λ p, series_events month start_date end_date p.1 p.2) in
  ∃ r w',
    TimeSeriesPlotter.build_vol_time_series curve_name month rolling_window
      start_date end_date walk w = (r, w')
    ∧ outdir w' = outdir w
    ∧ (∃ post, trace w' = loaded ++ post ∧ only_notices post)
    ∧ match all_data with
      | [] => r = Ok true ∧ saved w' = saved w
      | _ :: _ =>
          match labels (TimeSeriesPlotter.original combined) with
          | [] => r = Raise IndexError ∧ saved w' = saved w
                  ∧ has_column combined "Contract_Month" = true
          | _ :: _ => r = Ok true
          end
      end.
Proof.
  intros all_data combined loaded.
  unfold TimeSeriesPlotter.build_vol_time_series.
  unfold bind at 1. rewrite series_load_exact. fold all_data. fold loaded.
  destruct all_data as [|d ds] eqn:Hall.
  { unfold bind, print, emit, ret. simpl. eexists _, _. split; [done|]. simpl.
    split_and!; [done| |done|done].
    eexists. split; [done|]. repeat constructor. by eexists. }
  fold combined.
  assert (Hcurve : ∃ curve, TimeSeriesPlotter.curve_of curve_name combined = Ok curve).
  { unfold TimeSeriesPlotter.curve_of. destruct (has_column _ _); [|by eauto].
    destruct (rows combined) as [|r rs] eqn:Hrows; [|by eauto]. exfalso.
    assert (Hd : Retained.series_frame month start_date end_date <$> files_of walk
                 ≠ [] → True) by done.
    assert (Hin : d ∈ omap (Retained.series_frame month start_date end_date)
                        (files_of walk)).
    { subst all_data. rewrite Hall. left. }
    apply list_elem_of_omap in Hin as (f & _ & Hf).
    apply series_frame_rows in Hf.
    unfold combined, TimeSeriesPlotter.sort_values_date in Hrows. simpl in Hrows.
    assert (Hperm : rows d ++ mjoin (rows <$> ds) ≡ₚ []).
    { by rewrite <- Hrows, sort_by_Permutation. }
    apply Permutation_nil_r in Hperm. apply app_eq_nil in Hperm as [? _]. done. }
  destruct Hcurve as [curve Hcurve]. unfold bind at 1, lift. rewrite Hcurve.
  destruct (rolling_defined (TimeSeriesPlotter.original combined)) as [roll Hroll].
  rewrite Hroll.
  destruct (labels (TimeSeriesPlotter.original combined)) as [|l ls] eqn:Hlab.
  { unfold raise. eexists _, _. split; [done|]. simpl.
    split_and!; [done| |done|done|].
    - exists []. split; [by rewrite app_nil_r|constructor].
    - revert Hlab. unfold TimeSeriesPlotter.original.
      by destruct (has_column combined "Contract_Month"). }
  unfold bind at 1, notices at 1.
  unfold bind at 1, save at 1.
  unfold bind at 1. rewrite save_figures.
  unfold bind, print, emit, ret. simpl. eexists _, _. split; [done|]. simpl.
  split_and!; [done| |done].
  eexists. split; [by rewrite <- !(assoc_L (++))|].
  repeat constructor; by eexists.
Qed.

End series_outcome.


Lemma processing_errors_app a b :
  processing_errors (a ++ b) = processing_errors a ++ processing_errors b.
Proof. apply omap_app. Qed.

Lemma processing_errors_notices evs : only_notices evs → processing_errors evs = [].
Proof. induction 1 as [|ev evs [m ->] _ IH]; [done|]. done. Qed.

(** X17. [build_vol_time_series] reports each file it cannot process and
    goes on.  It opens the [.csv] files of the walk that pass the month
    test, each once and in order, as UTF-8 with malformed lines skipped,
    and no other file; its error lines are, in the same order, one for each
    opened file whose read or preparation raised, with the file name and
    the exception, which is the exception of the read, the [KeyError] of a
    missing [Mid] column or the [ValueError] of a date bound that does not
    parse. *)
Theorem build_vol_time_series_reports_failures `{PandasText} curve_name month
    rolling_window start_date end_date walk w :
  ∃ r w' new,
    TimeSeriesPlotter.build_vol_time_series curve_name month rolling_window
      start_date end_date walk w = (r, w')
    ∧ trace w' = trace w ++ new
    ∧ read_calls new
      = omap (λ p : string * File,
                if Py.endswith (fname p.2) ".csv"
                   && negb (TimeSeriesPlotter.month_mismatch month (fname p.2))
                then Some (Py.path_join p.1 (fname p.2), utf_8, bad_skip)
                else None) (paths_of walk)
    ∧ processing_errors new
      = omap (λ p : string * File,
                (λ e, (fname p.2, e)) <$> series_failure month start_date end_date p.2)
          (paths_of walk)
    ∧ ∀ f e, series_failure month start_date end_date f = Some e →
        fparse f utf_8 bad_skip = Raise e ∨ e = KeyError "Mid" ∨ ∃ s, e = ValueError s.
Proof.
  destruct (build_exact curve_name month rolling_window start_date end_date walk w)
    as (r & w' & Hrun & _ & (post & Htrace & Hpost) & _).
  exists r, w', ((paths_of walk ≫= λ p, series_events month start_date end_date p.1 p.2)
                 ++ post).
  split; [done|]. split; [by rewrite Htrace, <- (assoc_L (++))|]. split_and!.
  - rewrite read_calls_app, (read_calls_notices post Hpost), app_nil_r.
    apply omap_bind_option. intros [root f] _. unfold series_events. simpl.
    destruct (_ && _); [|done]. simpl.
    by destruct (series_failure month start_date end_date f).
  - rewrite processing_errors_app, (processing_errors_notices post Hpost), app_nil_r.
    apply omap_bind_option. intros [root f] _. unfold series_events. simpl.
    destruct (_ && _) eqn:Hopen.
    + simpl. by destruct (series_failure month start_date end_date f).
    + unfold series_failure. by rewrite Hopen.
  - intros f e. unfold series_failure. destruct (_ && _); [|done].
    destruct (fparse f utf_8 bad_skip) as [df|e']; [|intros [= <-]; by left].
    destruct (Pd.empty df); [done|].
    unfold TimeSeriesPlotter.prepare. destruct (with_date _); [|done].
    destruct (VolatilitySurface.bounds None start_date end_date) as [b|e'] eqn:Hb.
    + unfold VolExtractor.getitem. destruct (has_column _ "Mid").
      * by destruct (Pd.empty _).
      * intros [= <-]. right. by left.
    + intros [= <-]. right. right. by apply (bounds_raises None start_date end_date).
Qed.

(** ** The mean of a window *)

Section qc_mean.
  Open Scope Qc_scope.

Lemma of_nat_S n : of_nat (S n) = of_nat n + 1.
Proof.
  unfold of_nat. apply Qc_is_canon. unfold Qcplus, Q2Qc. simpl.
  rewrite !Qred_correct. rewrite Nat2Z.inj_succ. unfold Z.succ.
  rewrite inject_Z_plus. reflexivity.
Qed.

Lemma of_nat_0 : of_nat 0 = 0.
Proof. apply Qc_is_canon. reflexivity. Qed.

Lemma of_nat_nonneg n : 0 <= of_nat n.
Proof.
  induction n as [|n IH]; [rewrite of_nat_0; apply Qcle_refl|]. rewrite of_nat_S.
  replace 0 with (0 + 0) by ring. by apply Qcplus_le_compat.
Qed.

Lemma of_nat_pos n : 0 < of_nat (S n).
Proof.
  rewrite of_nat_S. apply Qcle_lt_trans with (of_nat n); [apply of_nat_nonneg|].
  apply Qclt_minus_iff. by replace (of_nat n + 1 + - of_nat n) with 1 by ring.
Qed.

Lemma sum_le hi vs : Forall (λ v, v <= hi) vs → sum vs <= hi * of_nat (length vs).
Proof.
  induction 1 as [|v vs Hv _ IH]; simpl.
  - rewrite of_nat_0, Qcmult_0_r. apply Qcle_refl.
  - rewrite of_nat_S. replace (hi * (of_nat (length vs) + 1))
      with (hi + hi * of_nat (length vs)) by ring.
    by apply Qcplus_le_compat.
Qed.

Lemma sum_ge lo vs : Forall (λ v, lo <= v) vs → lo * of_nat (length vs) <= sum vs.
Proof.
  induction 1 as [|v vs Hv _ IH]; simpl.
  - rewrite of_nat_0, Qcmult_0_r. apply Qcle_refl.
  - rewrite of_nat_S. replace (lo * (of_nat (length vs) + 1))
      with (lo + lo * of_nat (length vs)) by ring.
    by apply Qcplus_le_compat.
Qed.

(** The mean of values lies between any bounds of the values. *)
Lemma mean_bounds lo hi vs m :
  Forall (λ v, lo <= v ∧ v <= hi) vs → mean vs = Some m → lo <= m ∧ m <= hi.
Proof.
  intros Hvs. unfold mean. destruct vs as [|v vs']; [done|]. intros [= <-].
  change (v + sum vs') with (sum (v :: vs')).
  change (S (length vs')) with (length (v :: vs')).
  assert (Hn : 0 < of_nat (length (v :: vs'))) by apply of_nat_pos.
  pose proof (sum_ge lo (v :: vs')) as Hge. pose proof (sum_le hi (v :: vs')) as Hle.
  revert Hn Hge Hle Hvs.
  generalize (of_nat (length (v :: vs'))), (sum (v :: vs')). intros n s Hn Hge Hle Hvs.
  assert (Hn0 : n ≠ 0). { intros Hz. rewrite Hz in Hn. by apply Qclt_not_eq in Hn. }
  assert (Hmul : s / n * n = s).
  { rewrite Qcmult_comm. by apply Qcmult_div_r. }
  split.
  - apply (Qcmult_lt_0_le_reg_r lo (s / n) n Hn). rewrite Hmul. apply Hge.
    eapply Forall_impl; [exact Hvs|]. by intros ? [? _].
  - apply (Qcmult_lt_0_le_reg_r (s / n) hi n Hn). rewrite Hmul. apply Hle.
    eapply Forall_impl; [exact Hvs|]. by intros ? [_ ?].
Qed.

End qc_mean.


Section range_of_rolling_sample.
#[local] Existing Instance Sample.iso_text.


End range_of_rolling_sample.

(** ** The date index *)

Lemma ts_leb_total (a b : Timestamp) : ts_leb a b = true ∨ ts_leb b a = true.
Proof.
  unfold ts_leb. repeat case_decide; rewrite ?bool_decide_eq_true; lia.
Qed.

Lemma ts_leb_trans (a b c : Timestamp) :
  ts_leb a b = true → ts_leb b c = true → ts_leb a c = true.
Proof.
  unfold ts_leb. repeat case_decide; rewrite ?bool_decide_eq_true; lia.
Qed.

Lemma sorted_lookup {A} (R : A → A → Prop) (l : list A) i j a b :
  StronglySorted R l → (i < j)%nat → l !! i = Some a → l !! j = Some b → R a b.
Proof.
  intros Hs. revert i j. induction Hs as [|x l Hl IH Hx]; intros i j Hij Hi Hj; [done|].
  destruct j as [|j]; [lia|]. destruct i as [|i]; simpl in *.
  - injection Hi as ->. rewrite Forall_forall in Hx. apply Hx.
    by eapply list_elem_of_lookup_2.
  - apply (IH i j); [lia|done|done].
Qed.

Lemma sorted_dates_increasing (l : list Timestamp) :
  strictly_increasing (Py.sort_by ts_leb (remove_dups l)).
Proof.
  intros i j a b Hij Hi Hj. split.
  - eapply (sorted_lookup (λ a b, ts_leb a b = true)); [|exact Hij|exact Hi|exact Hj].
    apply sort_by_sorted; [apply ts_leb_total|apply ts_leb_trans].
  - intros ->.
    assert (Hnd : NoDup (Py.sort_by ts_leb (remove_dups l))).
    { rewrite sort_by_Permutation. apply NoDup_remove_dups. }
    pose proof (NoDup_lookup _ _ _ _ Hnd Hi Hj). lia.
Qed.

Lemma original_increasing `{PandasText} combined :
  strictly_increasing (index (TimeSeriesPlotter.original combined)).
Proof.
  unfold TimeSeriesPlotter.original. destruct (has_column _ _).
  - unfold pivot_table. cbn [index]. apply sorted_dates_increasing.
  - unfold TimeSeriesPlotter.ewma_matrix. cbn [index]. apply sorted_dates_increasing.
Qed.

(** X19. The three sheets of the workbook of [build_vol_time_series] list
    their dates in strictly increasing order: one row per date, earlier
    dates first, whatever the order of the files and of their rows. *)
Theorem series_index_increasing `{PandasText} curve_name month rolling_window
    start_date end_date walk w b w' :
  TimeSeriesPlotter.build_vol_time_series curve_name month rolling_window
    start_date end_date walk w = (Ok b, w') →
  ∃ new, saved w' = saved w ++ new
    ∧ ∀ name sheets, (name, Workbook sheets) ∈ new →
        ∃ o r d,
          sheets = time_series_sheets rolling_window o r d
          ∧ strictly_increasing (index o)
          ∧ strictly_increasing (index r)
          ∧ strictly_increasing (index d).
Proof.
  intros [_ Hb]%build_spec.
  destruct (omap _ (files_of walk)) as [|d0 ds].
  - exists []. rewrite app_nil_r. split; [done|].
    intros ?? Hin. by apply elem_of_nil in Hin.
  - destruct Hb as (curve & roll & _ & Hroll & Hsaved).
    eexists. split; [exact Hsaved|].
    intros name sheets [Hhd|Hfig]%elem_of_cons.
    + injection Hhd as -> ->. eexists _, _, _. split; [done|].
      apply rolling_mean_spec in Hroll as (_ & Hi & _ & _).
      cbn [diff index]. rewrite Hi.
      split_and!; apply original_increasing.
    + by apply list_elem_of_fmap in Hfig as (? & [=] & _).
Qed.

Section index_sample.
#[local] Existing Instance Sample.iso_text.

Lemma series_index_increasing_witness :
  ∃ w' new,
    TimeSeriesPlotter.build_vol_time_series "NYMEX" None 2 None None
      [("in", [Sample.mixed; Sample.january])] Sample.fresh = (Ok true, w')
    ∧ saved w' = saved Sample.fresh ++ new
    ∧ ∀ name sheets, (name, Workbook sheets) ∈ new →
        ∃ o r d,
          sheets = time_series_sheets 2 o r d
          ∧ strictly_increasing (index o)
          ∧ strictly_increasing (index r)
          ∧ strictly_increasing (index d).
Proof.
  destruct (series_index_increasing "NYMEX" None 2 None None
              [("in", [Sample.mixed; Sample.january])] Sample.fresh true
              (TimeSeriesPlotter.build_vol_time_series "NYMEX" None 2 None None
                 [("in", [Sample.mixed; Sample.january])] Sample.fresh).2)
    as (new & Hsaved & Hnew); [vm_compute; reflexivity|].
  eexists _, new. split; [vm_compute; reflexivity|]. by split.
Defined.

End index_sample.

(** ** [app.py]: the helpers and the filter call *)

Lemma lower_length (s : string) : String.length (Py.lower s) = String.length s.
Proof. induction s as [|c s IH]; [done|]. simpl. by rewrite IH. Qed.

Lemma lower_substring (s : string) i k :
  Py.lower (String.substring i k s) = String.substring i k (Py.lower s).
Proof.
  revert i k. induction s as [|c s IH]; intros i k.
  - by destruct i, k.
  - destruct i as [|i].
    + destruct k as [|k]; [done|]. simpl. by rewrite IH.
    + simpl. apply IH.
Qed.

(** A name that ends in [.csv] still does once put in lower case. *)
Lemma endswith_csv_lower (s : string) :
  Py.endswith s ".csv" = true → Py.endswith (Py.lower s) ".csv" = true.
Proof.
  unfold Py.endswith. rewrite lower_length. case_decide; [|done].
  intros Heq%String.eqb_eq. apply String.eqb_eq.
  by rewrite <- lower_substring, Heq.
Qed.

(** X20. [find_all_csvs] misses no file that the stages read: every file
    of the walk whose name ends in [.csv] and does not start with a dot is
    in its list, under the path the stages open.  The converse fails, as it
    also lists names such as [DATA.CSV], which every stage skips. *)
Theorem find_all_csvs_covers_stages `{PandasText} walk root f :
  (root, f) ∈ paths_of walk →
  Py.endswith (fname f) ".csv" = true →
  Py.startswith (fname f) "." = false →
  Py.path_join root (fname f) ∈ App.find_all_csvs walk
  ∧ ∀ g, Py.endswith (fname g) ".csv" = false →
         (∀ year target_curves target_strikes month,
            Retained.curve_frame year target_curves target_strikes month g = None)
         ∧ (∀ target_month, Retained.surface_frame target_month g = None)
         ∧ (∀ month start_date end_date,
              Retained.series_frame month start_date end_date g = None).
Proof.
  intros Hin Hcsv Hdot. split.
  - unfold paths_of in Hin. apply list_elem_of_bind in Hin as ([root' files] & Hin & Hdir).
    apply list_elem_of_fmap in Hin as (f' & [= -> ->] & Hf). simpl in Hf.
    unfold App.find_all_csvs. apply list_elem_of_bind. exists (root', files).
    split; [|done]. simpl. apply list_elem_of_fmap. exists (fname f'). split; [done|].
    apply list_elem_of_filter. split.
    + by rewrite (endswith_csv_lower _ Hcsv), Hdot.
    + apply list_elem_of_fmap. by exists f'.
  - intros g Hg. split_and!.
    + intros. unfold Retained.curve_frame. by rewrite Hg.
    + intros. unfold Retained.surface_frame, VolatilitySurface.included. by rewrite Hg.
    + intros. unfold Retained.series_frame. by rewrite Hg.
Qed.

Section find_sample.
#[local] Existing Instance Sample.iso_text.

Lemma find_all_csvs_covers_stages_witness :
  (Py.path_join "in" (fname Sample.january)
     ∈ App.find_all_csvs [("in", [Sample.january; Sample.shouting])]
   ∧ ∀ g, Py.endswith (fname g) ".csv" = false →
          (∀ year target_curves target_strikes month,
             Retained.curve_frame year target_curves target_strikes month g = None)
          ∧ (∀ target_month, Retained.surface_frame target_month g = None)
          ∧ (∀ month start_date end_date,
               Retained.series_frame month start_date end_date g = None))
  ∧ App.find_all_csvs [("in", [Sample.january; Sample.shouting])]
    = ["in/a.csv"; "in/DATA.CSV"].
Proof.
  split; [|vm_compute; reflexivity].
  apply (find_all_csvs_covers_stages [("in", [Sample.january; Sample.shouting])]
           "in" Sample.january).
  - left.
  - vm_compute. reflexivity.
  - vm_compute. reflexivity.
Defined.

End find_sample.

(** X21. [combine_images] loses nothing of two or three images: the two
    stand side by side from the left edge, the three in the cells of a
    two-by-two grid whose cell is as wide and as high as the largest image;
    each image fits in the picture and every one of its pixels is there, so
    no image covers another.  In every other case the picture is the first
    image alone, the others being dropped, and with no image at all the
    call raises [IndexError]. *)
Theorem combine_images_keeps_every_pixel (images : list App.Image) :
  (∀ a b, images = [a; b] →
     ∃ out, App.combine_images images = Ok out
       ∧ App.width out = (App.width a + App.width b)%nat
       ∧ App.height out = (App.height a `max` App.height b)%nat
       ∧ shown_at out a (0, 0)%nat ∧ shown_at out b (App.width a, 0)%nat)
  ∧ (∀ a b c, images = [a; b; c] →
       let mw := (App.width a `max` (App.width b `max` App.width c))%nat in
       let mh := (App.height a `max` (App.height b `max` App.height c))%nat in
       ∃ out, App.combine_images images = Ok out
         ∧ App.width out = (2 * mw)%nat ∧ App.height out = (2 * mh)%nat
         ∧ shown_at out a (0, 0)%nat ∧ shown_at out b (mw, 0)%nat
         ∧ shown_at out c (0, mh)%nat)
  ∧ (∀ im rest, images = im :: rest → length rest ≠ 1%nat → length rest ≠ 2%nat →
       App.combine_images images = Ok im)
  ∧ (images = [] → App.combine_images images = Raise IndexError).
Proof.
  split_and!.
  - intros a b ->. eexists. split; [reflexivity|]. simpl.
    split; [lia|]. split; [lia|]. unfold shown_at. simpl. split.
    + split; [lia|]. split; [lia|]. intros x y Hx Hy.
      rewrite bool_decide_false by lia. rewrite bool_decide_true by lia.
      f_equal; lia.
    + split; [lia|]. split; [lia|]. intros x y Hx Hy.
      rewrite bool_decide_true by lia. f_equal; lia.
  - intros a b c -> mw mh. eexists. split; [reflexivity|]. simpl.
    split; [lia|]. split; [lia|]. unfold shown_at. simpl. split_and!; try lia.
    + intros x y Hx Hy.
      rewrite bool_decide_false by lia. rewrite bool_decide_false by lia.
      rewrite bool_decide_true by lia. f_equal; lia.
    + intros x y Hx Hy.
      rewrite bool_decide_false by lia. rewrite bool_decide_true by lia.
      f_equal; lia.
    + intros x y Hx Hy. rewrite bool_decide_true by lia. f_equal; lia.
  - intros im rest -> H1 H2. unfold App.combine_images. simpl.
    rewrite decide_False by lia. by rewrite decide_False by lia.
  - by intros ->.
Qed.

Lemma curve_frame_mask `{PandasText} year target_curves target_strikes month f d r :
  Retained.curve_frame year target_curves target_strikes month f = Some d →
  r ∈ rows d → CurveFilter.mask year target_curves target_strikes r = true.
Proof.
  unfold Retained.curve_frame. destruct (Py.endswith _ _); [|done].
  destruct (Retained.curve_loaded f) as [df|]; [simpl|done].
  destruct (_ && _); [|done]. intros [= <-].
  unfold CurveFilter.df_filtered. intros Hr.
  destruct month as [m|]; [destruct (Py.truthy _)|].
  - by apply elem_of_select in Hr as [_ [? _]%elem_of_select].
  - by apply elem_of_select in Hr as [? _].
  - by apply elem_of_select in Hr as [? _].
Qed.

Lemma surface_strikes_in_table (s : string) :
  s ∈ Py.upper <$> App.surface_strikes →
  is_Some (VolatilitySurface.type_to_moneyness !! s).
Proof.
  assert (Hall : Forall (λ s, is_Some (VolatilitySurface.type_to_moneyness !! s))
                   (Py.upper <$> App.surface_strikes)).
  { apply (bool_decide_unpack _). vm_compute. exact I. }
  rewrite Forall_forall in Hall. apply Hall.
Qed.

(** X22. The filter step of the app and the surface step agree on the
    strikes: run into a fresh folder, the call of [extract_curve_data]
    behind "Filter & Download Data" writes only rows whose [Type] is a key
    of the moneyness table of [generate_vol_surfaces], and whose [Basis] is
    the chosen curve up to case; so the surface step drops no row of these
    files for want of a moneyness. *)
Theorem app_filter_rows_have_moneyness `{PandasText} curve year month walk w :
  outdir w = ∅ →
  ∃ w',
    App.filter_data curve year month walk w = (Ok tt, w')
    ∧ ∀ n df r, outdir w' !! n = Some df → r ∈ rows df →
        (∃ q, VolatilitySurface.moneyness (at_ r "Type") = Num q)
        ∧ ∃ s, at_ r "Basis" = Str s ∧ Py.upper s = Py.upper curve.
Proof.
  intros Hfresh. unfold App.filter_data.
  set (mo := if String.eqb month "" then None else Some month).
  destruct (extract_curve_data_exact year [curve] App.surface_strikes mo walk w)
    as (pre & post & Hrun & _ & _).
  eexists. split; [exact Hrun|]. cbn [outdir]. rewrite Hfresh.
  set (fd := curve_dict year [curve] App.surface_strikes mo walk).
  destruct (curve_dict_spec year [curve] App.surface_strikes mo walk) as (Hn & _ & Hp).
  fold fd in Hn, Hp.
  assert (Hrow : ∀ k r, (k, r) ∈ placements fd →
            (∃ q, VolatilitySurface.moneyness (at_ r "Type") = Num q)
            ∧ ∃ s, at_ r "Basis" = Str s ∧ Py.upper s = Py.upper curve).
  { intros k r Hkr. rewrite Hp in Hkr.
    apply list_elem_of_fmap in Hkr as (r' & [= _ ->] & Hr').
    apply list_elem_of_bind in Hr' as (f & Hr' & _).
    destruct (Retained.curve_frame year [curve] App.surface_strikes mo f) as [d|] eqn:Hd;
      simpl in Hr'; [|by apply elem_of_nil in Hr'].
    pose proof (curve_frame_mask _ _ _ _ _ _ _ Hd Hr') as Hmask.
    unfold CurveFilter.mask in Hmask.
    apply andb_prop in Hmask as [Hmask _]. apply andb_prop in Hmask as [HB HT].
    split.
    - unfold CurveFilter.isin in HT. destruct (at_ r' "Type") as [s| | |]; try done.
      apply bool_decide_eq_true in HT.
      destruct (surface_strikes_in_table s HT) as [q Hq]. exists q. simpl. by rewrite Hq.
    - unfold CurveFilter.isin_upper in HB. destruct (at_ r' "Basis") as [s| | |]; try done.
      apply bool_decide_eq_true in HB. exists s. split; [done|].
      by apply list_elem_of_singleton in HB. }
  assert (Hmonths : ∀ n df r, with_months ∅ fd !! n = Some df → r ∈ rows df →
            (∃ q, VolatilitySurface.moneyness (at_ r "Type") = Num q)
            ∧ ∃ s, at_ r "Basis" = Str s ∧ Py.upper s = Py.upper curve).
  { intros n df r Hn' Hr.
    apply (foldl_insert_lookup (λ kv, kv.1 +:+ ".csv") (λ kv, concat kv.2)) in Hn'
      as [Hn'|([k gs] & Hkv & -> & ->)]; [done|].
    apply (Hrow k r). unfold placements. apply list_elem_of_bind. exists (k, gs).
    split; [|done]. simpl. apply list_elem_of_fmap. exists r. split; [done|].
    unfold concat in Hr. cbn [rows] in Hr.
    apply list_elem_of_join in Hr as (l & Hr & (g & -> & Hg)%list_elem_of_fmap).
    apply list_elem_of_bind. by exists g. }
  intros n df r Hn' Hr. unfold with_combined in Hn'.
  destruct (omap _ (monthly_names (with_months ∅ fd))) as [|d ds] eqn:Hall.
  { by apply (Hmonths n df r). }
  apply lookup_insert_Some in Hn' as [[_ <-]|[_ Hn']]; [|by apply (Hmonths n df r)].
  unfold concat in Hr. cbn [rows] in Hr.
  apply list_elem_of_join in Hr as (l & Hr & (g & -> & Hg)%list_elem_of_fmap).
  rewrite <- Hall in Hg. apply list_elem_of_omap in Hg as (n' & _ & Hn').
  by apply (Hmonths n' g r).
Qed.

Section app_filter_sample.
#[local] Existing Instance Sample.iso_text.

Lemma app_filter_rows_have_moneyness_witness :
  ∃ w',
    App.filter_data "NYMEX" "2024" "" [("in", [Sample.january; Sample.mixed])]
      Sample.fresh = (Ok tt, w')
    ∧ (length ∘ rows) <$> outdir w' !! "2024_combined.csv" = Some 4%nat
    ∧ ∀ n df r, outdir w' !! n = Some df → r ∈ rows df →
        (∃ q, VolatilitySurface.moneyness (at_ r "Type") = Num q)
        ∧ ∃ s, at_ r "Basis" = Str s ∧ Py.upper s = Py.upper "NYMEX".
Proof.
  destruct (app_filter_rows_have_moneyness "NYMEX" "2024" ""
              [("in", [Sample.january; Sample.mixed])] Sample.fresh eq_refl)
    as (w' & Hrun & Hrows).
  exists w'. split; [exact Hrun|]. split; [|exact Hrows].
  vm_compute in Hrun. injection Hrun as <-. vm_compute. reflexivity.
Defined.

End app_filter_sample.
